(** * open-meteo-analyzer: date normalisation, filtering and aggregation

    A shallow embedding of the logic of the repository's Python sources:

    - [fetcher.py] and [open_meteo_fetcher.py]: [parse_date_input];
    - [visualizer.py] and [visualization_openmeteo.py]: the filtering and
      yearly aggregation done by [visualize_weather_data], and the argument
      validation of the [__main__] block.

    The Python runtime pieces the code calls ([str.strip], [int], f-string
    formatting, [datetime] arithmetic, [strptime]/[strftime]) are modelled in
    module [Py], following the CPython implementation.  The mean that
    [groupby(...).agg] takes is modelled in module [Frame], following
    pandas' [group_mean]: Kahan's summation of the values present and a
    division by their number, in [float64]. *)

From Stdlib Require Import ZArith List String Ascii Bool Lia Sorted.
From Stdlib Require Import Numbers.DecimalString.
From Stdlib Require Import QArith.
From Stdlib Require Floats.PrimFloat Numbers.Cyclic.Int63.Uint63.
Import ListNotations.

Open Scope string_scope.
Open Scope Z_scope.

(* ================================================================== *)
(** * The Python runtime, as far as the sources use it *)
(* ================================================================== *)

Module Py.

(** ** Exceptions

    The sources raise and catch [ValueError]; [datetime] arithmetic can also
    raise [OverflowError], which no handler of the sources catches. *)

Inductive exn : Type :=
| ValueError (msg : string)
| OverflowError.

Inductive result (A : Type) : Type :=
| Ok (a : A)
| Raise (e : exn).

Arguments Ok {A} a.
Arguments Raise {A} e.

Definition bind {A B : Type} (r : result A) (k : A -> result B) : result B :=
  match r with
  | Ok a => k a
  | Raise e => Raise e
  end.

(** [try: body except ValueError: raise ValueError(msg)]: every [ValueError]
    of the body is replaced, other exceptions pass. *)
Definition try_except_ValueError {A : Type} (body : result A) (msg : string)
  : result A :=
  match body with
  | Ok a => Ok a
  | Raise (ValueError _) => Raise (ValueError msg)
  | Raise OverflowError => Raise OverflowError
  end.

(** ** Characters and strings (code points below 256) *)

Definition code (c : ascii) : Z := Z.of_N (N_of_ascii c).

Definition is_digit (c : ascii) : bool := (48 <=? code c) && (code c <=? 57).

Definition digit_val (c : ascii) : Z := code c - 48.

(** [str.isspace] on the code points below 256. *)
Definition is_space (c : ascii) : bool :=
  ((9 <=? code c) && (code c <=? 13))
  || ((28 <=? code c) && (code c <=? 32))
  || (code c =? 133) || (code c =? 160).

(** What [int] skips around a literal: C [isspace] on ASCII, and the
    non-ASCII characters of [is_space]. *)
Definition is_int_space (c : ascii) : bool :=
  ((9 <=? code c) && (code c <=? 13))
  || (code c =? 32) || (code c =? 133) || (code c =? 160).

Fixpoint lstrip (sp : ascii -> bool) (s : string) : string :=
  match s with
  | EmptyString => EmptyString
  | String c s' => if sp c then lstrip sp s' else s
  end.

Fixpoint rstrip (sp : ascii -> bool) (s : string) : string :=
  match s with
  | EmptyString => EmptyString
  | String c s' =>
      match rstrip sp s' with
      | EmptyString => if sp c then EmptyString else String c EmptyString
      | t => String c t
      end
  end.

(** [s.strip()] *)
Definition strip (s : string) : string := rstrip is_space (lstrip is_space s).

(** [len(s)] *)
Definition len (s : string) : Z := Z.of_nat (String.length s).

(** [s[i] == c] for an index inside the string. *)
Definition char_is (s : string) (i : nat) (c : ascii) : bool :=
  match String.get i s with
  | Some d => Ascii.eqb d c
  | None => false
  end.

(** [s.split(sep)] for a one-character separator. *)
Fixpoint split (sep : ascii) (s : string) : list string :=
  match s with
  | EmptyString => [EmptyString]
  | String c s' =>
      if Ascii.eqb c sep then EmptyString :: split sep s'
      else match split sep s' with
           | [] => [String c EmptyString]
           | w :: ws => String c w :: ws
           end
  end.

(** [a, b = xs]: unpacking a list into two names raises [ValueError] unless
    the list has exactly two elements. *)
Definition unpack2 {A : Type} (xs : list A) : result (A * A) :=
  match xs with
  | [a; b] => Ok (a, b)
  | _ => Raise (ValueError "wrong number of values to unpack")
  end.

(** ** [int(s)] in base 10

    Surrounding whitespace is dropped, one sign is allowed, and single
    underscores may separate digits. *)

Fixpoint int_digits (s : string) (acc : Z) (after_digit : bool) : option Z :=
  match s with
  | EmptyString => if after_digit then Some acc else None
  | String c s' =>
      if is_digit c then int_digits s' (10 * acc + digit_val c) true
      else if Ascii.eqb c "_" then
             if after_digit then int_digits s' acc false else None
           else None
  end.

Definition int_signed (s : string) : option Z :=
  match s with
  | String "+" s' => int_digits s' 0 false
  | String "-" s' => option_map Z.opp (int_digits s' 0 false)
  | _ => int_digits s 0 false
  end.

Definition int (s : string) : result Z :=
  match int_signed (rstrip is_int_space (lstrip is_int_space s)) with
  | Some z => Ok z
  | None => Raise (ValueError "invalid literal for int() with base 10")
  end.

(** ** Formatting integers *)

(** [str(n)], which is also what [f"{n}"] gives. *)
Definition str (n : Z) : string := NilZero.string_of_int (Z.to_int n).

Fixpoint zeros (k : nat) : string :=
  match k with
  | O => EmptyString
  | S k' => String "0" (zeros k')
  end.

(** [f"{n:0wd}"]: sign-aware zero padding to width [w]. *)
Definition zfill (w : nat) (n : Z) : string :=
  if n <? 0 then
    let d := str (- n) in
    String "-" (zeros (w - 1 - String.length d) ++ d)
  else
    let d := str n in
    zeros (w - String.length d) ++ d.

(** ** [datetime] *)

Record datetime : Type := mkdt {
  year : Z; month : Z; day : Z;
  hour : Z; minute : Z; second : Z; microsecond : Z
}.

Definition is_leap (y : Z) : bool :=
  (y mod 4 =? 0) && (negb (y mod 100 =? 0) || (y mod 400 =? 0)).

Definition DAYS_IN_MONTH : list Z :=
  [-1; 31; 28; 31; 30; 31; 30; 31; 31; 30; 31; 30; 31].

Definition DAYS_BEFORE_MONTH : list Z :=
  [-1; 0; 31; 59; 90; 120; 151; 181; 212; 243; 273; 304; 334].

Definition tbl (t : list Z) (i : Z) : Z := nth (Z.to_nat i) t 0.

Definition b2z (b : bool) : Z := if b then 1 else 0.

Definition days_before_year (y : Z) : Z :=
  let y := y - 1 in y * 365 + y / 4 - y / 100 + y / 400.

Definition days_in_month (y m : Z) : Z :=
  if (m =? 2) && is_leap y then 29 else tbl DAYS_IN_MONTH m.

Definition days_before_month (y m : Z) : Z :=
  tbl DAYS_BEFORE_MONTH m + b2z ((m >? 2) && is_leap y).

Definition ymd2ord (y m d : Z) : Z :=
  days_before_year y + days_before_month y m + d.

Definition DI400Y : Z := 146097.
Definition DI100Y : Z := 36524.
Definition DI4Y : Z := 1461.

Definition ord2ymd (n : Z) : Z * Z * Z :=
  let n := n - 1 in
  let n400 := n / DI400Y in
  let n := n mod DI400Y in
  let y := n400 * 400 + 1 in
  let n100 := n / DI100Y in
  let n := n mod DI100Y in
  let n4 := n / DI4Y in
  let n := n mod DI4Y in
  let n1 := n / 365 in
  let n := n mod 365 in
  let y := y + n100 * 100 + n4 * 4 + n1 in
  if (n1 =? 4) || (n100 =? 4) then (y - 1, 12, 31)
  else
    let leapyear := (n1 =? 3) && (negb (n4 =? 24) || (n100 =? 3)) in
    let m := Z.shiftr (n + 50) 5 in
    let preceding := tbl DAYS_BEFORE_MONTH m + b2z ((m >? 2) && leapyear) in
    if preceding >? n then
      let m := m - 1 in
      let preceding :=
        preceding - (tbl DAYS_IN_MONTH m + b2z ((m =? 2) && leapyear)) in
      (y, m, n - preceding + 1)
    else (y, m, n - preceding + 1).

Definition MINYEAR : Z := 1.
Definition MAXYEAR : Z := 9999.

Definition valid_ymd (y m d : Z) : bool :=
  (MINYEAR <=? y) && (y <=? MAXYEAR) && (1 <=? m) && (m <=? 12)
  && (1 <=? d) && (d <=? days_in_month y m).

(** [datetime(y, m, d)] *)
Definition datetime_new (y m d : Z) : result datetime :=
  if valid_ymd y m d then Ok (mkdt y m d 0 0 0 0)
  else Raise (ValueError "date value out of range").

Definition toordinal (t : datetime) : Z := ymd2ord (year t) (month t) (day t).

(** [t - relativedelta(days=k)]: the clock time is kept, the date moves
    through its ordinal. *)
Definition sub_days (t : datetime) (k : Z) : result datetime :=
  let n := toordinal t - k in
  if (1 <=? n) && (n <=? ymd2ord MAXYEAR 12 31) then
    let '(y, m, d) := ord2ymd n in
    Ok (mkdt y m d (hour t) (minute t) (second t) (microsecond t))
  else Raise OverflowError.

Fixpoint lex_gt (a b : list Z) : bool :=
  match a, b with
  | x :: a', y :: b' => (x >? y) || ((x =? y) && lex_gt a' b')
  | _, _ => false
  end.

Definition fields (t : datetime) : list Z :=
  [year t; month t; day t; hour t; minute t; second t; microsecond t].

(** [a > b] on datetimes. *)
Definition dt_gt (a b : datetime) : bool := lex_gt (fields a) (fields b).

(** ** [datetime.strptime(s, "%Y-%m-%d")]

    The format compiles to the regular expression
    [(\d\d\d\d)-(1[0-2]|0[1-9]|[1-9])-(3[01]|[12]\d|0[1-9]|[1-9]| [1-9])],
    matched at the start of the string with backtracking; text left over
    after the match is an error. *)

Definition in_range (c : ascii) (lo hi : Z) : bool :=
  (lo <=? code c) && (code c <=? hi).

(** Each alternative gives the value read and the rest of the string. *)
Definition alt := string -> option (Z * string).

Definition alt2 (p1 p2 : ascii -> bool) : alt := fun s =>
  match s with
  | String a (String b r) =>
      if p1 a && p2 b then Some (10 * digit_val a + digit_val b, r) else None
  | _ => None
  end.

Definition alt1 (p : ascii -> bool) : alt := fun s =>
  match s with
  | String a r => if p a then Some (digit_val a, r) else None
  | _ => None
  end.

Definition alt_sp (p : ascii -> bool) : alt := fun s =>
  match s with
  | String a (String b r) =>
      if Ascii.eqb a " " && p b then Some (digit_val b, r) else None
  | _ => None
  end.

Definition just (c : ascii) : ascii -> bool := fun a => Ascii.eqb a c.
Definition btw (lo hi : Z) : ascii -> bool := fun a => in_range a lo hi.

Definition re_m : list alt :=
  [alt2 (just "1") (btw 48 50); alt2 (just "0") (btw 49 57); alt1 (btw 49 57)].

Definition re_d : list alt :=
  [alt2 (just "3") (btw 48 49); alt2 (btw 49 50) is_digit;
   alt2 (just "0") (btw 49 57); alt1 (btw 49 57); alt_sp (btw 49 57)].

Definition re_Y : alt := fun s =>
  match s with
  | String a (String b (String c (String d r))) =>
      if is_digit a && is_digit b && is_digit c && is_digit d
      then Some (1000 * digit_val a + 100 * digit_val b
                 + 10 * digit_val c + digit_val d, r)
      else None
  | _ => None
  end.

Definition lit (c : ascii) (s : string) : option string :=
  match s with
  | String a r => if Ascii.eqb a c then Some r else None
  | _ => None
  end.

(** First alternative, in order, after which the continuation matches. *)
Fixpoint first_match {A : Type} (alts : list alt)
  (k : Z -> string -> option A) (s : string) : option A :=
  match alts with
  | [] => None
  | a :: rest =>
      match a s with
      | Some (v, r) =>
          match k v r with
          | Some x => Some x
          | None => first_match rest k s
          end
      | None => first_match rest k s
      end
  end.

Definition re_match (s : string) : option (Z * Z * Z * string) :=
  match re_Y s with
  | Some (y, r) =>
      match lit "-" r with
      | Some r =>
          first_match re_m (fun m r =>
            match lit "-" r with
            | Some r => first_match re_d (fun d r => Some (y, m, d, r)) r
            | None => None
            end) r
      | None => None
      end
  | None => None
  end.

Definition strptime (s : string) : result datetime :=
  match re_match s with
  | Some (y, m, d, EmptyString) => datetime_new y m d
  | Some (_, _, _, String _ _) =>
      Raise (ValueError "unconverted data remains")
  | None => Raise (ValueError "time data does not match format")
  end.

(** [t.strftime("%Y-%m-%d")].  The year is printed on four digits; the C
    libraries agree on that from year 1000 on. *)
Definition strftime (t : datetime) : string :=
  zfill 4 (year t) ++ "-" ++ zfill 2 (month t) ++ "-" ++ zfill 2 (day t).

End Py.

Notation "x <- c1 ;; c2" := (Py.bind c1 (fun x => c2))
  (at level 61, c1 at next level, right associativity).
Notation "' pat <- c1 ;; c2" := (Py.bind c1 (fun x => match x with pat => c2 end))
  (at level 61, pat pattern, c1 at next level, right associativity).

(* ================================================================== *)
(** * fetcher.py *)
(* ================================================================== *)

Module Fetcher.
Import Py.

(** [parse_date_input(date_str, is_start)]; [now] is what [datetime.now()]
    returns during the call. *)
Definition parse_date_input (now : datetime) (date_str : string)
  (is_start : bool) : result string :=
  let date_str := strip date_str in
  yesterday <- sub_days now 1 ;;
  if len date_str =? 4 then
    try_except_ValueError
      (year <- int date_str ;;
       if is_start then Ok (str year ++ "-01-01")
       else
         let result_date := str year ++ "-12-31" in
         parsed_date <- strptime result_date ;;
         if dt_gt parsed_date yesterday then Ok (strftime yesterday)
         else Ok result_date)
      "Invalid year format. Please use YYYY."
  else if (len date_str =? 7) && char_is date_str 4 "-" then
    try_except_ValueError
      ('(year, month) <- unpack2 (split "-" date_str) ;;
       year <- int year ;;
       month <- int month ;;
       if (month <? 1) || (month >? 12) then
         Raise (ValueError "Month must be between 1 and 12.")
       else if is_start then Ok (str year ++ "-" ++ zfill 2 month ++ "-01")
       else
         next_month_date <-
           (if month =? 12 then datetime_new (year + 1) 1 1
            else datetime_new year (month + 1) 1) ;;
         before <- sub_days next_month_date 1 ;;
         let last_day := day before in
         let result_date :=
           str year ++ "-" ++ zfill 2 month ++ "-" ++ zfill 2 last_day in
         parsed_date <- strptime result_date ;;
         if dt_gt parsed_date yesterday then Ok (strftime yesterday)
         else Ok result_date)
      "Invalid year-month format. Please use YYYY-MM."
  else if (len date_str =? 10) && char_is date_str 4 "-"
          && char_is date_str 7 "-" then
    try_except_ValueError
      (parsed_date <- strptime date_str ;;
       if negb is_start && dt_gt parsed_date yesterday
       then Ok (strftime yesterday)
       else Ok date_str)
      "Invalid date format. Please use YYYY-MM-DD."
  else
    Raise (ValueError
             "Invalid date format. Please use YYYY, YYYY-MM, or YYYY-MM-DD.").

End Fetcher.

(* ================================================================== *)
(** * open_meteo_fetcher.py *)
(* ================================================================== *)

Module OpenMeteoFetcher.
Import Py.

(** The second copy of [parse_date_input], embedded from its own source. *)
Definition parse_date_input (now : datetime) (date_str : string)
  (is_start : bool) : result string :=
  let date_str := strip date_str in
  yesterday <- sub_days now 1 ;;
  if len date_str =? 4 then
    try_except_ValueError
      (year <- int date_str ;;
       if is_start then Ok (str year ++ "-01-01")
       else
         let result_date := str year ++ "-12-31" in
         parsed_date <- strptime result_date ;;
         if dt_gt parsed_date yesterday then Ok (strftime yesterday)
         else Ok result_date)
      "Invalid year format. Please use YYYY."
  else if (len date_str =? 7) && char_is date_str 4 "-" then
    try_except_ValueError
      ('(year, month) <- unpack2 (split "-" date_str) ;;
       year <- int year ;;
       month <- int month ;;
       if (month <? 1) || (month >? 12) then
         Raise (ValueError "Month must be between 1 and 12.")
       else if is_start then Ok (str year ++ "-" ++ zfill 2 month ++ "-01")
       else
         next_month_date <-
           (if month =? 12 then datetime_new (year + 1) 1 1
            else datetime_new year (month + 1) 1) ;;
         before <- sub_days next_month_date 1 ;;
         let last_day := day before in
         let result_date :=
           str year ++ "-" ++ zfill 2 month ++ "-" ++ zfill 2 last_day in
         parsed_date <- strptime result_date ;;
         if dt_gt parsed_date yesterday then Ok (strftime yesterday)
         else Ok result_date)
      "Invalid year-month format. Please use YYYY-MM."
  else if (len date_str =? 10) && char_is date_str 4 "-"
          && char_is date_str 7 "-" then
    try_except_ValueError
      (parsed_date <- strptime date_str ;;
       if negb is_start && dt_gt parsed_date yesterday
       then Ok (strftime yesterday)
       else Ok date_str)
      "Invalid date format. Please use YYYY-MM-DD."
  else
    Raise (ValueError
             "Invalid date format. Please use YYYY, YYYY-MM, or YYYY-MM-DD.").

End OpenMeteoFetcher.

(* ================================================================== *)
(** * The data frame of both visualizers *)
(* ================================================================== *)

(** Arithmetic of the temperature columns, as the aggregation uses it:
    addition, subtraction, zero, the division of a sum by a count, and the
    test [x != x] that only a NaN passes. *)
Class Num (T : Type) : Type := {
  nadd : T -> T -> T;
  nsub : T -> T -> T;
  nzero : T;
  ndiv : T -> nat -> T;
  nisnan : T -> bool
}.

(** The columns of the program hold [float64]: IEEE 754 binary64 numbers
    with the operations rounded to nearest, ties to even.  A count is
    converted to [float64] before the division. *)
#[export] Instance Num_float64 : Num PrimFloat.float := {
  nadd := PrimFloat.add;
  nsub := PrimFloat.sub;
  nzero := PrimFloat.zero;
  ndiv := fun s n =>
    PrimFloat.div s (PrimFloat.of_uint63 (Uint63.of_Z (Z.of_nat n)));
  nisnan := fun x => negb (PrimFloat.eqb x x)
}.

(** Exact rational arithmetic, for frames whose sums need no rounding. *)
#[export] Instance Num_Q : Num Q := {
  nadd := Qplus;
  nsub := Qminus;
  nzero := 0%Q;
  ndiv := fun s n => Qdiv s (inject_Z (Z.of_nat n));
  nisnan := fun _ => false
}.

Module Frame.

Section Frame.
Context {T : Type} `{Num T}.

(** One row of [df]: the parsed date and the three temperature columns; a
    JSON [null] is a missing value ([None]). *)
Record Row : Type := mkRow {
  date : Py.datetime;
  temp_min : option T;
  temp_max : option T;
  temp_mean : option T
}.

Definition DataFrame : Type := list Row.

(** [df["year"] = df["date"].dt.year], [df["month"] = df["date"].dt.month] *)
Definition year (r : Row) : Z := Py.year (date r).
Definition month (r : Row) : Z := Py.month (date r).

Definition notna (v : option T) : bool :=
  match v with Some _ => true | None => false end.

(** [df.dropna(subset=["temp_mean"])] *)
Definition dropna_temp_mean (df : DataFrame) : DataFrame :=
  filter (fun r => notna (temp_mean r)) df.

(** [df.empty] *)
Definition empty (df : DataFrame) : bool :=
  match df with [] => true | _ => false end.

(** The state pandas keeps for one column of one group while it computes
    the mean ([group_mean]): the running sum, the compensation of Kahan's
    summation, and the number of observations. *)
Record Acc : Type := mkAcc { sumx : T; compensation : T; nobs : nat }.

Definition acc0 : Acc := mkAcc nzero nzero 0.

(** One value of the column: a missing value is skipped; otherwise
    [y = val - compensation; t = sumx + y;
     compensation = t - sumx - y; sumx = t], the compensation being reset to
    zero when it is a NaN. *)
Definition acc_add (a : Acc) (v : option T) : Acc :=
  match v with
  | Some val =>
      let y := nsub val (compensation a) in
      let t := nadd (sumx a) y in
      let c := nsub (nsub t (sumx a)) y in
      mkAcc t (if nisnan c then nzero else c) (S (nobs a))
  | None => a
  end.

(** The mean of a group's column: sum over count, missing when the group has
    no observation. *)
Definition acc_mean (a : Acc) : option T :=
  match nobs a with
  | O => None
  | S _ => Some (ndiv (sumx a) (nobs a))
  end.

(** [mean] of one column of one group, from its values in frame order. *)
Definition group_mean (vals : list (option T)) : option T :=
  acc_mean (fold_left acc_add vals acc0).

Record GroupAcc : Type := mkGroup { g_mean : Acc; g_min : Acc; g_max : Acc }.

Definition group0 : GroupAcc := mkGroup acc0 acc0 acc0.

Definition group_add (g : GroupAcc) (r : Row) : GroupAcc :=
  mkGroup (acc_add (g_mean g) (temp_mean r))
          (acc_add (g_min g) (temp_min r))
          (acc_add (g_max g) (temp_max r)).

(** The groups are kept by ascending key. *)
Fixpoint upsert (r : Row) (gs : list (Z * GroupAcc)) : list (Z * GroupAcc) :=
  match gs with
  | [] => [(year r, group_add group0 r)]
  | (k, g) :: gs' =>
      if year r <? k then (year r, group_add group0 r) :: gs
      else if year r =? k then (k, group_add g r) :: gs'
      else (k, g) :: upsert r gs'
  end.

Definition groups (df : DataFrame) : list (Z * GroupAcc) :=
  fold_left (fun gs r => upsert r gs) df [].

(** One row of [yearly_stats]. *)
Record YearlyStat : Type := mkStat {
  s_year : Z;
  s_temp_mean : option T;
  s_temp_min : option T;
  s_temp_max : option T
}.

(** [df.groupby("year").agg({"temp_mean": "mean", "temp_min": "mean",
    "temp_max": "mean"}).reset_index()] *)
Definition groupby_year_mean (df : DataFrame) : list YearlyStat :=
  map (fun kg => mkStat (fst kg) (acc_mean (g_mean (snd kg)))
                        (acc_mean (g_min (snd kg)))
                        (acc_mean (g_max (snd kg))))
      (groups df).

(** How far a run of [visualize_weather_data] gets once the frame is built:
    it returns with one of its two messages and no chart, or it goes on to
    draw the chart from the yearly statistics.  The drawing itself, which
    can raise, is the matter of module [Plot]. *)
Inductive Outcome : Type :=
| NoDataAvailable (start_year : Z)
| NoUsableData
| Chart (yearly_stats : list YearlyStat).

End Frame.

Arguments Row T : clear implicits.
Arguments DataFrame T : clear implicits.
Arguments YearlyStat T : clear implicits.
Arguments Outcome T : clear implicits.
Arguments Acc T : clear implicits.
Arguments GroupAcc T : clear implicits.

End Frame.

(* ================================================================== *)
(** * visualizer.py *)
(* ================================================================== *)

Module Visualizer.
Import Frame.

Section Engine.
Context {T : Type} `{Num T}.

(** Lines 82-103, the year filter.  [inl] is the early [return] taken when
    the start of a year range is the current year or later. *)
Definition filter_by_year (current_year : Z) (df_filtered : DataFrame T)
  (year : option Z) (year_range : option (Z * Z))
  : Outcome T + DataFrame T :=
  match year, year_range with
  | Some year, _ =>
      let year :=
        if year >=? current_year then Z.min year (current_year - 1)
        else year in
      inr (filter (fun r => Frame.year r =? year) df_filtered)
  | None, Some (start_year, end_year) =>
      let end_year :=
        if end_year >=? current_year then Z.min end_year (current_year - 1)
        else end_year in
      if start_year >=? current_year then inl (NoDataAvailable start_year)
      else
        inr (filter (fun r => (Frame.year r >=? start_year)
                              && (Frame.year r <=? end_year)) df_filtered)
  | None, None =>
      inr (filter (fun r => Frame.year r <? current_year) df_filtered)
  end.

(** The mask that drops the current and later months of the current year. *)
Definition not_current_period (current_year current_month : Z) (r : Row T)
  : bool :=
  negb ((Frame.year r =? current_year) && (Frame.month r >=? current_month)).

(** Lines 105-150, the month filter. *)
Definition filter_by_month (current_year current_month : Z)
  (df_filtered : DataFrame T)
  (month : option Z) (month_range : option (Z * Z)) : DataFrame T :=
  match month, month_range with
  | Some month, _ =>
      let df_filtered :=
        filter (not_current_period current_year current_month) df_filtered in
      filter (fun r => Frame.month r =? month) df_filtered
  | None, Some (start_month, end_month) =>
      let df_filtered :=
        filter (not_current_period current_year current_month) df_filtered in
      if start_month <=? end_month then
        filter (fun r => (Frame.month r >=? start_month)
                         && (Frame.month r <=? end_month)) df_filtered
      else
        filter (fun r => (Frame.month r >=? start_month)
                         || (Frame.month r <=? end_month)) df_filtered
  | None, None =>
      filter (not_current_period current_year current_month) df_filtered
  end.

(** [df_clean] of lines 152-153, when the run reaches them. *)
Definition df_clean (current_date : Py.datetime) (df : DataFrame T)
  (year : option Z) (year_range : option (Z * Z))
  (month : option Z) (month_range : option (Z * Z))
  : Outcome T + DataFrame T :=
  let current_year := Py.year current_date in
  let current_month := Py.month current_date in
  match filter_by_year current_year df year year_range with
  | inl returned => inl returned
  | inr df_filtered =>
      inr (dropna_temp_mean
             (filter_by_month current_year current_month df_filtered
                              month month_range))
  end.

(** [visualize_weather_data] from the data frame on; [current_date] is what
    [datetime.now()] returns. *)
Definition visualize_weather_data (current_date : Py.datetime)
  (df : DataFrame T)
  (year : option Z) (year_range : option (Z * Z))
  (month : option Z) (month_range : option (Z * Z)) : Outcome T :=
  match df_clean current_date df year year_range month month_range with
  | inl returned => returned
  | inr df_clean =>
      if empty df_clean then NoUsableData
      else Chart (groupby_year_mean df_clean)
  end.

End Engine.

(** The parsed command line: [--year], [--year-range START END],
    [--month] and [--month-range START END], each absent ([None]) or
    given.  [--month] is declared with the choices 1 to 12: for any other
    value the parser ends the run itself, with exit code 2, before the
    block below; the record does not rule such a value out. *)
Record Args : Type := mkArgs {
  a_year : option Z;
  a_year_range : option (Z * Z);
  a_month : option Z;
  a_month_range : option (Z * Z)
}.

Inductive Message : Type :=
| BothYearAndYearRange
| BothMonthAndMonthRange
| MonthRangeOutOfBounds
| StartYearAfterEndYear.

(** What the [__main__] block does after parsing: [exit(code)] after a
    message, or the call of [visualize_weather_data] with the four
    selectors. *)
Inductive MainResult : Type :=
| Exit (code : Z) (msg : Message)
| Call (year : option Z) (year_range : option (Z * Z))
       (month : option Z) (month_range : option (Z * Z)).

(** Truth value of an optional integer, and of an optional two-element
    list. *)
Definition truthy_int (o : option Z) : bool :=
  match o with
  | Some z => negb (z =? 0)
  | None => false
  end.

Definition truthy_pair (o : option (Z * Z)) : bool :=
  match o with
  | Some _ => true
  | None => false
  end.

Definition main (args : Args) : MainResult :=
  if truthy_int (a_year args) && truthy_pair (a_year_range args) then
    Exit 1 BothYearAndYearRange
  else if truthy_int (a_month args) && truthy_pair (a_month_range args) then
    Exit 1 BothMonthAndMonthRange
  else if match a_month_range args with
          | Some (start_month, end_month) =>
              negb ((1 <=? start_month) && (start_month <=? 12)
                    && (1 <=? end_month) && (end_month <=? 12))
          | None => false
          end
  then Exit 1 MonthRangeOutOfBounds
  else if match a_year_range args with
          | Some (start_year, end_year) => start_year >? end_year
          | None => false
          end
  then Exit 1 StartYearAfterEndYear
  else Call (a_year args) (a_year_range args)
            (a_month args) (a_month_range args).

End Visualizer.

(* ================================================================== *)
(** * visualization_openmeteo.py *)
(* ================================================================== *)

Module VisualizationOpenmeteo.
Import Frame.

Section Engine.
Context {T : Type} `{Num T}.

(** Lines 67-76, the year filter. *)
Definition filter_by_year (df_filtered : DataFrame T)
  (year : option Z) (year_range : option (Z * Z)) : DataFrame T :=
  match year, year_range with
  | Some year, _ => filter (fun r => Frame.year r =? year) df_filtered
  | None, Some (start_year, end_year) =>
      filter (fun r => (Frame.year r >=? start_year)
                       && (Frame.year r <=? end_year)) df_filtered
  | None, None => df_filtered
  end.

(** Lines 78-101, the month filter. *)
Definition filter_by_month (df_filtered : DataFrame T)
  (month : option Z) (month_range : option (Z * Z)) : DataFrame T :=
  match month, month_range with
  | Some month, _ => filter (fun r => Frame.month r =? month) df_filtered
  | None, Some (start_month, end_month) =>
      if start_month <=? end_month then
        filter (fun r => (Frame.month r >=? start_month)
                         && (Frame.month r <=? end_month)) df_filtered
      else
        filter (fun r => (Frame.month r >=? start_month)
                         || (Frame.month r <=? end_month)) df_filtered
  | None, None => df_filtered
  end.

(** [df_clean] of lines 103-104. *)
Definition df_clean (df : DataFrame T)
  (year : option Z) (year_range : option (Z * Z))
  (month : option Z) (month_range : option (Z * Z)) : DataFrame T :=
  dropna_temp_mean
    (filter_by_month (filter_by_year df year year_range) month month_range).

(** [visualize_weather_data] from the data frame on. *)
Definition visualize_weather_data (df : DataFrame T)
  (year : option Z) (year_range : option (Z * Z))
  (month : option Z) (month_range : option (Z * Z)) : Outcome T :=
  let df_clean := df_clean df year year_range month month_range in
  if empty df_clean then NoUsableData
  else Chart (groupby_year_mean df_clean).

End Engine.

(** The parsed command line: [--year], [--year-range START END],
    [--month] and [--month-range START END], each absent ([None]) or
    given.  [--month] is declared with the choices 1 to 12: for any other
    value the parser ends the run itself, with exit code 2, before the
    block below; the record does not rule such a value out. *)
Record Args : Type := mkArgs {
  a_year : option Z;
  a_year_range : option (Z * Z);
  a_month : option Z;
  a_month_range : option (Z * Z)
}.

Inductive Message : Type :=
| BothYearAndYearRange
| BothMonthAndMonthRange
| MonthRangeOutOfBounds
| StartYearAfterEndYear.

(** What the [__main__] block does after parsing: [exit(code)] after a
    message, or the call of [visualize_weather_data] with the four
    selectors. *)
Inductive MainResult : Type :=
| Exit (code : Z) (msg : Message)
| Call (year : option Z) (year_range : option (Z * Z))
       (month : option Z) (month_range : option (Z * Z)).

(** Truth value of an optional integer, and of an optional two-element
    list. *)
Definition truthy_int (o : option Z) : bool :=
  match o with
  | Some z => negb (z =? 0)
  | None => false
  end.

Definition truthy_pair (o : option (Z * Z)) : bool :=
  match o with
  | Some _ => true
  | None => false
  end.

Definition main (args : Args) : MainResult :=
  if truthy_int (a_year args) && truthy_pair (a_year_range args) then
    Exit 1 BothYearAndYearRange
  else if truthy_int (a_month args) && truthy_pair (a_month_range args) then
    Exit 1 BothMonthAndMonthRange
  else if match a_month_range args with
          | Some (start_month, end_month) =>
              negb ((1 <=? start_month) && (start_month <=? 12)
                    && (1 <=? end_month) && (end_month <=? 12))
          | None => false
          end
  then Exit 1 MonthRangeOutOfBounds
  else if match a_year_range args with
          | Some (start_year, end_year) => start_year >? end_year
          | None => false
          end
  then Exit 1 StartYearAfterEndYear
  else Call (a_year args) (a_year_range args)
            (a_month args) (a_month_range args).

End VisualizationOpenmeteo.

(* ================================================================== *)
(** * File names, presets and whole runs *)
(* ================================================================== *)

(** More of [str]. *)
Module PyStr.
Import Py.

(** [s.replace(a, b)] for one-character [a] and [b]. *)
Fixpoint replace (a b : ascii) (s : string) : string :=
  match s with
  | EmptyString => EmptyString
  | String c s' => String (if Ascii.eqb c a then b else c) (replace a b s')
  end.

(** [c.lower()] on the code points below 256: the letters A to Z and the
    accented capitals 192 to 222, the multiplication sign 215 apart. *)
Definition lower_char (c : ascii) : ascii :=
  let n := code c in
  if ((65 <=? n) && (n <=? 90))
     || ((192 <=? n) && (n <=? 222) && negb (n =? 215))
  then ascii_of_N (Z.to_N (n + 32)) else c.

(** [s.lower()] *)
Fixpoint lower (s : string) : string :=
  match s with
  | EmptyString => EmptyString
  | String c s' => String (lower_char c) (lower s')
  end.

(** [s.endswith(t)] *)
Definition endswith (s t : string) : bool :=
  let n := String.length s in
  let k := String.length t in
  (k <=? n)%nat && String.eqb (substring (n - k) k s) t.

(** [c in s] for a character [c]. *)
Fixpoint contains (c : ascii) (s : string) : bool :=
  match s with
  | EmptyString => false
  | String d s' => Ascii.eqb d c || contains c s'
  end.

(** Truth value of an optional string: [None] and the empty string are
    false. *)
Definition truthy (o : option string) : bool :=
  match o with
  | Some (String _ _) => true
  | _ => false
  end.

End PyStr.

(** [fetcher.py], [process_weather_data] and [get_dates_interactive]. *)
Module FetcherIO.
Import Py PyStr.

(** Lines 242-248: the name of the file the data is written to. *)
Definition filename (location_name start_date end_date : string)
  (output_filename : option string) : string :=
  match output_filename with
  | Some name =>
      if truthy output_filename then name ++ ".json"
      else replace " " "_" location_name ++ "_" ++ start_date ++ "_to_"
           ++ end_date ++ ".json"
  | None =>
      replace " " "_" location_name ++ "_" ++ start_date ++ "_to_"
      ++ end_date ++ ".json"
  end.

(** [get_dates_interactive], on the two lines typed: both dates, or
    [(None, None)] after a [ValueError]; another exception passes. *)
Definition get_dates_interactive (now : datetime)
  (typed_start typed_end : string)
  : result (option string * option string) :=
  let start_date := strip typed_start in
  let end_date := strip typed_end in
  match
    (start_date <- Fetcher.parse_date_input now start_date true ;;
     end_date <- Fetcher.parse_date_input now end_date false ;;
     Ok (Some start_date, Some end_date))
  with
  | Ok dates => Ok dates
  | Raise (ValueError _) => Ok (None, None)
  | Raise OverflowError => Raise OverflowError
  end.

End FetcherIO.

(** [open_meteo_fetcher.py], the file name of [main]. *)
Module OpenMeteoFetcherIO.
Import Py PyStr.

(** Line 162 *)
Definition filename (location_name start_date end_date : string) : string :=
  replace " " "_" location_name ++ "_" ++ start_date ++ "_to_" ++ end_date
  ++ ".json".

End OpenMeteoFetcherIO.

(** [gui.py]: the date presets and the file the form looks for. *)
Module Gui.
Import Py PyStr.

(** [set_last_year]: the texts put in the start and end entries. *)
Definition set_last_year (now : datetime) : string * string :=
  let last_year := year now - 1 in
  (str last_year ++ "-01-01", str last_year ++ "-12-31").

(** [set_this_year] *)
Definition set_this_year (now : datetime) : string * string :=
  let this_year := year now in
  (str this_year ++ "-01-01", str this_year ++ "-12-31").

(** [set_last_30_days] *)
Definition set_last_30_days (now : datetime) : result (string * string) :=
  let end_date := now in
  start_date <- sub_days end_date 30 ;;
  Ok (strftime start_date, strftime end_date).

(** The file [fetch_weather_data] and [fetch_and_visualize] look for after
    the fetcher has run, from the location typed. *)
Definition weather_filename (location : string) : string :=
  replace " " "_" (lower location) ++ "_weather_data.json".

End Gui.

(** [visualizer.py], lines 333-357: the file the chart is saved to. *)
Module VisualizerOutput.
Import Py PyStr.

(** [year] as it stands after the year filter of lines 83-86. *)
Definition year_after_filter (current_year : Z) (year : option Z) : option Z :=
  match year with
  | Some year =>
      Some (if year >=? current_year then Z.min year (current_year - 1)
            else year)
  | None => None
  end.

Definition filename_suffix (year : option Z) (year_range : option (Z * Z))
  (month : option Z) (month_range : option (Z * Z)) : string :=
  (match year, year_range with
   | Some year, _ => "_year" ++ str year
   | None, Some (y0, y1) => "_years" ++ str y0 ++ "-" ++ str y1
   | None, None => ""
   end)
  ++
  (match month, month_range with
   | Some month, _ => "_month" ++ zfill 2 month
   | None, Some (m0, m1) => "_months" ++ zfill 2 m0 ++ "-" ++ zfill 2 m1
   | None, None => ""
   end).

(** The custom name of lines 336-344. *)
Definition custom_output_file (output_filename : string) : string :=
  let output_file := output_filename in
  let output_file :=
    if negb (endswith output_file ".png") then output_file ++ ".png"
    else output_file in
  if negb (contains "/" output_file) then "img/" ++ output_file
  else output_file.

Definition output_file (current_year : Z) (location_coords : string)
  (year : option Z) (year_range : option (Z * Z))
  (month : option Z) (month_range : option (Z * Z))
  (output_filename : option string) : string :=
  let year := year_after_filter current_year year in
  match output_filename with
  | Some name =>
      if truthy output_filename then custom_output_file name
      else "img/weather_trend_" ++ location_coords
           ++ filename_suffix year year_range month month_range ++ ".png"
  | None =>
      "img/weather_trend_" ++ location_coords
      ++ filename_suffix year year_range month month_range ++ ".png"
  end.

End VisualizerOutput.

(** [visualization_openmeteo.py], lines 192-203. *)
Module VisualizationOpenmeteoOutput.
Import Py PyStr.

Definition output_file (location_coords : string)
  (year : option Z) (year_range : option (Z * Z))
  (month : option Z) (month_range : option (Z * Z)) : string :=
  "img/weather_trend_" ++ location_coords
  ++ VisualizerOutput.filename_suffix year year_range month month_range
  ++ ".png".

End VisualizationOpenmeteoOutput.

(** The [__main__] blocks with the call they end in: the exit code after a
    rejected command line, or the outcome of [visualize_weather_data]. *)
Module Script.
Import Frame.

Inductive Run (T : Type) : Type :=
| SystemExit (code : Z)
| Returned (outcome : Outcome T).

Arguments SystemExit {T} code.
Arguments Returned {T} outcome.

Definition visualizer {T : Type} `{Num T} (current_date : Py.datetime)
  (df : DataFrame T) (args : Visualizer.Args) : Run T :=
  match Visualizer.main args with
  | Visualizer.Exit code _ => SystemExit code
  | Visualizer.Call year year_range month month_range =>
      Returned (Visualizer.visualize_weather_data current_date df
                  year year_range month month_range)
  end.

Definition visualization_openmeteo {T : Type} `{Num T}
  (df : DataFrame T) (args : VisualizationOpenmeteo.Args) : Run T :=
  match VisualizationOpenmeteo.main args with
  | VisualizationOpenmeteo.Exit code _ => SystemExit code
  | VisualizationOpenmeteo.Call year year_range month month_range =>
      Returned (VisualizationOpenmeteo.visualize_weather_data df
                  year year_range month month_range)
  end.

End Script.

(** The rest of [visualize_weather_data]: once [yearly_stats] is computed
    the chart is drawn and saved by calls into matplotlib, which can raise.
    [plot] tells whether they all return for the statistics given. *)
Module Plot.
Import Frame.

Inductive Ending (T : Type) : Type :=
| ReturnedNoDataAvailable (start_year : Z)
| ReturnedNoUsableData
| ChartSaved (yearly_stats : list (YearlyStat T))
| Raised (yearly_stats : list (YearlyStat T)).

Arguments ReturnedNoDataAvailable {T} start_year.
Arguments ReturnedNoUsableData {T}.
Arguments ChartSaved {T} yearly_stats.
Arguments Raised {T} yearly_stats.

Section Plot.
Context {T : Type} `{Num T}.
Variable plot : list (YearlyStat T) -> bool.

Definition finish (o : Outcome T) : Ending T :=
  match o with
  | NoDataAvailable start_year => ReturnedNoDataAvailable start_year
  | NoUsableData => ReturnedNoUsableData
  | Chart yearly_stats =>
      if plot yearly_stats then ChartSaved yearly_stats
      else Raised yearly_stats
  end.

(** [visualizer.py] *)
Definition visualizer (current_date : Py.datetime) (df : DataFrame T)
  (year : option Z) (year_range : option (Z * Z))
  (month : option Z) (month_range : option (Z * Z)) : Ending T :=
  finish (Visualizer.visualize_weather_data current_date df
            year year_range month month_range).

(** [visualization_openmeteo.py] *)
Definition visualization_openmeteo (df : DataFrame T)
  (year : option Z) (year_range : option (Z * Z))
  (month : option Z) (month_range : option (Z * Z)) : Ending T :=
  finish (VisualizationOpenmeteo.visualize_weather_data df
            year year_range month month_range).

End Plot.
End Plot.

(* ================================================================== *)
(** * Definitions used to state and check the properties *)
(* ================================================================== *)

Module Calendar.
Import Py.

(** [f] holds on each of the [p] integers from [lo] on. *)
Fixpoint check_range (f : Z -> bool) (lo : Z) (p : positive) {struct p} : bool :=
  match p with
  | xH => f lo
  | xO q => check_range f lo q && check_range f (lo + Zpos q) q
  | xI q => f lo && check_range f (lo + 1) q && check_range f (lo + 1 + Zpos q) q
  end.

(** Month and day of the [n]-th day (from 0) of a year, as [ord2ymd] ends. *)
Definition month_day (leapyear : bool) (n : Z) : Z * Z :=
  let m := Z.shiftr (n + 50) 5 in
  let preceding := tbl DAYS_BEFORE_MONTH m + b2z ((m >? 2) && leapyear) in
  if preceding >? n then
    let m := m - 1 in
    let preceding :=
      preceding - (tbl DAYS_IN_MONTH m + b2z ((m =? 2) && leapyear)) in
    (m, n - preceding + 1)
  else (m, n - preceding + 1).

(** What is checked of [month_day]: a month from 1 to 12, a day of that
    month, and the [n + 1]-th day of the year. *)
Definition month_day_ok (leapyear : bool) (n : Z) : bool :=
  let '(m, d) := month_day leapyear n in
  (1 <=? m) && (m <=? 12) && (1 <=? d)
  && (d <=? (if (m =? 2) && leapyear then 29 else tbl DAYS_IN_MONTH m))
  && (tbl DAYS_BEFORE_MONTH m + b2z ((m >? 2) && leapyear) + d =? n + 1).

(** [a] falls on a later calendar day than [b]. *)
Definition date_after (a b : datetime) : bool :=
  lex_gt [year a; month a; day a] [year b; month b; day b].

(** The date part could be built by [datetime(y, m, d)]. *)
Definition valid_date (t : datetime) : bool :=
  valid_ymd (year t) (month t) (day t).

(** The time of day is in range. *)
Definition valid_time (t : datetime) : bool :=
  (0 <=? hour t) && (hour t <? 24) && (0 <=? minute t) && (minute t <? 60)
  && (0 <=? second t) && (second t <? 60)
  && (0 <=? microsecond t) && (microsecond t <? 1000000).

(** A reading of the clock: a valid date and time of day, in a year from
    1001 on, so that the day before lies in a year of four digits. *)
Definition clock_ok (now : datetime) : bool :=
  valid_date now && valid_time now && (1001 <=? year now).

(** The same day at 00:00:00. *)
Definition midnight (t : datetime) : datetime :=
  mkdt (year t) (month t) (day t) 0 0 0 0.

(** What is checked of the four-digit years: [str] gives four digits that
    read back as the year, [f"{y:04d}"] gives the same string, and neither
    [strip] nor [int] is disturbed by it. *)
Definition year4_ok (y : Z) : bool :=
  match str y with
  | String a (String b (String c (String d EmptyString))) =>
      is_digit a && is_digit b && is_digit c && is_digit d
      && (1000 * digit_val a + 100 * digit_val b + 10 * digit_val c
          + digit_val d =? y)
      && String.eqb (zfill 4 y) (str y)
      && String.eqb (strip (str y)) (str y)
      && match int (str y) with Ok z => z =? y | Raise _ => false end
  | _ => false
  end.

End Calendar.

Module Manual.
Import Frame.
Local Open Scope list_scope.

Section Manual.
Context {T : Type} `{Num T}.

(** The rows of one year, in frame order. *)
Definition rows_of_year (y : Z) (df : DataFrame T) : DataFrame T :=
  filter (fun r => year r =? y) df.

(** The values present in a column. *)
Fixpoint present (vals : list (option T)) : list T :=
  match vals with
  | [] => []
  | Some x :: vs => x :: present vs
  | None :: vs => present vs
  end.



(** The row of year [y] with the mean of each column taken over the rows of
    that year alone, the way the aggregation takes a mean. *)
Definition year_stat (y : Z) (df : DataFrame T) : YearlyStat T :=
  let rows := rows_of_year y df in
  mkStat y (group_mean (map temp_mean rows))
           (group_mean (map temp_min rows))
           (group_mean (map temp_max rows)).

(** Keys strictly increasing and above [lo]. *)
Fixpoint keys_above (lo : Z) (gs : list (Z * GroupAcc T)) : Prop :=
  match gs with
  | [] => True
  | (k, _) :: gs' => lo < k /\ keys_above k gs'
  end.

(** The accumulators stored under key [k], if any. *)
Fixpoint find_group (k : Z) (gs : list (Z * GroupAcc T)) : option (GroupAcc T) :=
  match gs with
  | [] => None
  | (k', g) :: gs' => if k =? k' then Some g else find_group k gs'
  end.

(** The group a row is added to: the one found, or a fresh one. *)
Definition group_or_new (o : option (GroupAcc T)) : GroupAcc T :=
  match o with Some g => g | None => group0 end.

End Manual.

End Manual.

(** Sample data: a clock reading, and a frame of daily rows with rational
    temperatures. *)
Module Sample.
Import Frame.

Definition now : Py.datetime := Py.mkdt 2026 11 3 10 30 0 0.

Definition row (y m d : Z) (tmin tmax tmean : option Q) : Row Q :=
  mkRow (Py.mkdt y m d 0 0 0 0) tmin tmax tmean.

Definition df : DataFrame Q :=
  [ row 2021 1 1 (Some 1%Q) (Some 5%Q) (Some 3%Q);
    row 2021 7 1 (Some 15%Q) (Some 25%Q) (Some 20%Q);
    row 2022 1 1 (Some 0%Q) (Some 4%Q) None;
    row 2022 11 1 None (Some 9%Q) (Some 7%Q);
    row 2022 12 1 (Some 2%Q) (Some 6%Q) (Some 4%Q);
    row 2023 2 1 (Some (-1)%Q) (Some 3%Q) (Some 1%Q) ]%list.

(** A frame whose only row lies in the year of [now]. *)
Definition df_this_year : DataFrame Q :=
  [ row 2026 5 1 (Some 10%Q) (Some 20%Q) (Some 15%Q) ]%list.

End Sample.

(** Sample data in [float64]: three days of 2021 with the mean temperatures
    0.1, 0.2 and 0.3 as JSON gives them (each the nearest [float64], written
    in hexadecimal), and one day of 2022 without a minimum. *)
Module SampleFloat.
Import Frame PrimFloat.

Definition tenth : float := 0x1.999999999999ap-4%float.
Definition two_tenths : float := 0x1.999999999999ap-3%float.
Definition three_tenths : float := 0x1.3333333333333p-2%float.
Definition half : float := 0.5%float.
Definition one_and_a_half : float := 1.5%float.

Definition row (y m d : Z) (tmin tmax tmean : option float) : Row float :=
  mkRow (Py.mkdt y m d 0 0 0 0) tmin tmax tmean.

Definition df : DataFrame float :=
  [ row 2021 1 1 (Some zero) (Some half) (Some tenth);
    row 2021 1 2 (Some zero) (Some half) (Some two_tenths);
    row 2021 1 3 (Some zero) (Some half) (Some three_tenths);
    row 2022 6 1 None (Some one_and_a_half) (Some one) ]%list.

(** 0.19999999999999998, the [float64] below the nearest one to 0.2, and
    0.20000000000000004, the one above it. *)
Definition below_two_tenths : float := 0x1.9999999999999p-3%float.

End SampleFloat.

(** Shapes of the text given to [parse_date_input], and days of the clock. *)
Module Shape.
Import Py.

(** Every character is white space for [strip]. *)
Fixpoint all_space (s : string) : bool :=
  match s with
  | EmptyString => true
  | String c s' => is_space c && all_space s'
  end.

(** The message of the [ValueError] that [parse_date_input] raises for a
    stripped input, by the branch its length and dashes select. *)
Definition format_message (date_str : string) : string :=
  if len date_str =? 4 then "Invalid year format. Please use YYYY."
  else if (len date_str =? 7) && char_is date_str 4 "-" then
    "Invalid year-month format. Please use YYYY-MM."
  else if (len date_str =? 10) && char_is date_str 4 "-"
          && char_is date_str 7 "-" then
    "Invalid date format. Please use YYYY-MM-DD."
  else "Invalid date format. Please use YYYY, YYYY-MM, or YYYY-MM-DD.".

(** Two clock readings on the same calendar day. *)
Definition same_day (a b : datetime) : bool :=
  (year a =? year b) && (month a =? month b) && (day a =? day b).

(** Month 12 of year 0, as [parse_date_input] reads a stripped text of the
    shape [YYYY-MM]. *)
Definition december_of_year_0 (date_str : string) : Prop :=
  len date_str = 7 /\ char_is date_str 4 "-" = true
  /\ exists ys ms, split "-" date_str = [ys; ms]
                   /\ int ys = Ok 0 /\ int ms = Ok 12.

End Shape.

(** Which rows of the payload a combination of selectors asks for. *)
Module Selection.
Import Frame.

Section Selection.
Context {T : Type} `{Num T}.

(** The year is the one asked for, or lies in the range asked for. *)
Definition in_years (year : option Z) (year_range : option (Z * Z))
  (r : Row T) : bool :=
  match year, year_range with
  | Some y, _ => Frame.year r =? y
  | None, Some (y1, y2) => (y1 <=? Frame.year r) && (Frame.year r <=? y2)
  | None, None => true
  end.

(** The same in [visualizer.py], where a year asked for, or the end of a
    range, counts as the year before the current one at most, and where only
    years before the current one are asked for by default. *)
Definition in_past_years (current_year : Z)
  (year : option Z) (year_range : option (Z * Z)) (r : Row T) : bool :=
  match year, year_range with
  | Some y, _ => Frame.year r =? Z.min y (current_year - 1)
  | None, Some (y1, y2) =>
      (y1 <=? Frame.year r) && (Frame.year r <=? Z.min y2 (current_year - 1))
  | None, None => Frame.year r <? current_year
  end.

(** The month is the one asked for, or lies in the range asked for, which
    wraps around the end of the year when it starts after it ends. *)
Definition in_months (month : option Z) (month_range : option (Z * Z))
  (r : Row T) : bool :=
  match month, month_range with
  | Some m, _ => Frame.month r =? m
  | None, Some (m1, m2) =>
      if m1 <=? m2 then (m1 <=? Frame.month r) && (Frame.month r <=? m2)
      else (m1 <=? Frame.month r) || (Frame.month r <=? m2)
  | None, None => true
  end.

(** A row that is left after filtering and after dropping the rows without
    a mean temperature. *)
Definition left_openmeteo (year : option Z) (year_range : option (Z * Z))
  (month : option Z) (month_range : option (Z * Z)) (r : Row T) : bool :=
  in_years year year_range r && in_months month month_range r
  && notna (temp_mean r).

Definition left_visualizer (current_year : Z)
  (year : option Z) (year_range : option (Z * Z))
  (month : option Z) (month_range : option (Z * Z)) (r : Row T) : bool :=
  in_past_years current_year year year_range r
  && in_months month month_range r && notna (temp_mean r).

(** [visualizer.py] gets as far as filtering: it is not given a year range
    that starts in the current year or later. *)
Definition filters_run (current_year : Z)
  (year : option Z) (year_range : option (Z * Z)) : bool :=
  match year, year_range with
  | None, Some (y1, _) => y1 <? current_year
  | _, _ => true
  end.

End Selection.
End Selection.


(* ================================================================== *)
(** * The calendar arithmetic of [datetime] *)
(* ================================================================== *)

Module CalendarFacts.
Import Py Calendar.

(** ** Days of the year and ordinals *)

Lemma check_range_spec f p : forall lo,
  check_range f lo p = true -> forall i, lo <= i < lo + Zpos p -> f i = true.
Proof.
  induction p as [q IH | q IH |]; cbn [check_range]; intros lo Hc i Hi.
  - apply andb_prop in Hc. destruct Hc as [Hc H3].
    apply andb_prop in Hc. destruct Hc as [H1 H2].
    destruct (Z.eq_dec i lo) as [-> | Hne]; [assumption|].
    destruct (Z_lt_ge_dec i (lo + 1 + Zpos q)).
    + apply (IH (lo + 1)); [assumption | lia].
    + apply (IH (lo + 1 + Zpos q)); [assumption | lia].
  - apply andb_prop in Hc. destruct Hc as [H1 H2].
    destruct (Z_lt_ge_dec i (lo + Zpos q)).
    + apply (IH lo); [assumption | lia].
    + apply (IH (lo + Zpos q)); [assumption | lia].
  - assert (i = lo) as -> by lia. assumption.
Qed.

(** All 365 day numbers, in common and in leap years. *)
Lemma month_day_checked :
  check_range (month_day_ok false) 0 365 = true
  /\ check_range (month_day_ok true) 0 365 = true.
Proof. split; vm_compute; reflexivity. Qed.

Lemma month_day_valid leap n :
  0 <= n < 365 -> month_day_ok leap n = true.
Proof.
  intros Hn. destruct month_day_checked as [Hf Ht].
  destruct leap; [apply (check_range_spec _ _ _ Ht) | apply (check_range_spec _ _ _ Hf)]; lia.
Qed.

(** [ord2ymd] with its steps named: the 400-, 100-, 4- and 1-year cycles,
    then the month and day inside the year. *)
Lemma ord2ymd_eq n :
  ord2ymd n =
  let n0 := n - 1 in
  let n400 := n0 / 146097 in
  let r400 := n0 mod 146097 in
  let n100 := r400 / 36524 in
  let r100 := r400 mod 36524 in
  let n4 := r100 / 1461 in
  let r4 := r100 mod 1461 in
  let n1 := r4 / 365 in
  let r1 := r4 mod 365 in
  let y := n400 * 400 + 1 + n100 * 100 + n4 * 4 + n1 in
  if (n1 =? 4) || (n100 =? 4) then (y - 1, 12, 31)
  else let '(m, d) := month_day ((n1 =? 3) && (negb (n4 =? 24) || (n100 =? 3))) r1 in
       (y, m, d).
Proof.
  unfold ord2ymd, month_day, DI400Y, DI100Y, DI4Y. cbv zeta.
  destruct ((_ =? 4) || (_ =? 4)); [reflexivity|].
  match goal with |- context [if ?b then _ else _] => destruct b end; reflexivity.
Qed.

Ltac zdm := Z.div_mod_to_equations; lia.

Lemma bool_eq_iff (a b : bool) : (a = true <-> b = true) -> a = b.
Proof. destruct a, b; intuition congruence. Qed.

(** The leap year test of [ord2ymd] is [is_leap] of the year it finds. *)
Lemma is_leap_parts n400 n100 n4 n1 :
  0 <= n400 -> 0 <= n100 <= 3 -> 0 <= n4 <= 24 -> 0 <= n1 <= 3 ->
  is_leap (n400 * 400 + 1 + n100 * 100 + n4 * 4 + n1)
  = (n1 =? 3) && (negb (n4 =? 24) || (n100 =? 3)).
Proof.
  intros. unfold is_leap. apply bool_eq_iff.
  rewrite !andb_true_iff, !orb_true_iff, !negb_true_iff, !Z.eqb_eq, !Z.eqb_neq.
  zdm.
Qed.

Lemma days_before_year_parts n400 n100 n4 n1 :
  0 <= n400 -> 0 <= n100 <= 3 -> 0 <= n4 <= 24 -> 0 <= n1 <= 3 ->
  days_before_year (n400 * 400 + 1 + n100 * 100 + n4 * 4 + n1)
  = 146097 * n400 + 36524 * n100 + 1461 * n4 + 365 * n1.
Proof. intros. unfold days_before_year. cbv zeta. zdm. Qed.

(** Every ordinal of the [datetime] range gives a valid date, and that date
    has this ordinal. *)
Lemma ord2ymd_valid n :
  1 <= n <= 3652059 ->
  let '(y, m, d) := ord2ymd n in
  valid_ymd y m d = true /\ ymd2ord y m d = n.
Proof.
  intros Hn. rewrite ord2ymd_eq. cbv zeta.
  set (n0 := n - 1).
  set (n400 := n0 / 146097). set (r400 := n0 mod 146097).
  set (n100 := r400 / 36524). set (r100 := r400 mod 36524).
  set (n4 := r100 / 1461). set (r4 := r100 mod 1461).
  set (n1 := r4 / 365). set (r1 := r4 mod 365).
  assert (B : 0 <= n400 <= 24 /\ 0 <= n100 <= 4 /\ 0 <= n4 <= 24
              /\ 0 <= n1 <= 4 /\ 0 <= r1 < 365
              /\ n0 = 146097 * n400 + 36524 * n100 + 1461 * n4 + 365 * n1 + r1
              /\ (n100 = 4 -> n4 = 0 /\ n1 = 0 /\ r1 = 0)
              /\ (n1 = 4 -> r1 = 0 /\ n4 <= 23 /\ n100 <= 3)
              /\ (n400 = 24 -> 100 * n100 + 4 * n4 + n1 <= 398)).
  { subst n0 n400 r400 n100 r100 n4 r4 n1 r1. zdm. }
  clearbody n400 n100 n4 n1 r1. clear r400 r100 r4.
  assert (En0 : n0 = n - 1) by reflexivity. clearbody n0.
  destruct B as (B400 & B100 & B4 & B1 & Br & En & H100 & H1 & Hmax).
  assert (Edge : forall a b c,
             0 <= a <= 3 -> 0 <= b <= 24 -> 0 <= c <= 3 ->
             (n400 = 24 -> 100 * a + 4 * b + c <= 398) ->
             n0 = 146097 * n400 + 36524 * a + 1461 * b + 365 * c + 365 ->
             c = 3 -> (b <> 24 \/ a = 3) ->
             valid_ymd (n400 * 400 + 1 + a * 100 + b * 4 + c) 12 31 = true
             /\ ymd2ord (n400 * 400 + 1 + a * 100 + b * 4 + c) 12 31 = n).
  { intros a b c Ha Hb Hc Hm E Ec Hl.
    unfold valid_ymd, ymd2ord, days_in_month, days_before_month.
    rewrite days_before_year_parts, is_leap_parts by lia.
    assert ((c =? 3) && (negb (b =? 24) || (a =? 3)) = true) as ->.
    { rewrite andb_true_iff, orb_true_iff, negb_true_iff, !Z.eqb_eq, Z.eqb_neq. lia. }
    change (tbl DAYS_IN_MONTH 12) with 31.
    change (tbl DAYS_BEFORE_MONTH 12) with 334.
    change (12 =? 2) with false. change (12 >? 2) with true.
    cbn [andb b2z]. unfold MINYEAR, MAXYEAR. split; [|lia].
    rewrite !andb_true_iff, !Z.leb_le. lia. }
  destruct (Z.eqb_spec n1 4) as [E1 | N1]; cbn [orb].
  - destruct (H1 E1) as (? & ? & ?).
    replace (n400 * 400 + 1 + n100 * 100 + n4 * 4 + n1 - 1)
      with (n400 * 400 + 1 + n100 * 100 + n4 * 4 + 3) by lia.
    apply Edge; lia.
  - destruct (Z.eqb_spec n100 4) as [E100 | N100].
    + destruct (H100 E100) as (? & ? & ?).
      replace (n400 * 400 + 1 + n100 * 100 + n4 * 4 + n1 - 1)
        with (n400 * 400 + 1 + 3 * 100 + 24 * 4 + 3) by lia.
      apply Edge; lia.
    + pose proof (month_day_valid
                    ((n1 =? 3) && (negb (n4 =? 24) || (n100 =? 3))) r1 Br) as Hmd.
      unfold month_day_ok in Hmd.
      destruct (month_day _ r1) as [m d].
      unfold valid_ymd, ymd2ord, days_in_month, days_before_month.
      rewrite days_before_year_parts, is_leap_parts by lia.
      unfold MINYEAR, MAXYEAR.
      rewrite !andb_true_iff, !Z.leb_le, Z.eqb_eq in Hmd.
      rewrite !andb_true_iff, !Z.leb_le.
      lia.
Qed.

Lemma days_before_year_mono y1 y2 :
  y1 <= y2 -> days_before_year y1 <= days_before_year y2.
Proof. intros. unfold days_before_year. cbv zeta. zdm. Qed.

Lemma month_cases m :
  1 <= m <= 12 ->
  m = 1 \/ m = 2 \/ m = 3 \/ m = 4 \/ m = 5 \/ m = 6
  \/ m = 7 \/ m = 8 \/ m = 9 \/ m = 10 \/ m = 11 \/ m = 12.
Proof. lia. Qed.

Lemma valid_ymd_inv y m d :
  valid_ymd y m d = true ->
  1 <= y <= 9999 /\ 1 <= m <= 12 /\ 1 <= d <= days_in_month y m.
Proof.
  unfold valid_ymd, MINYEAR, MAXYEAR.
  rewrite !andb_true_iff, !Z.leb_le. lia.
Qed.

Lemma days_in_month_le y m : 1 <= m <= 12 -> 28 <= days_in_month y m <= 31.
Proof.
  intros Hm. unfold days_in_month.
  destruct (month_cases m Hm) as [-> | [-> | [-> | [-> | [-> | [-> | [-> | [-> | [-> | [-> | [-> | ->]]]]]]]]]]];
    destruct (is_leap y); vm_compute; split; discriminate.
Qed.

Lemma ymd2ord_bounds y m d :
  valid_ymd y m d = true ->
  days_before_year y + 1 <= ymd2ord y m d <= days_before_year y + 366.
Proof.
  intros Hv. apply valid_ymd_inv in Hv. destruct Hv as (Hy & Hm & Hd).
  pose proof (days_in_month_le y m Hm).
  unfold ymd2ord, days_before_month.
  assert (0 <= tbl DAYS_BEFORE_MONTH m + b2z ((m >? 2) && is_leap y) <= 335).
  { destruct (month_cases m Hm) as [-> | [-> | [-> | [-> | [-> | [-> | [-> | [-> | [-> | [-> | [-> | ->]]]]]]]]]]];
      destruct (is_leap y); vm_compute; split; discriminate. }
  lia.
Qed.

(** The day before a reading of the clock exists, is a valid date in a year
    of four digits, keeps the time of day and has the preceding ordinal. *)
Lemma yesterday_ok now :
  clock_ok now = true ->
  exists y, sub_days now 1 = Ok y
            /\ valid_date y = true /\ 1000 <= year y <= 9999
            /\ toordinal y = toordinal now - 1
            /\ hour y = hour now /\ minute y = minute now
            /\ second y = second now /\ microsecond y = microsecond now.
Proof.
  unfold clock_ok. rewrite !andb_true_iff, Z.leb_le. intros [[Hv Ht] Hy].
  pose proof (ymd2ord_bounds _ _ _ Hv) as Hb.
  pose proof (valid_ymd_inv _ _ _ Hv) as (Hy' & _ & _).
  pose proof (days_before_year_mono 1001 (year now) Hy) as H1.
  pose proof (days_before_year_mono (year now) 9999 ltac:(lia)) as H2.
  change (days_before_year 1001) with 365242 in H1.
  change (days_before_year 9999) with 3651694 in H2.
  unfold sub_days, toordinal.
  change (ymd2ord MAXYEAR 12 31) with 3652059.
  set (n := ymd2ord (year now) (month now) (day now) - 1).
  assert (Hn : 1 <= n <= 3652059) by (subst n; lia).
  destruct (Z.leb_spec 1 n); [|lia]. destruct (Z.leb_spec n 3652059); [|lia].
  cbn [andb].
  pose proof (ord2ymd_valid n Hn) as Ho.
  destruct (ord2ymd n) as [[y m] d]. destruct Ho as [Hvo Hord].
  eexists. split; [reflexivity|]. cbn.
  unfold valid_date. cbn. repeat split; try assumption; try lia.
  - destruct (Z_lt_ge_dec y 1000) as [Hlt|]; [|lia].
    pose proof (ymd2ord_bounds _ _ _ Hvo) as Hb'.
    pose proof (days_before_year_mono y 999 ltac:(lia)) as H3.
    change (days_before_year 999) with 364512 in H3. subst n. lia.
  - apply valid_ymd_inv in Hvo. lia.
Qed.

(** ** From a date to its ordinal and back *)

Lemma is_leap_true y :
  is_leap y = true <-> y mod 4 = 0 /\ (y mod 100 <> 0 \/ y mod 400 = 0).
Proof.
  unfold is_leap.
  rewrite andb_true_iff, orb_true_iff, negb_true_iff, !Z.eqb_eq, Z.eqb_neq.
  reflexivity.
Qed.

Lemma days_before_year_succ y :
  days_before_year (y + 1) = days_before_year y + 365 + b2z (is_leap y).
Proof.
  unfold days_before_year. cbv zeta.
  destruct (is_leap y) eqn:E; cbn [b2z].
  - apply is_leap_true in E. zdm.
  - assert (N : ~ (y mod 4 = 0 /\ (y mod 100 <> 0 \/ y mod 400 = 0))).
    { rewrite <- is_leap_true. congruence. }
    zdm.
Qed.

Ltac each_month m Hm :=
  destruct (month_cases m Hm)
    as [-> | [-> | [-> | [-> | [-> | [-> | [-> | [-> | [-> | [-> | [-> | ->]]]]]]]]]]].

Lemma days_before_month_succ y m :
  1 <= m <= 11 ->
  days_before_month y (m + 1) = days_before_month y m + days_in_month y m.
Proof.
  intros Hm. assert (Hm' : 1 <= m <= 12) by lia.
  unfold days_before_month, days_in_month.
  each_month m Hm'; try lia; destruct (is_leap y); reflexivity.
Qed.

Lemma days_before_month_last y :
  days_before_month y 12 + 31 = 365 + b2z (is_leap y).
Proof. unfold days_before_month. destruct (is_leap y); reflexivity. Qed.

Lemma days_before_month_mono y m m' :
  1 <= m -> m <= m' -> m' <= 12 ->
  days_before_month y m <= days_before_month y m'.
Proof.
  intros H1 H2 H3.
  assert (Hm : 1 <= m <= 12) by lia. assert (Hm' : 1 <= m' <= 12) by lia.
  unfold days_before_month.
  each_month m Hm; each_month m' Hm'; try lia;
    destruct (is_leap y); vm_compute; discriminate.
Qed.

Lemma ymd2ord_in_year y m d :
  1 <= m <= 12 -> 1 <= d <= days_in_month y m ->
  days_before_year y < ymd2ord y m d <= days_before_year (y + 1).
Proof.
  intros Hm Hd. rewrite days_before_year_succ. unfold ymd2ord.
  pose proof (days_before_month_mono y 1 m ltac:(lia) ltac:(lia) ltac:(lia)) as H1.
  change (days_before_month y 1) with 0 in H1.
  destruct (Z.eq_dec m 12) as [-> | Hne].
  - pose proof (days_before_month_last y).
    change (days_in_month y 12) with 31 in Hd. lia.
  - pose proof (days_before_month_succ y m ltac:(lia)) as H2.
    pose proof (days_before_month_mono y (m + 1) 12 ltac:(lia) ltac:(lia) ltac:(lia)) as H3.
    pose proof (days_before_month_last y). lia.
Qed.

(** Two valid dates with the same ordinal are the same date. *)
Lemma ymd2ord_inj y m d y' m' d' :
  valid_ymd y m d = true -> valid_ymd y' m' d' = true ->
  ymd2ord y m d = ymd2ord y' m' d' -> y = y' /\ m = m' /\ d = d'.
Proof.
  intros Hv Hv' E.
  apply valid_ymd_inv in Hv, Hv'.
  destruct Hv as (Hy & Hm & Hd), Hv' as (Hy' & Hm' & Hd').
  pose proof (ymd2ord_in_year y m d Hm Hd) as B.
  pose proof (ymd2ord_in_year y' m' d' Hm' Hd') as B'.
  assert (y = y') as <-.
  { destruct (Z.lt_trichotomy y y') as [L | [? | L]]; [exfalso | assumption | exfalso].
    - pose proof (days_before_year_mono (y + 1) y' ltac:(lia)). lia.
    - pose proof (days_before_year_mono (y' + 1) y ltac:(lia)). lia. }
  unfold ymd2ord in E.
  assert (m = m') as <-.
  { destruct (Z.lt_trichotomy m m') as [L | [? | L]]; [exfalso | assumption | exfalso].
    - pose proof (days_before_month_succ y m ltac:(lia)).
      pose proof (days_before_month_mono y (m + 1) m' ltac:(lia) ltac:(lia) ltac:(lia)).
      lia.
    - pose proof (days_before_month_succ y m' ltac:(lia)).
      pose proof (days_before_month_mono y (m' + 1) m ltac:(lia) ltac:(lia) ltac:(lia)).
      lia. }
  repeat split; lia.
Qed.

Lemma ymd2ord_range y m d :
  valid_ymd y m d = true -> 1 <= ymd2ord y m d <= 3652059.
Proof.
  intros Hv. apply valid_ymd_inv in Hv. destruct Hv as (Hy & Hm & Hd).
  pose proof (ymd2ord_in_year y m d Hm Hd).
  pose proof (days_before_year_mono 1 y ltac:(lia)) as H1.
  pose proof (days_before_year_mono (y + 1) 10000 ltac:(lia)) as H2.
  change (days_before_year 1) with 0 in H1.
  change (days_before_year 10000) with 3652059 in H2. lia.
Qed.

(** A valid date is found back from its ordinal. *)
Lemma ord2ymd_ymd2ord y m d :
  valid_ymd y m d = true -> ord2ymd (ymd2ord y m d) = (y, m, d).
Proof.
  intros Hv.
  pose proof (ord2ymd_valid _ (ymd2ord_range y m d Hv)) as Ho.
  destruct (ord2ymd _) as [[y' m'] d']. destruct Ho as [Hv' E].
  destruct (ymd2ord_inj _ _ _ _ _ _ Hv' Hv E) as (-> & -> & ->). reflexivity.
Qed.

(** One day before the first of the next month is the last day of the
    month. *)
Lemma day_before_next_month y m :
  1 <= y <= 9999 -> 1 <= m <= 12 ->
  ymd2ord (if m =? 12 then y + 1 else y) (if m =? 12 then 1 else m + 1) 1 - 1
  = ymd2ord y m (days_in_month y m).
Proof.
  intros Hy Hm. unfold ymd2ord.
  destruct (Z.eqb_spec m 12) as [-> | Hne].
  - rewrite days_before_year_succ.
    pose proof (days_before_month_last y).
    change (days_in_month y 12) with 31.
    change (days_before_month (y + 1) 1) with 0. lia.
  - rewrite days_before_month_succ by lia. lia.
Qed.

(** ** Comparing datetimes *)

(** A later day is a later moment. *)
Lemma date_after_dt_gt a b : date_after a b = true -> dt_gt a b = true.
Proof.
  unfold date_after, dt_gt, fields. cbn [lex_gt].
  destruct (year a >? year b), (year a =? year b), (month a >? month b),
    (month a =? month b), (day a >? day b), (day a =? day b);
    cbn; intros; congruence.
Qed.

(** Midnight of a day is later than a moment exactly when the day is later
    than the day of that moment. *)
Lemma dt_gt_midnight a b :
  valid_time b = true ->
  dt_gt (midnight a) b = date_after a b.
Proof.
  unfold valid_time, date_after, dt_gt, fields, midnight. cbn.
  rewrite !andb_true_iff, !Z.leb_le, !Z.ltb_lt. intros Ht.
  apply bool_eq_iff.
  rewrite !orb_true_iff, !andb_true_iff, !orb_true_iff, !andb_true_iff,
    !Z.gtb_lt, !Z.eqb_eq.
  intuition (try lia; try discriminate).
Qed.

(** ** Printing a date and reading it back *)

Lemma year4_checked : check_range year4_ok 1000 9000 = true.
Proof. vm_compute. reflexivity. Qed.

Lemma year4 y :
  1000 <= y <= 9999 ->
  exists a b c d,
    str y = String a (String b (String c (String d EmptyString)))
    /\ is_digit a = true /\ is_digit b = true
    /\ is_digit c = true /\ is_digit d = true
    /\ 1000 * digit_val a + 100 * digit_val b + 10 * digit_val c
       + digit_val d = y
    /\ zfill 4 y = str y /\ strip (str y) = str y /\ int (str y) = Ok y.
Proof.
  intros Hy.
  pose proof (check_range_spec _ _ _ year4_checked y ltac:(lia)) as Hc.
  unfold year4_ok in Hc.
  destruct (str y) as [| a [| b [| c [| d [| ? ?]]]]]; try discriminate.
  rewrite !andb_true_iff, Z.eqb_eq, !String.eqb_eq in Hc.
  destruct Hc as [[[[[[[Ha Hb] Hc] Hd] Hv] Hz] Hs] Hi].
  exists a, b, c, d. repeat split; try assumption.
  destruct (int _) as [z | e]; [|discriminate].
  apply Z.eqb_eq in Hi. now subst.
Qed.

Lemma re_match_year a b c d rest :
  is_digit a = true -> is_digit b = true ->
  is_digit c = true -> is_digit d = true ->
  re_match (String a (String b (String c (String d (String "-" rest)))))
  = first_match re_m
      (fun m r =>
         match lit "-" r with
         | Some r =>
             first_match re_d
               (fun d' r =>
                  Some (1000 * digit_val a + 100 * digit_val b
                        + 10 * digit_val c + digit_val d, m, d', r)) r
         | None => None
         end) rest.
Proof.
  intros Ha Hb Hc Hd. unfold re_match, re_Y. rewrite Ha, Hb, Hc, Hd.
  reflexivity.
Qed.

Lemma re_month_day (y m d : Z) :
  1 <= m <= 12 -> 1 <= d <= 31 ->
  first_match re_m
    (fun m r =>
       match lit "-" r with
       | Some r => first_match re_d (fun d' r => Some (y, m, d', r)) r
       | None => None
       end) (zfill 2 m ++ "-" ++ zfill 2 d)
  = Some (y, m, d, EmptyString).
Proof.
  intros Hm Hd.
  rewrite <- (Z2Nat.id m), <- (Z2Nat.id d) in * by lia.
  generalize dependent (Z.to_nat d). generalize dependent (Z.to_nat m).
  intros j Hj k Hk.
  do 13 (destruct j as [| j];
         [ first [ lia
                 | do 32 (destruct k as [| k];
                          [first [lia | vm_compute; reflexivity] |]); lia ] |]).
  lia.
Qed.
End CalendarFacts.

(* ================================================================== *)
(** * [parse_date_input] *)
(* ================================================================== *)

Module ParseFacts.
Import Py Calendar CalendarFacts.

(** A date printed with a four-digit year, a two-digit month and a
    two-digit day is read back by [strptime] as that date. *)
Lemma strptime_printed y m d :
  1000 <= y <= 9999 -> 1 <= m <= 12 -> 1 <= d <= 31 ->
  strptime (str y ++ "-" ++ zfill 2 m ++ "-" ++ zfill 2 d)
  = datetime_new y m d.
Proof.
  intros Hy Hm Hd.
  destruct (year4 y Hy) as (a & b & c & e & Es & Ha & Hb & Hc & He & Hv & _).
  unfold strptime. rewrite Es. cbn [append].
  rewrite re_match_year by assumption.
  change (zfill 2 m ++ String "-" (zfill 2 d))
    with (zfill 2 m ++ "-" ++ zfill 2 d).
  rewrite re_month_day by assumption. rewrite Hv. reflexivity.
Qed.

Lemma strftime_str t :
  1000 <= year t <= 9999 ->
  strftime t = str (year t) ++ "-" ++ zfill 2 (month t) ++ "-" ++ zfill 2 (day t).
Proof.
  intros Hy. unfold strftime.
  destruct (year4 _ Hy) as (a & b & c & e & _ & _ & _ & _ & _ & _ & -> & _).
  reflexivity.
Qed.

Lemma strptime_strftime t :
  valid_date t = true -> 1000 <= year t <= 9999 ->
  strptime (strftime t) = Ok (midnight t).
Proof.
  intros Hv Hy. rewrite strftime_str by assumption.
  pose proof (valid_ymd_inv _ _ _ Hv) as (_ & Hm & Hd).
  pose proof (days_in_month_le (year t) (month t) Hm).
  rewrite strptime_printed by lia.
  unfold datetime_new. unfold valid_date in Hv. rewrite Hv. reflexivity.
Qed.

(** [strptime] returns midnight of a valid date. *)
Lemma strptime_midnight s p :
  strptime s = Ok p -> valid_date p = true /\ midnight p = p.
Proof.
  unfold strptime, datetime_new.
  destruct (re_match s) as [[[[y m] d] [| ? ?]] |]; try discriminate.
  destruct (valid_ymd y m d) eqn:E; [|discriminate].
  intros [= <-]. split; [exact E | reflexivity].
Qed.

Ltac split_cases :=
  repeat match goal with
    | |- context [match ?x with _ => _ end] => destruct x eqn:?
    end.

(** In end mode the function returns yesterday's date, or a string that
    [strptime] reads as a moment not later than yesterday. *)
Lemma end_mode_shape now s r yesterday :
  sub_days now 1 = Ok yesterday ->
  Fetcher.parse_date_input now s false = Ok r ->
  r = strftime yesterday
  \/ exists p, strptime r = Ok p /\ dt_gt p yesterday = false.
Proof.
  intros Hy. unfold Fetcher.parse_date_input. rewrite Hy.
  unfold try_except_ValueError, bind. cbn [negb andb].
  split_cases; intros Hr;
    repeat match goal with
      | H : context [match ?x with _ => _ end] |- _ =>
          destruct x eqn:?; try discriminate
      end;
    repeat match goal with
      | H : Ok _ = Ok _ |- _ => injection H as <-
      end;
    try discriminate;
    first [left; reflexivity | right; eauto].
Qed.

Lemma not_dt_gt_not_after a b : dt_gt a b = false -> date_after a b = false.
Proof.
  intros H. destruct (date_after a b) eqn:E; [|reflexivity].
  apply date_after_dt_gt in E. congruence.
Qed.

Lemma date_after_irrefl t : date_after t t = false.
Proof.
  unfold date_after. cbn. rewrite !Z.eqb_refl.
  destruct (Z.gtb_spec (year t) (year t)); [lia|].
  destruct (Z.gtb_spec (month t) (month t)); [lia|].
  destruct (Z.gtb_spec (day t) (day t)); [lia|]. reflexivity.
Qed.

(** C4: in end mode, whenever [parse_date_input] returns, the text returned
    reads as a calendar day that is not after yesterday (the day before the
    clock reading of the call); and a complete [YYYY-MM-DD] input that reads
    as a day after yesterday is answered with yesterday's date. *)
Theorem C4_end_date_never_after_yesterday (now : datetime) (date_str : string) :
  clock_ok now = true ->
  exists yesterday,
    sub_days now 1 = Ok yesterday
    /\ (forall r,
          Fetcher.parse_date_input now date_str false = Ok r ->
          exists d, strptime r = Ok d /\ date_after d yesterday = false)
    /\ (forall d,
          len (strip date_str) = 10 ->
          char_is (strip date_str) 4 "-" = true ->
          char_is (strip date_str) 7 "-" = true ->
          strptime (strip date_str) = Ok d ->
          date_after d yesterday = true ->
          Fetcher.parse_date_input now date_str false
          = Ok (strftime yesterday)).
Proof.
  intros Hc.
  destruct (yesterday_ok now Hc) as (y & Hy & Hv & Hyr & _).
  exists y. split; [assumption|]. split.
  - intros r Hr.
    destruct (end_mode_shape now date_str r y Hy Hr) as [-> | (p & Hp & Hgt)].
    + exists (midnight y). split; [apply strptime_strftime; assumption|].
      exact (date_after_irrefl y).
    + exists p. split; [assumption | apply not_dt_gt_not_after; assumption].
  - intros d Hlen H4 H7 Hd Hafter.
    unfold Fetcher.parse_date_input. rewrite Hy. cbn [bind].
    rewrite Hlen, H4, H7, Hd.
    change (10 =? 4) with false. change (10 =? 7) with false.
    change (10 =? 10) with true. cbn [andb negb bind].
    rewrite (date_after_dt_gt _ _ Hafter). reflexivity.
Qed.

(** ** Inputs [YYYY] and [YYYY-MM] with a year from 1000 to 9999 *)

Lemma valid_time_yesterday now y :
  clock_ok now = true ->
  hour y = hour now -> minute y = minute now ->
  second y = second now -> microsecond y = microsecond now ->
  valid_time y = true.
Proof.
  unfold clock_ok, valid_time. rewrite !andb_true_iff.
  intros [[_ Ht] _] -> -> -> ->. exact Ht.
Qed.

(** A year from 1000 to 9999, written as it is: start mode gives its first
    of January. *)
Lemma year_input_start_mode now y :
  clock_ok now = true -> 1000 <= y <= 9999 ->
  Fetcher.parse_date_input now (str y) true = Ok (str y ++ "-01-01").
Proof.
  intros Hc Hy.
  destruct (yesterday_ok now Hc) as (t & Ht & _).
  destruct (year4 y Hy) as (a & b & c & e & Es & _ & _ & _ & _ & _ & _ & Hs & Hi).
  unfold Fetcher.parse_date_input. rewrite Ht, Hs. cbn [bind].
  assert (len (str y) = 4) as -> by (rewrite Es; reflexivity).
  change (4 =? 4) with true. cbv iota. rewrite Hi. reflexivity.
Qed.

(** The same input in end mode gives its 31st of December, or yesterday's
    date when that day is after yesterday. *)
Lemma year_input_end_mode now y :
  clock_ok now = true -> 1000 <= y <= 9999 ->
  exists yesterday,
    sub_days now 1 = Ok yesterday
    /\ Fetcher.parse_date_input now (str y) false
       = Ok (if date_after (mkdt y 12 31 0 0 0 0) yesterday
             then strftime yesterday else str y ++ "-12-31").
Proof.
  intros Hc Hy.
  destruct (yesterday_ok now Hc) as (t & Ht & _ & _ & _ & T1 & T2 & T3 & T4).
  exists t. split; [assumption|].
  destruct (year4 y Hy) as (a & b & c & e & Es & _ & _ & _ & _ & _ & _ & Hs & Hi).
  unfold Fetcher.parse_date_input. rewrite Ht, Hs. cbn [bind].
  assert (len (str y) = 4) as -> by (rewrite Es; reflexivity).
  change (4 =? 4) with true. cbv iota. rewrite Hi. cbn [bind].
  pose proof (strptime_printed y 12 31 Hy ltac:(lia) ltac:(lia)) as Hp.
  change ("-" ++ zfill 2 12 ++ "-" ++ zfill 2 31) with "-12-31" in Hp.
  rewrite Hp. unfold datetime_new.
  assert (valid_ymd y 12 31 = true) as ->.
  { unfold valid_ymd, MINYEAR, MAXYEAR.
    change (days_in_month y 12) with 31.
    rewrite !andb_true_iff, !Z.leb_le. lia. }
  cbn [bind try_except_ValueError].
  change (mkdt y 12 31 0 0 0 0) with (midnight (mkdt y 12 31 0 0 0 0)) at 1.
  rewrite dt_gt_midnight
    by (eapply valid_time_yesterday; eassumption).
  destruct (date_after _ t); reflexivity.
Qed.

(** A digit is neither white space nor a dash. *)
Lemma digit_char c :
  is_digit c = true ->
  is_space c = false /\ Ascii.eqb c "-" = false.
Proof.
  destruct c as [[] [] [] [] [] [] [] []]; vm_compute; intuition discriminate.
Qed.

Lemma year_month y m :
  1000 <= y <= 9999 -> 1 <= m <= 12 ->
  let s := str y ++ "-" ++ zfill 2 m in
  strip s = s /\ len s = 7 /\ char_is s 4 "-" = true
  /\ exists ys ms, split "-" s = [ys; ms] /\ int ys = Ok y /\ int ms = Ok m.
Proof.
  intros Hy Hm s.
  destruct (year4 y Hy) as (a & b & c & e & Es & Ha & Hb & Hc & He & _ & _ & _ & Hi).
  destruct (digit_char a Ha) as [Sa Da], (digit_char b Hb) as [_ Db],
    (digit_char c Hc) as [_ Dc], (digit_char e He) as [_ De].
  assert (Hsplit : forall ms, split "-" ms = [ms] ->
            split "-" (str y ++ "-" ++ ms) = [str y; ms]).
  { intros ms Hms. rewrite Es. cbn [append split].
    rewrite Da, Db, Dc, De, Hms. reflexivity. }
  assert (Hstrip : forall c1 c2, is_space c2 = false ->
            strip (str y ++ "-" ++ String c1 (String c2 ""))
            = str y ++ "-" ++ String c1 (String c2 "")).
  { intros c1 c2 H2. rewrite Es. unfold strip. cbn [append lstrip].
    rewrite Sa. cbn [rstrip]. rewrite H2. reflexivity. }
  subst s.
  rewrite <- (Z2Nat.id m) in * by lia.
  generalize dependent (Z.to_nat m). intros k Hk.
  do 13 (destruct k as [| k];
         [ first [ lia
                 | split; [apply Hstrip; reflexivity|];
                   split; [rewrite Es; reflexivity|];
                   split; [rewrite Es; reflexivity|];
                   eexists; eexists;
                   split; [apply Hsplit; reflexivity|];
                   split; [exact Hi | reflexivity] ] |]).
  lia.
Qed.

(** A month [YYYY-MM] of a year from 1000 to 9999, December 9999 apart: end
    mode gives the last day of the month, found as the day before the first
    of the next month, or yesterday's date when that day is after
    yesterday. *)
Lemma year_month_input_end_mode now y m :
  clock_ok now = true ->
  1000 <= y <= 9999 -> 1 <= m <= 12 -> ~ (y = 9999 /\ m = 12) ->
  exists yesterday,
    sub_days now 1 = Ok yesterday
    /\ Fetcher.parse_date_input now (str y ++ "-" ++ zfill 2 m) false
       = Ok (if date_after (mkdt y m (days_in_month y m) 0 0 0 0) yesterday
             then strftime yesterday
             else str y ++ "-" ++ zfill 2 m ++ "-"
                  ++ zfill 2 (days_in_month y m)).
Proof.
  intros Hc Hy Hm Hedge.
  destruct (yesterday_ok now Hc) as (t & Ht & _ & _ & _ & T1 & T2 & T3 & T4).
  exists t. split; [assumption|].
  destruct (year_month y m Hy Hm) as (Hs & Hl & H4 & ys & ms & Hsp & Hiy & Him).
  unfold Fetcher.parse_date_input. rewrite Ht, Hs, Hl, H4. cbn [bind].
  change (7 =? 4) with false. change (7 =? 7) with true. cbn [andb]. cbv iota.
  rewrite Hsp. cbn [unpack2 bind]. rewrite Hiy, Him. cbn [bind].
  destruct (Z.ltb_spec m 1); [lia|]. destruct (Z.gtb_spec m 12); [lia|].
  cbn [orb]. cbv iota.
  pose proof (days_in_month_le y m Hm) as Hdim.
  assert (Hnext : (if m =? 12 then datetime_new (y + 1) 1 1
                   else datetime_new y (m + 1) 1)
                  = Ok (mkdt (if m =? 12 then y + 1 else y)
                             (if m =? 12 then 1 else m + 1) 1 0 0 0 0)).
  { unfold datetime_new, valid_ymd, MINYEAR, MAXYEAR.
    destruct (Z.eqb_spec m 12) as [-> | Hne].
    - change (days_in_month (y + 1) 1) with 31.
      replace ((1 <=? y + 1) && (y + 1 <=? 9999) && (1 <=? 1) && (1 <=? 12)
               && (1 <=? 1) && (1 <=? 31)) with true; [reflexivity|].
      symmetry. rewrite !andb_true_iff, !Z.leb_le. lia.
    - pose proof (days_in_month_le y (m + 1) ltac:(lia)).
      replace ((1 <=? y) && (y <=? 9999) && (1 <=? m + 1) && (m + 1 <=? 12)
               && (1 <=? 1) && (1 <=? days_in_month y (m + 1))) with true;
        [reflexivity|].
      symmetry. rewrite !andb_true_iff, !Z.leb_le. lia. }
  rewrite Hnext. cbn [bind].
  assert (Hlast : valid_ymd y m (days_in_month y m) = true).
  { unfold valid_ymd, MINYEAR, MAXYEAR. rewrite !andb_true_iff, !Z.leb_le. lia. }
  unfold sub_days, toordinal. cbn [year month day hour minute second microsecond].
  rewrite (day_before_next_month y m) by lia.
  pose proof (ymd2ord_range _ _ _ Hlast) as Hr.
  change (ymd2ord MAXYEAR 12 31) with 3652059.
  destruct (Z.leb_spec 1 (ymd2ord y m (days_in_month y m))); [|lia].
  destruct (Z.leb_spec (ymd2ord y m (days_in_month y m)) 3652059); [|lia].
  cbn [andb]. rewrite ord2ymd_ymd2ord by assumption.
  cbn [bind day].
  rewrite strptime_printed by lia.
  unfold datetime_new. rewrite Hlast. cbn [bind try_except_ValueError].
  change (mkdt y m (days_in_month y m) 0 0 0 0)
    with (midnight (mkdt y m (days_in_month y m) 0 0 0 0)) at 1.
  rewrite dt_gt_midnight by (eapply valid_time_yesterday; eassumption).
  destruct (date_after _ t); reflexivity.
Qed.

(** February has 29 days in 2024 and 28 in 2023. *)
Example february_2024_2023 :
  Fetcher.parse_date_input Sample.now "2024-02" false = Ok "2024-02-29"
  /\ Fetcher.parse_date_input Sample.now "2023-02" false = Ok "2023-02-28".
Proof. split; reflexivity. Qed.

Lemma C4_witness :
  clock_ok Sample.now = true
  /\ exists yesterday,
      sub_days Sample.now 1 = Ok yesterday
      /\ (forall r,
            Fetcher.parse_date_input Sample.now "2027-01-01" false = Ok r ->
            exists d, strptime r = Ok d /\ date_after d yesterday = false)
      /\ (forall d,
            len (strip "2027-01-01") = 10 ->
            char_is (strip "2027-01-01") 4 "-" = true ->
            char_is (strip "2027-01-01") 7 "-" = true ->
            strptime (strip "2027-01-01") = Ok d ->
            date_after d yesterday = true ->
            Fetcher.parse_date_input Sample.now "2027-01-01" false
            = Ok (strftime yesterday)).
Proof.
  split; [reflexivity|].
  apply (C4_end_date_never_after_yesterday Sample.now "2027-01-01").
  reflexivity.
Defined.

(** C2, at an input where it fails.  The four-character numeric string
    ["0999"] is read by [int] as 999 and printed back without its leading
    zero: whatever the clock, start mode returns ["999-01-01"] and not
    ["0999-01-01"], and end mode raises the error that asks for [YYYY],
    because [strptime] does not read the three-digit year. *)
Theorem C2_year_with_leading_zero (now : datetime) :
  Fetcher.parse_date_input now "0999" true
  = (_ <- sub_days now 1 ;; Ok "999-01-01")
  /\ Fetcher.parse_date_input now "0999" false
     = (_ <- sub_days now 1 ;;
        Raise (ValueError "Invalid year format. Please use YYYY.")).
Proof.
  unfold Fetcher.parse_date_input, bind.
  split; destruct (sub_days now 1); reflexivity.
Qed.

(** C3, at two inputs where it fails.  For ["0999-02"] the last day is
    printed as ["999-02-28"], which [strptime] does not read, and for
    ["9999-12"] the first of the next month is outside [datetime]: whatever
    the clock, end mode raises the error that asks for [YYYY-MM] instead of
    returning a date. *)
Theorem C3_month_of_year_below_1000_or_last_month (now : datetime) :
  Fetcher.parse_date_input now "0999-02" false
  = (_ <- sub_days now 1 ;;
     Raise (ValueError "Invalid year-month format. Please use YYYY-MM."))
  /\ Fetcher.parse_date_input now "9999-12" false
     = (_ <- sub_days now 1 ;;
        Raise (ValueError "Invalid year-month format. Please use YYYY-MM.")).
Proof.
  unfold Fetcher.parse_date_input, bind.
  split; destruct (sub_days now 1); reflexivity.
Qed.

(** C9: the two copies of [parse_date_input] agree on every clock reading,
    input and mode, in what they return and in what they raise. *)
Theorem C9_duplicate_normalizer_agrees (now : datetime) (date_str : string)
  (is_start : bool) :
  OpenMeteoFetcher.parse_date_input now date_str is_start
  = Fetcher.parse_date_input now date_str is_start.
Proof. reflexivity. Qed.

End ParseFacts.

(* ================================================================== *)
(** * Grouping by year *)
(* ================================================================== *)

Module FrameFacts.
Import Frame Manual.
Local Open Scope list_scope.

Section Facts.
Context {T : Type} `{Num T}.

Lemma keys_above_weaken lo lo' (gs : list (Z * GroupAcc T)) :
  lo' <= lo -> keys_above lo gs -> keys_above lo' gs.
Proof.
  destruct gs as [| [k g] gs]; cbn; [trivial|]. intros ? [? ?]. split; [lia | assumption].
Qed.

Lemma find_group_below lo k (gs : list (Z * GroupAcc T)) :
  keys_above lo gs -> k <= lo -> find_group k gs = None.
Proof.
  revert lo. induction gs as [| [k' g] gs IH]; cbn; intros lo Hs Hk; [reflexivity|].
  destruct Hs as [Hlo Hs].
  destruct (Z.eqb_spec k k'); [lia|]. apply (IH k'); [assumption | lia].
Qed.

Lemma upsert_keys_above lo (r : Row T) gs :
  keys_above lo gs -> lo < year r -> keys_above lo (upsert r gs).
Proof.
  revert lo. induction gs as [| [k g] gs IH]; cbn; intros lo Hs Hlo.
  - auto.
  - destruct Hs as [Hk Hs].
    destruct (Z.ltb_spec (year r) k); cbn; [auto|].
    destruct (Z.eqb_spec (year r) k); cbn; [auto|].
    split; [assumption|]. apply IH; [assumption | lia].
Qed.

(** Looking a key up after [upsert]. *)
Lemma find_group_upsert lo k (r : Row T) gs :
  keys_above lo gs ->
  find_group k (upsert r gs)
  = if k =? year r then Some (group_add (group_or_new (find_group k gs)) r)
    else find_group k gs.
Proof.
  revert lo. induction gs as [| [k' g] gs IH]; cbn; intros lo Hs.
  - destruct (Z.eqb_spec k (year r)); reflexivity.
  - destruct Hs as [Hlo Hs].
    destruct (Z.ltb_spec (year r) k'); cbn.
    + destruct (Z.eqb_spec k (year r)) as [-> | Hne]; [|reflexivity].
      destruct (Z.eqb_spec (year r) k'); [lia|].
      rewrite (find_group_below k' (year r) gs Hs) by lia. reflexivity.
    + destruct (Z.eqb_spec (year r) k') as [E | Hne]; cbn.
      * destruct (Z.eqb_spec k k') as [-> | Hk].
        -- rewrite <- E, Z.eqb_refl. reflexivity.
        -- destruct (Z.eqb_spec k (year r)); [lia | reflexivity].
      * destruct (Z.eqb_spec k k') as [-> | Hk].
        -- destruct (Z.eqb_spec k' (year r)); [lia | reflexivity].
        -- apply (IH k'); assumption.
Qed.

Lemma groups_snoc (df : DataFrame T) r : groups (df ++ [r]) = upsert r (groups df).
Proof. unfold groups. rewrite fold_left_app. reflexivity. Qed.

Lemma rows_of_year_snoc y (df : DataFrame T) r :
  rows_of_year y (df ++ [r])
  = rows_of_year y df ++ (if year r =? y then [r] else []).
Proof. unfold rows_of_year. rewrite filter_app. reflexivity. Qed.

(** The smallest lower bound that fits every frame. *)
Lemma groups_sorted (df : DataFrame T) : exists lo, keys_above lo (groups df).
Proof.
  induction df as [| r df IH] using rev_ind.
  - exists 0. exact I.
  - destruct IH as [lo Hlo]. rewrite groups_snoc.
    exists (Z.min lo (year r - 1)).
    apply upsert_keys_above; [|lia].
    apply (keys_above_weaken lo); [lia | assumption].
Qed.

(** The accumulators of a year are the fold of [group_add] over the rows
    of that year, in frame order. *)
Lemma find_group_groups k (df : DataFrame T) :
  find_group k (groups df)
  = match rows_of_year k df with
    | [] => None
    | rows => Some (fold_left group_add rows group0)
    end.
Proof.
  induction df as [| r df IH] using rev_ind; [reflexivity|].
  destruct (groups_sorted df) as [lo Hlo].
  rewrite groups_snoc, (find_group_upsert lo) by assumption.
  rewrite rows_of_year_snoc, IH.
  rewrite (Z.eqb_sym k (year r)).
  destruct (Z.eqb_spec (year r) k) as [E | Hne].
  - destruct (rows_of_year k df) as [| r0 rows] eqn:Er; [reflexivity|].
    cbn [group_or_new app fold_left]. rewrite fold_left_app. reflexivity.
  - rewrite app_nil_r. reflexivity.
Qed.

Lemma find_group_In lo k (g : GroupAcc T) gs :
  keys_above lo gs -> (In (k, g) gs <-> find_group k gs = Some g).
Proof.
  revert lo. induction gs as [| [k' g'] gs IH]; cbn; intros lo Hs.
  - split; [contradiction | discriminate].
  - destruct Hs as [Hlo Hs]. specialize (IH k' Hs).
    destruct (Z.eqb_spec k k') as [-> | Hne].
    + split.
      * intros [E | Hin]; [congruence|].
        apply IH in Hin.
        rewrite (find_group_below k' k' gs Hs) in Hin by lia. discriminate.
      * intros E. left. congruence.
    + rewrite <- IH. split; [intros [E | Hin]; [congruence | assumption] | auto].
Qed.

Lemma keys_above_Sorted lo (gs : list (Z * GroupAcc T)) :
  keys_above lo gs -> Sorted Z.lt (map fst gs) /\ HdRel Z.lt lo (map fst gs).
Proof.
  revert lo. induction gs as [| [k g] gs IH]; cbn; intros lo Hs.
  - split; constructor.
  - destruct Hs as [Hlo Hs]. destruct (IH k Hs) as [S1 S2].
    split; constructor; assumption.
Qed.

(** The observations counted are the values present. *)
Lemma nobs_fold (vals : list (option T)) a :
  nobs (fold_left acc_add vals a)
  = (nobs a + List.length (present vals))%nat.
Proof.
  revert a. induction vals as [| [x|] vals IH]; intros a; cbn [fold_left present].
  - cbn. rewrite Nat.add_0_r. reflexivity.
  - rewrite IH. cbn. rewrite Nat.add_succ_r. reflexivity.
  - rewrite IH. reflexivity.
Qed.

Lemma present_nil (vals : list (option T)) :
  present vals = [] <-> Forall (fun v => v = None) vals.
Proof.
  induction vals as [| [x|] vals IH]; cbn [present].
  - split; [constructor | reflexivity].
  - split; [discriminate | intros Hall; inversion Hall; discriminate].
  - rewrite IH. split.
    + intros Hall. constructor; [reflexivity | assumption].
    + intros Hall. inversion Hall. assumption.
Qed.

(** The mean of a column is missing exactly when every value is. *)
Lemma group_mean_none (vals : list (option T)) :
  group_mean vals = None <-> Forall (fun v => v = None) vals.
Proof.
  rewrite <- present_nil. unfold group_mean, acc_mean.
  rewrite nobs_fold. cbn [nobs acc0 Nat.add].
  destruct (present vals) as [| x xs]; cbn [List.length].
  - split; reflexivity.
  - split; discriminate.
Qed.

Lemma fold_group_add (rows : list (Row T)) g :
  fold_left group_add rows g
  = mkGroup (fold_left acc_add (map temp_mean rows) (g_mean g))
            (fold_left acc_add (map temp_min rows) (g_min g))
            (fold_left acc_add (map temp_max rows) (g_max g)).
Proof.
  revert g. induction rows as [| r rows IH]; intros [a b c]; cbn; [reflexivity|].
  rewrite IH. reflexivity.
Qed.

(** The years of [yearly_stats] increase strictly. *)
Lemma groupby_sorted (df : DataFrame T) : Sorted Z.lt (map s_year (groupby_year_mean df)).
Proof.
  unfold groupby_year_mean. rewrite map_map. cbn.
  destruct (groups_sorted df) as [lo Hlo].
  apply (keys_above_Sorted lo), Hlo.
Qed.

(** [yearly_stats] has one row for each year that has rows in the frame, and
    that row carries the means of the columns over the rows of the year. *)
Lemma groupby_In (df : DataFrame T) s :
  In s (groupby_year_mean df)
  <-> rows_of_year (s_year s) df <> [] /\ s = year_stat (s_year s) df.
Proof.
  unfold groupby_year_mean. rewrite in_map_iff.
  destruct (groups_sorted df) as [lo Hlo].
  split.
  - intros ([k g] & <- & Hin). cbn [fst snd s_year].
    apply (find_group_In lo) in Hin; [|assumption].
    rewrite find_group_groups in Hin.
    assert (rows_of_year k df <> [] /\
            g = fold_left group_add (rows_of_year k df) group0) as [Hne ->].
    { destruct (rows_of_year k df); [discriminate|].
      split; [discriminate | congruence]. }
    split; [assumption|].
    unfold year_stat, group_mean. rewrite fold_group_add.
    unfold group0; cbn [g_mean g_min g_max].
    reflexivity.
  - intros [Hne ->]. cbn [s_year year_stat].
    exists (s_year s, fold_left group_add (rows_of_year (s_year s) df) group0).
    split.
    + cbn [fst snd]. unfold year_stat, group_mean. rewrite fold_group_add.
      unfold group0; cbn [g_mean g_min g_max]. reflexivity.
    + apply (find_group_In lo); [assumption|].
      rewrite find_group_groups.
      destruct (rows_of_year (s_year s) df); [contradiction | reflexivity].
Qed.

End Facts.

End FrameFacts.

(* ================================================================== *)
(** * The filter and aggregate engine *)
(* ================================================================== *)

Module EngineFacts.
Import Frame Manual FrameFacts.
Local Open Scope list_scope.

Section Facts.
Context {T : Type} `{Num T}.

Lemma filter_filter_and {A : Type} (f g : A -> bool) (l : list A) :
  filter f (filter g l) = filter (fun x => g x && f x) l.
Proof.
  induction l as [| x l IH]; cbn; [reflexivity|].
  destruct (g x); cbn; [destruct (f x)|]; now rewrite IH.
Qed.

Lemma filter_none {A : Type} (f : A -> bool) (l : list A) :
  (forall x, In x l -> f x = false) -> filter f l = [].
Proof.
  induction l as [| x l IH]; cbn; intros Hf; [reflexivity|].
  rewrite (Hf x) by auto. apply IH. intros; apply Hf; auto.
Qed.

Lemma groupby_nonempty (df : DataFrame T) :
  df <> [] -> groupby_year_mean df <> [].
Proof.
  destruct df as [| r df]; [congruence|]. intros _ E.
  assert (Hin : In (year_stat (year r) (r :: df)) (groupby_year_mean (r :: df))).
  { apply groupby_In. split; [|reflexivity].
    cbn. unfold rows_of_year. cbn. rewrite Z.eqb_refl. discriminate. }
  rewrite E in Hin. contradiction.
Qed.

(** C5: the month range [(s, e)] with both ends in 1..12.  When [s > e] the
    filter keeps exactly the rows whose month is at least [s] or at most [e];
    when [s <= e], exactly those whose month lies in [s, e].  In
    [visualizer.py] the rows it selects from are those left by the exclusion
    of the current period, in [visualization_openmeteo.py] all rows. *)
Theorem C5_month_range_filter (s e : Z) :
  1 <= s <= 12 -> 1 <= e <= 12 ->
  (s > e ->
   (forall cy cm (df : DataFrame T) r,
       In r (Visualizer.filter_by_month cy cm df None (Some (s, e)))
       <-> In r (filter (Visualizer.not_current_period cy cm) df)
           /\ (month r >= s \/ month r <= e))
   /\ (forall (df : DataFrame T) r,
       In r (VisualizationOpenmeteo.filter_by_month df None (Some (s, e)))
       <-> In r df /\ (month r >= s \/ month r <= e)))
  /\ (s <= e ->
      (forall cy cm (df : DataFrame T) r,
          In r (Visualizer.filter_by_month cy cm df None (Some (s, e)))
          <-> In r (filter (Visualizer.not_current_period cy cm) df)
              /\ s <= month r <= e)
      /\ (forall (df : DataFrame T) r,
          In r (VisualizationOpenmeteo.filter_by_month df None (Some (s, e)))
          <-> In r df /\ s <= month r <= e)).
Proof.
  intros Hs He.
  unfold Visualizer.filter_by_month, VisualizationOpenmeteo.filter_by_month.
  split; intros Hse.
  - destruct (Z.leb_spec s e); [lia|].
    split; intros; rewrite filter_In; apply and_iff_compat_l; lia.
  - destruct (Z.leb_spec s e); [|lia].
    split; intros; rewrite filter_In; apply and_iff_compat_l; lia.
Qed.

(** Whatever the selectors, no row of the current year or later reaches
    the aggregation of [visualizer.py]. *)
Lemma visualizer_rows_before_current_year (current_date : Py.datetime)
  (df : DataFrame T) year year_range month month_range clean r :
  Visualizer.df_clean current_date df year year_range month month_range
  = inr clean ->
  In r clean -> In r df /\ Frame.year r < Py.year current_date.
Proof.
  unfold Visualizer.df_clean, Visualizer.filter_by_year,
    Visualizer.filter_by_month, dropna_temp_mean.
  intros E Hin.
  destruct year as [y|]; [| destruct year_range as [[sy ey]|];
    [destruct (Z.geb_spec sy (Py.year current_date)); [discriminate|] |]];
  injection E as <-;
  (destruct month as [m|]; [| destruct month_range as [[sm em]|];
    [destruct (sm <=? em) |]]);
  repeat (apply filter_In in Hin; destruct Hin as [Hin ?]);
  (split; [assumption|]);
  repeat match goal with
         | |- context [if ?b then _ else _] => destruct b eqn:?
         | H : context [if ?b then _ else _] |- _ => destruct b eqn:?
         end; lia.
Qed.

(** C6, as amended: in [visualizer.py], with no year selector and whatever
    the month selector, the run reaches the aggregation, every row that
    reaches it lies in a year before the current one (so none lies in the
    current year at or after the current month), and [yearly_stats] has no
    row for the current year or a later one. *)
Theorem C6_visualizer_excludes_current_year (current_date : Py.datetime)
  (df : DataFrame T) (month : option Z) (month_range : option (Z * Z)) :
  exists clean,
    Visualizer.df_clean current_date df None None month month_range
    = inr clean
    /\ (forall r, In r clean ->
                  In r df
                  /\ year r < Py.year current_date
                  /\ Visualizer.not_current_period (Py.year current_date)
                       (Py.month current_date) r = true)
    /\ (forall stats,
          Visualizer.visualize_weather_data current_date df
            None None month month_range = Chart stats ->
          Forall (fun s => s_year s < Py.year current_date) stats).
Proof.
  destruct (Visualizer.df_clean current_date df None None month month_range)
    as [o | clean] eqn:E.
  { unfold Visualizer.df_clean in E. cbn in E. discriminate. }
  exists clean. split; [reflexivity|].
  assert (Hrows : forall r, In r clean ->
                            In r df /\ year r < Py.year current_date).
  { intros r Hr. eapply visualizer_rows_before_current_year; eassumption. }
  split.
  - intros r Hr. destruct (Hrows r Hr) as [Hin Hy].
    repeat split; try assumption.
    unfold Visualizer.not_current_period.
    destruct (Z.eqb_spec (year r) (Py.year current_date)); [lia | reflexivity].
  - intros stats. unfold Visualizer.visualize_weather_data. rewrite E.
    destruct (empty clean); [discriminate|]. intros [= <-].
    apply Forall_forall. intros s Hs.
    apply groupby_In in Hs. destruct Hs as [Hne _].
    destruct (rows_of_year (s_year s) clean) as [| r rows] eqn:Er; [congruence|].
    assert (Hr : In r (rows_of_year (s_year s) clean)) by (rewrite Er; left; reflexivity).
    apply filter_In in Hr. destruct Hr as [Hr Hy].
    apply Z.eqb_eq in Hy. rewrite <- Hy. apply Hrows, Hr.
Qed.

End Facts.




(** The yearly statistics of the [float64] sample: the mean of 2021 is
    0.19999999999999998, and the minimum of 2022 is missing. *)
Example float_yearly_means :
  Visualizer.visualize_weather_data Sample.now SampleFloat.df
    None (Some (2021, 2022)) None None
  = Chart [ mkStat 2021 (Some SampleFloat.below_two_tenths)
              (Some PrimFloat.zero) (Some SampleFloat.half);
            mkStat 2022 (Some PrimFloat.one) None (Some SampleFloat.one_and_a_half) ].
Proof. reflexivity. Qed.

(** The sample frame, years 2021 to 2022: the row of 2022 without a mean
    temperature is dropped, and the minimum of 2022 is averaged over the one
    value present. *)
Example sample_yearly_means :
  Visualizer.visualize_weather_data Sample.now Sample.df
    None (Some (2021, 2022)) None None
  = Chart [ mkStat 2021 (Some (23 # 2)%Q) (Some (16 # 2)%Q) (Some (30 # 2)%Q);
            mkStat 2022 (Some (11 # 2)%Q) (Some (2 # 1)%Q) (Some (15 # 2)%Q) ].
Proof. reflexivity. Qed.

Lemma C5_witness :
  ((1 <= 11 <= 12 /\ 1 <= 2 <= 12 /\ 11 > 2)
   /\ forall (df : DataFrame Q) r,
       In r (VisualizationOpenmeteo.filter_by_month df None (Some (11, 2)))
       <-> In r df /\ (month r >= 11 \/ month r <= 2))
  /\ ((1 <= 6 <= 12 /\ 1 <= 8 <= 12 /\ 6 <= 8)
      /\ forall (df : DataFrame Q) r,
          In r (VisualizationOpenmeteo.filter_by_month df None (Some (6, 8)))
          <-> In r df /\ 6 <= month r <= 8).
Proof.
  split; (split; [lia|]).
  - destruct (C5_month_range_filter (T := Q) 11 2 ltac:(lia) ltac:(lia))
      as [Hwrap _].
    exact (proj2 (Hwrap ltac:(lia))).
  - destruct (C5_month_range_filter (T := Q) 6 8 ltac:(lia) ltac:(lia))
      as [_ Hplain].
    exact (proj2 (Hplain ltac:(lia))).
Defined.

(** The months of the year that the two ranges of the specification select. *)
Example months_11_to_2_and_6_to_8 :
  map month
    (VisualizationOpenmeteo.filter_by_month
       (map (fun m => Sample.row 2020 m 1 None None None)
            [1; 2; 3; 4; 5; 6; 7; 8; 9; 10; 11; 12])
       None (Some (11, 2)))
  = [1; 2; 11; 12]
  /\ map month
       (VisualizationOpenmeteo.filter_by_month
          (map (fun m => Sample.row 2020 m 1 None None None)
               [1; 2; 3; 4; 5; 6; 7; 8; 9; 10; 11; 12])
          None (Some (6, 8)))
     = [6; 7; 8].
Proof. split; reflexivity. Qed.

(** In [visualizer.py] a year range that starts in the current year or later
    ends the run before any filtering, with its own message and no chart. *)
Example year_range_from_current_year :
  Visualizer.visualize_weather_data Sample.now Sample.df
    None (Some (2026, 2027)) None None
  = NoDataAvailable 2026.
Proof. reflexivity. Qed.

(** C6 fails for [visualization_openmeteo.py]: with no selector at all, a
    row of the current year reaches the aggregation and [yearly_stats] has a
    row for the current year. *)
Lemma C6_counterexample :
  VisualizationOpenmeteo.df_clean Sample.df_this_year None None None None
  = Sample.df_this_year
  /\ VisualizationOpenmeteo.visualize_weather_data Sample.df_this_year
       None None None None
     = Chart [ mkStat 2026 (Some (15 # 1)%Q) (Some (10 # 1)%Q)
                 (Some (20 # 1)%Q) ]
  /\ Py.year Sample.now = 2026
  /\ ~ (forall r,
          In r (VisualizationOpenmeteo.df_clean Sample.df_this_year
                  None None None None) ->
          year r < Py.year Sample.now).
Proof.
  repeat split.
  intros H.
  specialize (H (Sample.row 2026 5 1 (Some 10%Q) (Some 20%Q) (Some 15%Q))
                (or_introl eq_refl)).
  exact (Z.lt_irrefl _ H).
Qed.

Lemma C6_witness :
  exists clean r,
    Visualizer.df_clean Sample.now Sample.df None None None None = inr clean
    /\ In r clean
    /\ year r < Py.year Sample.now.
Proof.
  destruct (C6_visualizer_excludes_current_year Sample.now Sample.df None None)
    as (clean & E & Hrows & _).
  exists clean, (Sample.row 2021 1 1 (Some 1%Q) (Some 5%Q) (Some 3%Q)).
  assert (Hin : In (Sample.row 2021 1 1 (Some 1%Q) (Some 5%Q) (Some 3%Q)) clean).
  { vm_compute in E. injection E as <-. left. reflexivity. }
  split; [exact E|]. split; [exact Hin|].
  exact (proj1 (proj2 (Hrows _ Hin))).
Defined.

End EngineFacts.

(* ================================================================== *)
(** * Argument validation of the two command lines *)
(* ================================================================== *)

Module CliFacts.

(** A single year that Python treats as true, given with a year range, ends
    [visualizer.py] with exit code 1. *)
(** ** The conflict of a year and a year range *)

Lemma visualizer_year_conflict (y : Z) (yr : Z * Z) (m : option Z)
  (mr : option (Z * Z)) :
  y <> 0 ->
  Visualizer.main (Visualizer.mkArgs (Some y) (Some yr) m mr)
  = Visualizer.Exit 1 Visualizer.BothYearAndYearRange.
Proof.
  intros Hy. unfold Visualizer.main. cbn.
  destruct (Z.eqb_spec y 0) as [E | _]; [contradiction | reflexivity].
Qed.

Lemma openmeteo_year_conflict (y : Z) (yr : Z * Z) (m : option Z)
  (mr : option (Z * Z)) :
  y <> 0 ->
  VisualizationOpenmeteo.main
    (VisualizationOpenmeteo.mkArgs (Some y) (Some yr) m mr)
  = VisualizationOpenmeteo.Exit 1 VisualizationOpenmeteo.BothYearAndYearRange.
Proof.
  intros Hy. unfold VisualizationOpenmeteo.main. cbn.
  destruct (Z.eqb_spec y 0) as [E | _]; [contradiction | reflexivity].
Qed.

(** The conditions under which [visualizer.py] ends with exit code 1 when the
    single year, if given, is not zero and the month, if given, is one that
    [argparse] lets through (1 to 12). *)
Lemma visualizer_rejects (a : Visualizer.Args) :
  Visualizer.a_year a <> Some 0 ->
  (forall m, Visualizer.a_month a = Some m -> 1 <= m <= 12) ->
  (Visualizer.a_year a <> None /\ Visualizer.a_year_range a <> None)
  \/ (Visualizer.a_month a <> None /\ Visualizer.a_month_range a <> None)
  \/ (exists s e, Visualizer.a_month_range a = Some (s, e)
                  /\ ~ (1 <= s <= 12 /\ 1 <= e <= 12))
  \/ (exists s e, Visualizer.a_year_range a = Some (s, e) /\ s > e) ->
  exists msg, Visualizer.main a = Visualizer.Exit 1 msg.
Proof.
  destruct a as [[y|] [[ys ye]|] [m|] [[s e]|]];
    cbn [Visualizer.a_year Visualizer.a_year_range
         Visualizer.a_month Visualizer.a_month_range];
    intros Hy Hm Hc; unfold Visualizer.main; cbn;
    try (assert ((y =? 0) = false) as -> by (apply Z.eqb_neq; congruence));
    try (assert ((m =? 0) = false) as ->
           by (apply Z.eqb_neq; specialize (Hm m eq_refl); lia));
    cbn; eauto;
    repeat match goal with
      | |- context [if negb ?b then _ else _] =>
          let E := fresh "E" in destruct b eqn:E; cbn; eauto
      | |- context [if ?a >? ?b then _ else _] =>
          destruct (Z.gtb_spec a b); cbn; eauto
      end;
    exfalso;
    destruct Hc as [[H1 H2] | [[H1 H2] | [(s' & e' & H1 & H2) | (s' & e' & H1 & H2)]]];
    try congruence;
    injection H1 as <- <-; lia.
Qed.

Lemma openmeteo_rejects (a : VisualizationOpenmeteo.Args) :
  VisualizationOpenmeteo.a_year a <> Some 0 ->
  (forall m, VisualizationOpenmeteo.a_month a = Some m -> 1 <= m <= 12) ->
  (VisualizationOpenmeteo.a_year a <> None
   /\ VisualizationOpenmeteo.a_year_range a <> None)
  \/ (VisualizationOpenmeteo.a_month a <> None
      /\ VisualizationOpenmeteo.a_month_range a <> None)
  \/ (exists s e, VisualizationOpenmeteo.a_month_range a = Some (s, e)
                  /\ ~ (1 <= s <= 12 /\ 1 <= e <= 12))
  \/ (exists s e, VisualizationOpenmeteo.a_year_range a = Some (s, e)
                  /\ s > e) ->
  exists msg, VisualizationOpenmeteo.main a = VisualizationOpenmeteo.Exit 1 msg.
Proof.
  destruct a as [[y|] [[ys ye]|] [m|] [[s e]|]];
    cbn [VisualizationOpenmeteo.a_year VisualizationOpenmeteo.a_year_range
         VisualizationOpenmeteo.a_month VisualizationOpenmeteo.a_month_range];
    intros Hy Hm Hc; unfold VisualizationOpenmeteo.main; cbn;
    try (assert ((y =? 0) = false) as -> by (apply Z.eqb_neq; congruence));
    try (assert ((m =? 0) = false) as ->
           by (apply Z.eqb_neq; specialize (Hm m eq_refl); lia));
    cbn; eauto;
    repeat match goal with
      | |- context [if negb ?b then _ else _] =>
          let E := fresh "E" in destruct b eqn:E; cbn; eauto
      | |- context [if ?a >? ?b then _ else _] =>
          destruct (Z.gtb_spec a b); cbn; eauto
      end;
    exfalso;
    destruct Hc as [[H1 H2] | [[H1 H2] | [(s' & e' & H1 & H2) | (s' & e' & H1 & H2)]]];
    try congruence;
    injection H1 as <- <-; lia.
Qed.

(** C7, at the input where it fails: with [--year 0 --year-range 2000 2010]
    both selectors are supplied, yet neither command line exits; each goes on
    to call [visualize_weather_data] with both. *)
Theorem C7_year_zero_with_year_range_is_not_rejected :
  Visualizer.main (Visualizer.mkArgs (Some 0) (Some (2000, 2010)) None None)
  = Visualizer.Call (Some 0) (Some (2000, 2010)) None None
  /\ VisualizationOpenmeteo.main
       (VisualizationOpenmeteo.mkArgs (Some 0) (Some (2000, 2010)) None None)
     = VisualizationOpenmeteo.Call (Some 0) (Some (2000, 2010)) None None.
Proof. split; reflexivity. Qed.

(** C10: the conflict checks test truth values.  With [--year 0] the
    year conflict never fires: validation goes on exactly as if the year
    were absent, and when the remaining checks pass the call is made with
    year 0 and the year range.  The same holds for a month of 0.  With any
    non-zero year and a year range, both command lines exit with code 1 on
    the conflict message. *)
Theorem C10_conflict_check_tests_truthiness :
  (forall yr m mr,
      Visualizer.main (Visualizer.mkArgs (Some 0) yr m mr)
      = match Visualizer.main (Visualizer.mkArgs None yr m mr) with
        | Visualizer.Exit c msg => Visualizer.Exit c msg
        | Visualizer.Call _ yr' m' mr' => Visualizer.Call (Some 0) yr' m' mr'
        end)
  /\ (forall yr m mr,
      VisualizationOpenmeteo.main
        (VisualizationOpenmeteo.mkArgs (Some 0) yr m mr)
      = match VisualizationOpenmeteo.main
                (VisualizationOpenmeteo.mkArgs None yr m mr) with
        | VisualizationOpenmeteo.Exit c msg =>
            VisualizationOpenmeteo.Exit c msg
        | VisualizationOpenmeteo.Call _ yr' m' mr' =>
            VisualizationOpenmeteo.Call (Some 0) yr' m' mr'
        end)
  /\ (forall y yr mr,
      Visualizer.main (Visualizer.mkArgs y yr (Some 0) mr)
      = match Visualizer.main (Visualizer.mkArgs y yr None mr) with
        | Visualizer.Exit c msg => Visualizer.Exit c msg
        | Visualizer.Call y' yr' _ mr' => Visualizer.Call y' yr' (Some 0) mr'
        end)
  /\ (forall y yr mr,
      VisualizationOpenmeteo.main
        (VisualizationOpenmeteo.mkArgs y yr (Some 0) mr)
      = match VisualizationOpenmeteo.main
                (VisualizationOpenmeteo.mkArgs y yr None mr) with
        | VisualizationOpenmeteo.Exit c msg =>
            VisualizationOpenmeteo.Exit c msg
        | VisualizationOpenmeteo.Call y' yr' _ mr' =>
            VisualizationOpenmeteo.Call y' yr' (Some 0) mr'
        end)
  /\ (forall s e,
      s <= e ->
      Visualizer.main (Visualizer.mkArgs (Some 0) (Some (s, e)) None None)
      = Visualizer.Call (Some 0) (Some (s, e)) None None
      /\ VisualizationOpenmeteo.main
           (VisualizationOpenmeteo.mkArgs (Some 0) (Some (s, e)) None None)
         = VisualizationOpenmeteo.Call (Some 0) (Some (s, e)) None None)
  /\ (forall y yr m mr,
      y <> 0 ->
      Visualizer.main (Visualizer.mkArgs (Some y) (Some yr) m mr)
      = Visualizer.Exit 1 Visualizer.BothYearAndYearRange
      /\ VisualizationOpenmeteo.main
           (VisualizationOpenmeteo.mkArgs (Some y) (Some yr) m mr)
         = VisualizationOpenmeteo.Exit 1
             VisualizationOpenmeteo.BothYearAndYearRange).
Proof.
  repeat split.
  - intros yr m mr. unfold Visualizer.main; cbn.
    repeat match goal with
           | |- context [if ?b then _ else _] => destruct b
           end; reflexivity.
  - intros yr m mr. unfold VisualizationOpenmeteo.main; cbn.
    repeat match goal with
           | |- context [if ?b then _ else _] => destruct b
           end; reflexivity.
  - intros y yr mr. unfold Visualizer.main; cbn.
    repeat match goal with
           | |- context [if ?b then _ else _] => destruct b
           end; reflexivity.
  - intros y yr mr. unfold VisualizationOpenmeteo.main; cbn.
    repeat match goal with
           | |- context [if ?b then _ else _] => destruct b
           end; reflexivity.
  - unfold Visualizer.main; cbn.
    destruct (Z.gtb_spec s e); [lia | reflexivity].
  - unfold VisualizationOpenmeteo.main; cbn.
    destruct (Z.gtb_spec s e); [lia | reflexivity].
  - now apply visualizer_year_conflict.
  - now apply openmeteo_year_conflict.
Qed.

Lemma C10_witness :
  (2000 <= 2010
   /\ Visualizer.main
        (Visualizer.mkArgs (Some 0) (Some (2000, 2010)) None None)
      = Visualizer.Call (Some 0) (Some (2000, 2010)) None None)
  /\ (2020 <> 0
      /\ Visualizer.main
           (Visualizer.mkArgs (Some 2020) (Some (2000, 2010)) None None)
         = Visualizer.Exit 1 Visualizer.BothYearAndYearRange).
Proof.
  destruct C10_conflict_check_tests_truthiness
    as (_ & _ & _ & _ & Hzero & Hnonzero).
  split; split.
  - lia.
  - exact (proj1 (Hzero 2000 2010 ltac:(lia))).
  - discriminate.
  - exact (proj1 (Hnonzero 2020 (2000, 2010) None None ltac:(discriminate))).
Defined.

End CliFacts.

(* ================================================================== *)
(** * Text and the names of the files written *)
(* ================================================================== *)

Module StrFacts.
Import Py PyStr.

Lemma app_assoc_s (a b c : string) : (a ++ b) ++ c = a ++ b ++ c.
Proof. induction a as [| x a IH]; cbn; [reflexivity | now rewrite IH]. Qed.

Lemma app_nil_r_s (a : string) : a ++ "" = a.
Proof. induction a as [| x a IH]; cbn; [reflexivity | now rewrite IH]. Qed.

Lemma length_app_s (a b : string) :
  String.length (a ++ b) = (String.length a + String.length b)%nat.
Proof. induction a as [| x a IH]; cbn; [reflexivity | now rewrite IH]. Qed.

Lemma substring_all (t : string) : substring 0 (String.length t) t = t.
Proof. induction t as [| c t IH]; cbn; [reflexivity | now rewrite IH]. Qed.

Lemma substring_skip (p t : string) (k : nat) :
  substring (String.length p) k (p ++ t) = substring 0 k t.
Proof. induction p as [| c p IH]; cbn; [reflexivity | exact IH]. Qed.

Lemma substring_split (s : string) (n : nat) :
  (n <= String.length s)%nat ->
  s = substring 0 n s ++ substring n (String.length s - n) s.
Proof.
  revert n. induction s as [| c s IH]; intros n Hn.
  - destruct n; reflexivity.
  - destruct n as [| n]; cbn.
    + now rewrite substring_all.
    + cbn in Hn. rewrite <- IH by lia. reflexivity.
Qed.

(** [s.endswith(t)] holds exactly when [s] is some text followed by [t]. *)
Lemma endswith_iff (s t : string) :
  endswith s t = true <-> exists p, s = p ++ t.
Proof.
  unfold endswith. rewrite andb_true_iff, Nat.leb_le, String.eqb_eq. split.
  - remember (String.length t) as k eqn:Ek. intros [Hk E].
    exists (substring 0 (String.length s - k) s).
    rewrite <- E.
    pose proof (substring_split s (String.length s - k) ltac:(lia)) as Hs.
    replace (String.length s - (String.length s - k))%nat with k in Hs by lia.
    exact Hs.
  - intros [p ->]. rewrite length_app_s. split; [lia|].
    replace (String.length p + String.length t - String.length t)%nat
      with (String.length p) by lia.
    rewrite substring_skip. apply substring_all.
Qed.

Lemma contains_app (c : ascii) (a b : string) :
  contains c (a ++ b) = contains c a || contains c b.
Proof.
  induction a as [| x a IH]; cbn; [reflexivity|].
  rewrite IH. now rewrite orb_assoc.
Qed.

Lemma append_inj_last (a b : string) (c d : ascii) :
  a ++ String c "" = b ++ String d "" -> a = b /\ c = d.
Proof.
  revert b. induction a as [| x a IH]; intros [| y b]; cbn; intros E.
  - now injection E.
  - injection E as _ E. destruct b; discriminate.
  - injection E as _ E. destruct a; discriminate.
  - injection E as -> E. destruct (IH b E) as [-> ->]. split; reflexivity.
Qed.

Lemma append_inj_suffix (a b t : string) : a ++ t = b ++ t -> a = b.
Proof.
  revert a b. induction t as [| c t IH]; intros a b E.
  - now rewrite !app_nil_r_s in E.
  - change (String c t) with (String c "" ++ t) in E.
    rewrite <- !app_assoc_s in E. apply IH in E.
    now apply append_inj_last in E.
Qed.

End StrFacts.

Module OutputFacts.
Import Py PyStr StrFacts VisualizerOutput.

(** X1: the file a chart of [visualizer.py] is saved to, with or without
    a custom name: its name ends with [.png] and contains a slash, and given
    back as the custom name of any other run it is used unchanged. *)
Theorem output_file_is_a_png_in_a_directory (current_year : Z)
  (location_coords : string) year year_range month month_range
  (output_filename : option string) :
  endswith (output_file current_year location_coords
              year year_range month month_range output_filename) ".png"
  = true
  /\ contains "/" (output_file current_year location_coords
                     year year_range month month_range output_filename)
     = true
  /\ (forall current_year' location_coords' year' year_range' month'
             month_range',
        output_file current_year' location_coords'
          year' year_range' month' month_range'
          (Some (output_file current_year location_coords
                   year year_range month month_range output_filename))
        = output_file current_year location_coords
            year year_range month month_range output_filename).
Proof.
  set (f := output_file current_year location_coords
              year year_range month month_range output_filename).
  assert (Hc : forall s, endswith (custom_output_file s) ".png" = true
                         /\ contains "/" (custom_output_file s) = true).
  { intros s. unfold custom_output_file.
    destruct (endswith s ".png") eqn:Ee; cbn [negb].
    - destruct (contains "/" s) eqn:Ec; cbn [negb].
      + auto.
      + split; [|reflexivity].
        apply endswith_iff in Ee. destruct Ee as [p ->].
        apply endswith_iff. exists ("img/" ++ p). now rewrite app_assoc_s.
    - assert (Hp : endswith (s ++ ".png") ".png" = true)
        by (apply endswith_iff; now exists s).
      destruct (contains "/" (s ++ ".png")) eqn:Ec; cbn [negb].
      + auto.
      + split; [|reflexivity].
        apply endswith_iff. exists ("img/" ++ s). now rewrite app_assoc_s. }
  assert (Hd : forall s, endswith ("img/weather_trend_" ++ s ++ ".png") ".png"
                         = true
                         /\ contains "/" ("img/weather_trend_" ++ s ++ ".png")
                            = true).
  { intros s. split; [|reflexivity].
    apply endswith_iff. exists ("img/weather_trend_" ++ s).
    now rewrite app_assoc_s. }
  assert (Hfix : forall s, endswith s ".png" = true ->
                           contains "/" s = true ->
                           custom_output_file s = s).
  { intros s He Hs. unfold custom_output_file. rewrite He. cbn [negb].
    now rewrite Hs. }
  assert (Hf : endswith f ".png" = true /\ contains "/" f = true).
  { subst f. unfold output_file.
    destruct output_filename as [[| c name] |]; cbn [truthy];
      first [apply Hc | rewrite <- (app_assoc_s location_coords); apply Hd]. }
  destruct Hf as [He Hs]. split; [assumption|]. split; [assumption|].
  intros cy' lc' y' yr' m' mr'. unfold output_file.
  destruct f as [| c g]; [discriminate|]. cbn [truthy].
  now apply Hfix.
Qed.

(** Custom names for the chart: an extension and the directory are added
    when they are missing. *)
Example custom_chart_names :
  custom_output_file "paris" = "img/paris.png"
  /\ custom_output_file "out/paris" = "out/paris.png"
  /\ custom_output_file "paris.png" = "img/paris.png"
  /\ custom_output_file "out/paris.png" = "out/paris.png".
Proof. repeat split. Qed.

End OutputFacts.

(* ================================================================== *)
(** * More of [parse_date_input], its callers and the presets of the form *)
(* ================================================================== *)

Module ParseMore.
Import Py Calendar CalendarFacts ParseFacts Shape PyStr StrFacts.

Lemma lstrip_all_space ws x :
  all_space ws = true -> lstrip is_space (ws ++ x) = lstrip is_space x.
Proof.
  induction ws as [| c ws IH]; cbn; [reflexivity|].
  rewrite andb_true_iff. intros [-> Hs]. now apply IH.
Qed.

Lemma rstrip_all_space_nil ws :
  all_space ws = true -> rstrip is_space ws = "".
Proof.
  induction ws as [| c ws IH]; cbn; [reflexivity|].
  rewrite andb_true_iff. intros [-> Hs]. now rewrite IH.
Qed.

Lemma rstrip_all_space x ws :
  all_space ws = true -> rstrip is_space (x ++ ws) = rstrip is_space x.
Proof.
  intros Hs. induction x as [| c x IH]; cbn.
  - now apply rstrip_all_space_nil.
  - now rewrite IH.
Qed.

Lemma lstrip_all_space_nil ws :
  all_space ws = true -> lstrip is_space ws = "".
Proof.
  induction ws as [| c ws IH]; cbn; [reflexivity|].
  rewrite andb_true_iff. intros [-> Hs]. now apply IH.
Qed.

Lemma strip_padded ws1 x ws2 :
  all_space ws1 = true -> all_space ws2 = true ->
  strip (ws1 ++ x ++ ws2) = strip x.
Proof.
  intros H1 H2. unfold strip. rewrite lstrip_all_space by assumption.
  induction x as [| c x IH]; cbn [append lstrip].
  - now rewrite lstrip_all_space_nil.
  - destruct (is_space c); [exact IH|].
    change (String c (x ++ ws2)) with (String c x ++ ws2).
    now apply rstrip_all_space.
Qed.

(** X2: white space around the input does not matter: with any run of
    [strip]'s white space before and after it, the input gives the same
    result or the same error, in both modes. *)
Theorem parse_date_input_ignores_padding (now : datetime)
  (ws1 date_str ws2 : string) (is_start : bool) :
  all_space ws1 = true -> all_space ws2 = true ->
  Fetcher.parse_date_input now (ws1 ++ date_str ++ ws2) is_start
  = Fetcher.parse_date_input now date_str is_start.
Proof.
  intros H1 H2. unfold Fetcher.parse_date_input.
  now rewrite strip_padded.
Qed.

Lemma parse_date_input_ignores_padding_witness :
  all_space "  " = true /\ all_space " " = true
  /\ Fetcher.parse_date_input Sample.now ("  " ++ "2023-05" ++ " ") false
     = Fetcher.parse_date_input Sample.now "2023-05" false.
Proof.
  split; [reflexivity|]. split; [reflexivity|].
  apply (parse_date_input_ignores_padding Sample.now "  " "2023-05" " " false);
    reflexivity.
Defined.

Lemma first_of_month_ordinal y m :
  valid_ymd y m 1 = true -> 1 <= y -> (y, m) <> (1, 1) ->
  2 <= ymd2ord y m 1.
Proof.
  intros Hv Hy Hne. apply valid_ymd_inv in Hv. destruct Hv as (_ & Hm & _).
  unfold ymd2ord.
  pose proof (days_before_year_mono 1 y Hy) as H1.
  change (days_before_year 1) with 0 in H1.
  destruct (Z.eq_dec m 1) as [-> | Hm1].
  - assert (2 <= y) by (destruct (Z.eq_dec y 1); [subst; congruence | lia]).
    pose proof (days_before_year_mono 2 y ltac:(lia)) as H2.
    change (days_before_year 2) with 365 in H2.
    change (days_before_month y 1) with 0. lia.
  - pose proof (days_before_month_mono y 2 m ltac:(lia) ltac:(lia) ltac:(lia)) as H2.
    change (days_before_month y 2) with 31 in H2. lia.
Qed.

Lemma try_except_inv {A : Type} (body : result A) (msg : string) e :
  try_except_ValueError body msg = Raise e ->
  e = ValueError msg \/ (e = OverflowError /\ body = Raise OverflowError).
Proof.
  unfold try_except_ValueError.
  destruct body as [a | [m |]]; [discriminate | |]; intros [= <-]; auto.
Qed.

Lemma bind_overflow {A B : Type} (r : result A) (k : A -> result B) :
  bind r k = Raise OverflowError ->
  r = Raise OverflowError \/ exists a, r = Ok a /\ k a = Raise OverflowError.
Proof. destruct r as [a | e]; cbn; [eauto | intros [= ->]; auto]. Qed.

Lemma int_no_overflow s : int s <> Raise OverflowError.
Proof. unfold int. destruct (int_signed _); discriminate. Qed.

Lemma datetime_new_no_overflow y m d : datetime_new y m d <> Raise OverflowError.
Proof. unfold datetime_new. destruct (valid_ymd y m d); discriminate. Qed.

Lemma strptime_no_overflow s : strptime s <> Raise OverflowError.
Proof.
  unfold strptime.
  destruct (re_match s) as [[[[y m] d] [| ? ?]] |]; try discriminate.
  apply datetime_new_no_overflow.
Qed.

Lemma unpack2_no_overflow {A : Type} (xs : list A) :
  unpack2 xs <> Raise OverflowError.
Proof. destruct xs as [| a [| b [| c xs]]]; discriminate. Qed.

Lemma if_no_overflow {A : Type} (b : bool) (x y : result A) :
  x <> Raise OverflowError -> y <> Raise OverflowError ->
  (if b then x else y) <> Raise OverflowError.
Proof. now destruct b. Qed.

Lemma sub_days_raise t k e : sub_days t k = Raise e -> e = OverflowError.
Proof.
  unfold sub_days. destruct ((_ <=? _) && (_ <=? _)); [| now intros [= <-]].
  destruct (ord2ymd _) as [[? ?] ?]. discriminate.
Qed.

(** The day before the first of a later month always exists. *)
Lemma day_before_first_no_overflow y m t :
  datetime_new y m 1 = Ok t -> (y, m) <> (1, 1) ->
  sub_days t 1 <> Raise OverflowError.
Proof.
  unfold datetime_new. destruct (valid_ymd y m 1) eqn:Hv; [|discriminate].
  intros [= <-] Hne. unfold sub_days, toordinal. cbn [year month day].
  pose proof (valid_ymd_inv _ _ _ Hv) as (Hy & _ & _).
  pose proof (first_of_month_ordinal y m Hv ltac:(lia) Hne).
  pose proof (ymd2ord_range y m 1 Hv).
  change (ymd2ord MAXYEAR 12 31) with 3652059.
  destruct (Z.leb_spec 1 (ymd2ord y m 1 - 1)); [|lia].
  destruct (Z.leb_spec (ymd2ord y m 1 - 1) 3652059); [|lia].
  cbn [andb]. destruct (ord2ymd _) as [[? ?] ?]. discriminate.
Qed.

Ltac overflow_steps H :=
  repeat (apply bind_overflow in H;
          destruct H as [H | (? & ? & H)];
          [ first [ now apply int_no_overflow in H
                  | now apply strptime_no_overflow in H
                  | now apply unpack2_no_overflow in H
                  | idtac ] |]).

(** [OverflowError] comes from the clock having no day before it, or from
    the month 12 of year 0 in end mode, whose next month starts on the first
    day [datetime] has. *)
Lemma parse_date_input_overflow (now : datetime) (date_str : string)
  (is_start : bool) :
  Fetcher.parse_date_input now date_str is_start = Raise OverflowError ->
  sub_days now 1 = Raise OverflowError
  \/ (is_start = false
      /\ exists ys ms, split "-" (strip date_str) = [ys; ms]
                       /\ int ys = Ok 0 /\ int ms = Ok 12).
Proof.
  unfold Fetcher.parse_date_input.
  destruct (sub_days now 1) as [yesterday | e0] eqn:Ey; cbn [bind];
    [| intros [= ->]; now left].
  intros E. right.
  repeat match type of E with
         | (if ?b then _ else _) = _ => destruct b
         end; try discriminate;
  (apply try_except_inv in E; destruct E as [E | [_ E]]; [discriminate|]).
  - exfalso. overflow_steps E. destruct is_start; [discriminate|].
    overflow_steps E. now destruct (dt_gt _ _).
  - apply bind_overflow in E. destruct E as [E | ([ys ms] & Hs & E)];
      [now apply unpack2_no_overflow in E|].
    apply bind_overflow in E. destruct E as [E | (y & Hy & E)];
      [now apply int_no_overflow in E|].
    apply bind_overflow in E. destruct E as [E | (m & Hm & E)];
      [now apply int_no_overflow in E|].
    destruct ((m <? 1) || (m >? 12)) eqn:Em; [discriminate|].
    destruct is_start; [discriminate|]. split; [reflexivity|].
    exists ys, ms.
    assert (Hsp : split "-" (strip date_str) = [ys; ms]).
    { destruct (split "-" (strip date_str)) as [| a [| b [| c l]]];
        try discriminate. now injection Hs as -> ->. }
    split; [exact Hsp|].
    apply bind_overflow in E. destruct E as [E | (t & Et & E)].
    { destruct (m =? 12); now apply datetime_new_no_overflow in E. }
    apply bind_overflow in E. destruct E as [E | (? & _ & E)].
    { apply orb_false_iff in Em. destruct Em as [Em1 Em2].
      apply Z.ltb_ge in Em1.
      destruct (Z.eqb_spec m 12) as [-> | Hm12].
      - destruct (Z.eq_dec y 0) as [-> | Hy0]; [now split|].
        exfalso.
        apply (day_before_first_no_overflow _ _ _ Et) in E; [assumption|].
        intros Hq. injection Hq; intros; lia.
      - exfalso.
        apply (day_before_first_no_overflow _ _ _ Et) in E; [assumption|].
        intros Hq. injection Hq; intros; lia. }
    exfalso. overflow_steps E. now destruct (dt_gt _ _).
  - exfalso. overflow_steps E. now destruct (negb is_start && dt_gt _ _).
Qed.

(** X3: the errors of [parse_date_input].  Every [ValueError] carries the
    message that goes with the shape of the stripped input; the message
    about the month being between 1 and 12 never reaches the caller.  An
    [OverflowError], which no caller catches, comes from a clock with no day
    before it or from month 12 of year 0 in end mode. *)
Theorem parse_date_input_errors (now : datetime) (date_str : string)
  (is_start : bool) (e : exn) :
  Fetcher.parse_date_input now date_str is_start = Raise e ->
  match e with
  | OverflowError =>
      sub_days now 1 = Raise OverflowError
      \/ (is_start = false
          /\ exists ys ms, split "-" (strip date_str) = [ys; ms]
                           /\ int ys = Ok 0 /\ int ms = Ok 12)
  | ValueError msg =>
      msg = format_message (strip date_str)
      /\ msg <> "Month must be between 1 and 12."
  end.
Proof.
  assert (Hmsg : forall s, format_message s
                           <> "Month must be between 1 and 12.").
  { intros s. unfold format_message.
    repeat match goal with
           | |- context [if ?b then _ else _] => destruct b
           end; discriminate. }
  destruct e as [msg |]; [| apply parse_date_input_overflow].
  intros E. assert (msg = format_message (strip date_str)) as ->;
    [| split; [reflexivity | apply Hmsg]].
  unfold Fetcher.parse_date_input in E. unfold format_message.
  destruct (sub_days now 1) as [yesterday | e0] eqn:Ey; cbn [bind] in E;
    [| apply sub_days_raise in Ey; congruence].
  repeat match type of E with
         | (if ?b then _ else _) = _ => destruct b
         end;
  cbn [andb];
  try (apply try_except_inv in E; destruct E as [E | [E _]]);
  congruence.
Qed.

(** Month 12 of year 0 in end mode, at the sample clock. *)
Lemma parse_date_input_errors_witness :
  Fetcher.parse_date_input Sample.now "0000-12" false = Raise OverflowError
  /\ (sub_days Sample.now 1 = Raise OverflowError
      \/ (false = false
          /\ exists ys ms, split "-" (strip "0000-12") = [ys; ms]
                           /\ int ys = Ok 0 /\ int ms = Ok 12)).
Proof.
  split; [reflexivity|].
  apply (parse_date_input_errors Sample.now "0000-12" false OverflowError).
  reflexivity.
Defined.

(** A month outside 1 to 12 is answered with the message about the format,
    not with the one about the month. *)
Example month_13 :
  Fetcher.parse_date_input Sample.now "2023-13" true
  = Raise (ValueError "Invalid year-month format. Please use YYYY-MM.").
Proof. reflexivity. Qed.

(** Two digits for a number from 0 to 31. *)
Lemma zfill2_digits n :
  0 <= n <= 31 ->
  exists c1 c2, zfill 2 n = String c1 (String c2 "")
                /\ is_digit c1 = true /\ is_digit c2 = true.
Proof.
  intros Hn. rewrite <- (Z2Nat.id n) in * by lia.
  generalize dependent (Z.to_nat n). intros k Hk.
  do 32 (destruct k as [| k];
         [eexists; eexists; split; [reflexivity | split; reflexivity] |]).
  lia.
Qed.

(** The printed form of a valid date in a year of four digits. *)
Lemma strftime_shape t :
  valid_date t = true -> 1000 <= year t <= 9999 ->
  let s := strftime t in
  strip s = s /\ len s = 10
  /\ char_is s 4 "-" = true /\ char_is s 7 "-" = true
  /\ strptime s = Ok (midnight t).
Proof.
  intros Hv Hy s.
  pose proof (strptime_strftime t Hv Hy) as Hp. fold s in Hp.
  pose proof (valid_ymd_inv _ _ _ Hv) as (_ & Hm & Hd).
  pose proof (days_in_month_le (year t) (month t) Hm).
  destruct (year4 _ Hy) as (a & b & c & e & Es & Ha & _ & _ & _ & _ & _).
  destruct (zfill2_digits (month t) ltac:(lia)) as (m1 & m2 & Em & _ & _).
  destruct (zfill2_digits (day t) ltac:(lia)) as (d1 & d2 & Ed & _ & Hd2).
  destruct (digit_char a Ha) as [Sa _], (digit_char d2 Hd2) as [Sd _].
  assert (Es' : s = String a (String b (String c (String e (String "-"
                  (String m1 (String m2 (String "-"
                     (String d1 (String d2 "")))))))))).
  { subst s. rewrite strftime_str, Es, Em, Ed by assumption. reflexivity. }
  repeat split; try exact Hp; rewrite Es'; try reflexivity.
  unfold strip. cbn [lstrip]. rewrite Sa. cbn [rstrip]. rewrite Sd.
  reflexivity.
Qed.

(** A valid date of a year from 1000 to 9999, printed as [YYYY-MM-DD], in
    start mode. *)
Lemma full_date_start_mode (now t : datetime) :
  clock_ok now = true ->
  valid_date t = true -> 1000 <= year t <= 9999 ->
  Fetcher.parse_date_input now (strftime t) true = Ok (strftime t).
Proof.
  intros Hc Hv Hy.
  destruct (yesterday_ok now Hc) as (y & Ey & _).
  destruct (strftime_shape t Hv Hy) as (Hs & Hl & H4 & H7 & Hp).
  unfold Fetcher.parse_date_input. rewrite Ey, Hs, Hl, H4, H7, Hp.
  reflexivity.
Qed.

(** The same text in end mode. *)
Lemma full_date_end_mode (now t : datetime) :
  clock_ok now = true ->
  valid_date t = true -> 1000 <= year t <= 9999 ->
  exists yesterday,
    sub_days now 1 = Ok yesterday
    /\ Fetcher.parse_date_input now (strftime t) false
       = Ok (if date_after t yesterday then strftime yesterday
             else strftime t).
Proof.
  intros Hc Hv Hy.
  destruct (yesterday_ok now Hc) as (y & Ey & _ & _ & _ & T1 & T2 & T3 & T4).
  exists y. split; [assumption|].
  destruct (strftime_shape t Hv Hy) as (Hs & Hl & H4 & H7 & Hp).
  unfold Fetcher.parse_date_input. rewrite Ey, Hs, Hl, H4, H7, Hp.
  cbn [bind]. change (10 =? 4) with false. change (10 =? 7) with false.
  change (10 =? 10) with true. cbn [andb negb bind try_except_ValueError].
  rewrite dt_gt_midnight by (eapply valid_time_yesterday; eassumption).
  destruct (date_after t y); reflexivity.
Qed.

(** X4: a complete date.  A valid date of a year from 1000 to 9999, printed
    as [YYYY-MM-DD], is returned as it is in start mode, also when it lies in
    the future; in end mode it is returned as it is unless it is after
    yesterday, and yesterday's date otherwise. *)
Theorem full_date_input (now t : datetime) :
  clock_ok now = true ->
  valid_date t = true -> 1000 <= year t <= 9999 ->
  exists yesterday,
    sub_days now 1 = Ok yesterday
    /\ Fetcher.parse_date_input now (strftime t) true = Ok (strftime t)
    /\ Fetcher.parse_date_input now (strftime t) false
       = Ok (if date_after t yesterday then strftime yesterday
             else strftime t).
Proof.
  intros Hc Hv Hy.
  destruct (full_date_end_mode now t Hc Hv Hy) as (y & Ey & He).
  exists y. split; [assumption|]. split; [| assumption].
  now apply full_date_start_mode.
Qed.

Lemma full_date_input_witness :
  clock_ok Sample.now = true
  /\ valid_date (mkdt 2027 1 1 0 0 0 0) = true
  /\ exists yesterday,
      sub_days Sample.now 1 = Ok yesterday
      /\ Fetcher.parse_date_input Sample.now "2027-01-01" true
         = Ok "2027-01-01"
      /\ Fetcher.parse_date_input Sample.now "2027-01-01" false
         = Ok (if date_after (mkdt 2027 1 1 0 0 0 0) yesterday
               then strftime yesterday else "2027-01-01").
Proof.
  split; [reflexivity|]. split; [reflexivity|].
  apply (full_date_input Sample.now (mkdt 2027 1 1 0 0 0 0));
    [reflexivity | reflexivity | cbn; lia].
Defined.

(** A month [YYYY-MM] of a year from 1000 to 9999 in start mode gives the
    first day of the month. *)
Lemma year_month_input_start_mode (now : datetime) (y m : Z) (t : datetime) :
  sub_days now 1 = Ok t ->
  1000 <= y <= 9999 -> 1 <= m <= 12 ->
  Fetcher.parse_date_input now (str y ++ "-" ++ zfill 2 m) true
  = Ok (str y ++ "-" ++ zfill 2 m ++ "-01").
Proof.
  intros Et Hy Hm.
  destruct (year_month y m Hy Hm) as (Hs & Hl & H4 & ys & ms & Hsp & Hiy & Him).
  unfold Fetcher.parse_date_input. rewrite Et, Hs, Hl, H4. cbn [bind].
  change (7 =? 4) with false. change (7 =? 7) with true. cbn [andb]. cbv iota.
  rewrite Hsp. cbn [unpack2 bind]. rewrite Hiy, Him. cbn [bind].
  destruct (Z.ltb_spec m 1); [lia|]. destruct (Z.gtb_spec m 12); [lia|].
  reflexivity.
Qed.

(** X5: a year [YYYY] from 1000 to 9999.  Start mode gives its first of
    January; end mode gives its 31st of December, or yesterday's date when
    the 31st of December is after yesterday. *)
Theorem year_input (now : datetime) (y : Z) :
  clock_ok now = true -> 1000 <= y <= 9999 ->
  exists yesterday,
    sub_days now 1 = Ok yesterday
    /\ Fetcher.parse_date_input now (str y) true = Ok (str y ++ "-01-01")
    /\ Fetcher.parse_date_input now (str y) false
       = Ok (if date_after (mkdt y 12 31 0 0 0 0) yesterday
             then strftime yesterday else str y ++ "-12-31").
Proof.
  intros Hc Hy.
  destruct (year_input_end_mode now y Hc Hy) as (t & Ht & He).
  exists t. split; [assumption|]. split; [| assumption].
  now apply year_input_start_mode.
Qed.

Lemma year_input_witness :
  clock_ok Sample.now = true
  /\ exists yesterday,
      sub_days Sample.now 1 = Ok yesterday
      /\ Fetcher.parse_date_input Sample.now "2023" true = Ok "2023-01-01"
      /\ Fetcher.parse_date_input Sample.now "2023" false
         = Ok (if date_after (mkdt 2023 12 31 0 0 0 0) yesterday
               then strftime yesterday else "2023-12-31").
Proof.
  split; [reflexivity|].
  apply (year_input Sample.now 2023); [reflexivity | lia].
Defined.

(** X6: a month [YYYY-MM] of a year from 1000 to 9999, December 9999
    apart.  Start mode gives the first day of the month; end mode gives its
    last day, with 29 days for February in leap years only, or yesterday's
    date when that last day is after yesterday. *)
Theorem year_month_input (now : datetime) (y m : Z) :
  clock_ok now = true ->
  1000 <= y <= 9999 -> 1 <= m <= 12 -> ~ (y = 9999 /\ m = 12) ->
  exists yesterday,
    sub_days now 1 = Ok yesterday
    /\ Fetcher.parse_date_input now (str y ++ "-" ++ zfill 2 m) true
       = Ok (str y ++ "-" ++ zfill 2 m ++ "-01")
    /\ Fetcher.parse_date_input now (str y ++ "-" ++ zfill 2 m) false
       = Ok (if date_after (mkdt y m (days_in_month y m) 0 0 0 0) yesterday
             then strftime yesterday
             else str y ++ "-" ++ zfill 2 m ++ "-"
                  ++ zfill 2 (days_in_month y m)).
Proof.
  intros Hc Hy Hm Hedge.
  destruct (year_month_input_end_mode now y m Hc Hy Hm Hedge) as (t & Ht & He).
  exists t. split; [assumption|]. split; [| assumption].
  now apply (year_month_input_start_mode now y m t).
Qed.

Lemma year_month_input_witness :
  clock_ok Sample.now = true
  /\ ~ (2024 = 9999 /\ 2 = 12)
  /\ exists yesterday,
      sub_days Sample.now 1 = Ok yesterday
      /\ Fetcher.parse_date_input Sample.now "2024-02" true = Ok "2024-02-01"
      /\ Fetcher.parse_date_input Sample.now "2024-02" false
         = Ok (if date_after (mkdt 2024 2 29 0 0 0 0) yesterday
               then strftime yesterday else "2024-02-29").
Proof.
  split; [reflexivity|]. split; [lia|].
  apply (year_month_input Sample.now 2024 2); [reflexivity | lia | lia | lia].
Defined.

(** A later calendar day has a larger ordinal, and conversely. *)
Lemma date_after_ordinal a b :
  valid_date a = true -> valid_date b = true ->
  date_after a b = true <-> toordinal b < toordinal a.
Proof.
  intros Ha Hb.
  assert (Hlt : forall p q, valid_date p = true -> valid_date q = true ->
                            date_after p q = true -> toordinal q < toordinal p).
  { intros p q Hp Hq. unfold date_after, toordinal. cbn [lex_gt].
    apply valid_ymd_inv in Hp, Hq.
    destruct Hp as (Hy & Hm & Hd), Hq as (Hy' & Hm' & Hd').
    pose proof (ymd2ord_in_year _ _ _ Hm Hd) as B.
    pose proof (ymd2ord_in_year _ _ _ Hm' Hd') as B'.
    repeat (rewrite orb_true_iff || rewrite andb_true_iff).
    rewrite !Z.gtb_lt, !Z.eqb_eq.
    intros [Hyy | [Eyy [Hmm | [Emm [Hdd | [_ F]]]]]]; [| | | discriminate].
    - pose proof (days_before_year_mono (year q + 1) (year p) ltac:(lia)). lia.
    - unfold ymd2ord. rewrite Eyy.
      pose proof (days_before_month_succ (year q) (month q) ltac:(lia)).
      pose proof (days_before_month_mono (year q) (month q + 1) (month p)
                    ltac:(lia) ltac:(lia) ltac:(lia)).
      rewrite Eyy in Hd. lia.
    - unfold ymd2ord. rewrite Eyy, Emm. lia. }
  split; [now apply Hlt|].
  intros Hord. destruct (date_after a b) eqn:E; [reflexivity|]. exfalso.
  destruct (date_after b a) eqn:E'.
  - apply Hlt in E'; [lia | assumption | assumption].
  - unfold date_after in E, E'. cbn [lex_gt] in E, E'.
    unfold toordinal in Hord.
    assert (year a = year b /\ month a = month b /\ day a = day b)
      as (Ey & Em & Ed).
    { repeat (rewrite orb_false_iff in E || rewrite andb_false_iff in E).
      repeat (rewrite orb_false_iff in E' || rewrite andb_false_iff in E').
      rewrite !Z.gtb_ltb, !Z.ltb_ge, !Z.eqb_neq in E, E'. lia. }
    rewrite Ey, Em, Ed in Hord. lia.
Qed.

(** A few days before a reading of the clock: the date exists, is valid,
    lies in a year of four digits and has the ordinal that many days
    before. *)
Lemma days_before_ok now k :
  clock_ok now = true -> 1 <= k <= 360 ->
  exists t, sub_days now k = Ok t
            /\ valid_date t = true /\ 1000 <= year t <= 9999
            /\ toordinal t = toordinal now - k.
Proof.
  unfold clock_ok. rewrite !andb_true_iff, Z.leb_le. intros [[Hv Ht] Hy] Hk.
  pose proof (ymd2ord_bounds _ _ _ Hv) as Hb.
  pose proof (valid_ymd_inv _ _ _ Hv) as (Hy' & _ & _).
  pose proof (days_before_year_mono 1001 (year now) Hy) as H1.
  pose proof (days_before_year_mono (year now) 9999 ltac:(lia)) as H2.
  change (days_before_year 1001) with 365242 in H1.
  change (days_before_year 9999) with 3651694 in H2.
  unfold sub_days, toordinal.
  change (ymd2ord MAXYEAR 12 31) with 3652059.
  set (n := ymd2ord (year now) (month now) (day now) - k).
  assert (Hn : 1 <= n <= 3652059) by (subst n; lia).
  destruct (Z.leb_spec 1 n); [|lia]. destruct (Z.leb_spec n 3652059); [|lia].
  cbn [andb].
  pose proof (ord2ymd_valid n Hn) as Ho.
  destruct (ord2ymd n) as [[y m] d]. destruct Ho as [Hvo Hord].
  eexists. split; [reflexivity|]. cbn.
  unfold valid_date. cbn. repeat split; try assumption; try lia.
  - destruct (Z_lt_ge_dec y 1000) as [Hlt|]; [|lia].
    pose proof (ymd2ord_bounds _ _ _ Hvo) as Hb'.
    pose proof (days_before_year_mono y 999 ltac:(lia)) as H3.
    change (days_before_year 999) with 364512 in H3. subst n. lia.
  - apply valid_ymd_inv in Hvo. lia.
Qed.

Lemma clock_ok_inv now :
  clock_ok now = true ->
  valid_date now = true /\ 1001 <= year now <= 9999.
Proof.
  unfold clock_ok. rewrite !andb_true_iff, Z.leb_le. intros [[Hv _] Hy].
  pose proof (valid_ymd_inv _ _ _ Hv). split; [assumption | lia].
Qed.

Lemma same_day_ordinal a b : same_day a b = true -> toordinal a = toordinal b.
Proof.
  unfold same_day, toordinal. rewrite !andb_true_iff, !Z.eqb_eq.
  intros [[-> ->] ->]. reflexivity.
Qed.

Lemma first_of_january y :
  1000 <= y <= 9999 ->
  valid_date (mkdt y 1 1 0 0 0 0) = true
  /\ strftime (mkdt y 1 1 0 0 0 0) = str y ++ "-01-01".
Proof.
  intros Hy. split.
  - unfold valid_date, valid_ymd, MINYEAR, MAXYEAR. cbn [year month day].
    change (days_in_month y 1) with 31.
    rewrite !andb_true_iff, !Z.leb_le. lia.
  - now rewrite strftime_str.
Qed.

Lemma last_of_december y :
  1000 <= y <= 9999 ->
  valid_date (mkdt y 12 31 0 0 0 0) = true
  /\ strftime (mkdt y 12 31 0 0 0 0) = str y ++ "-12-31"
  /\ toordinal (mkdt y 12 31 0 0 0 0) = days_before_year (y + 1).
Proof.
  intros Hy. split; [| split].
  - unfold valid_date, valid_ymd, MINYEAR, MAXYEAR. cbn [year month day].
    change (days_in_month y 12) with 31.
    rewrite !andb_true_iff, !Z.leb_le. lia.
  - now rewrite strftime_str.
  - unfold toordinal, ymd2ord. cbn [year month day].
    rewrite days_before_year_succ. pose proof (days_before_month_last y). lia.
Qed.

Lemma ordinal_in_year t :
  valid_date t = true ->
  days_before_year (year t) < toordinal t <= days_before_year (year t + 1).
Proof.
  intros Hv. apply valid_ymd_inv in Hv. destruct Hv as (_ & Hm & Hd).
  now apply ymd2ord_in_year.
Qed.

(** X7: the "last year" preset of the form, fetched on the day it was set:
    both texts are accepted and returned unchanged; the end is not clamped. *)
Theorem last_year_preset_is_kept (now now' : datetime) :
  clock_ok now = true -> clock_ok now' = true -> same_day now now' = true ->
  Fetcher.parse_date_input now' (fst (Gui.set_last_year now)) true
  = Ok (fst (Gui.set_last_year now))
  /\ Fetcher.parse_date_input now' (snd (Gui.set_last_year now)) false
     = Ok (snd (Gui.set_last_year now)).
Proof.
  intros Hc Hc' Hs. unfold Gui.set_last_year. cbn [fst snd].
  destruct (clock_ok_inv now Hc) as [Hv Hy].
  destruct (first_of_january (year now - 1) ltac:(lia)) as [Hv1 <-].
  destruct (last_of_december (year now - 1) ltac:(lia)) as (Hv2 & <- & Ho).
  destruct (yesterday_ok now' Hc') as (y & Ey & Hvy & _ & Hoy & _).
  rewrite (full_date_start_mode now' _ Hc' Hv1 ltac:(cbn; lia)).
  destruct (full_date_end_mode now' _ Hc' Hv2 ltac:(cbn; lia)) as (y' & Ey' & ->).
  split; [reflexivity|].
  assert (y' = y) as -> by congruence.
  destruct (date_after _ y) eqn:E; [|reflexivity]. exfalso.
  apply date_after_ordinal in E; [| assumption | assumption].
  pose proof (ordinal_in_year now Hv).
  rewrite <- (same_day_ordinal _ _ Hs) in Hoy.
  replace (year now - 1 + 1) with (year now) in Ho by lia. lia.
Qed.

(** The preset set at 10:30 and fetched late on the same day. *)
Lemma last_year_preset_is_kept_witness :
  clock_ok Sample.now = true
  /\ clock_ok (mkdt 2026 11 3 23 59 59 0) = true
  /\ same_day Sample.now (mkdt 2026 11 3 23 59 59 0) = true
  /\ Fetcher.parse_date_input (mkdt 2026 11 3 23 59 59 0) "2025-01-01" true
     = Ok "2025-01-01"
  /\ Fetcher.parse_date_input (mkdt 2026 11 3 23 59 59 0) "2025-12-31" false
     = Ok "2025-12-31".
Proof.
  split; [reflexivity|]. split; [reflexivity|]. split; [reflexivity|].
  apply (last_year_preset_is_kept Sample.now (mkdt 2026 11 3 23 59 59 0));
    reflexivity.
Defined.

(** X8: the "this year" preset, fetched on the day it was set: the start is
    kept, the end is always replaced by yesterday's date. *)
Theorem this_year_preset_is_clamped (now now' : datetime) :
  clock_ok now = true -> clock_ok now' = true -> same_day now now' = true ->
  exists yesterday,
    sub_days now' 1 = Ok yesterday
    /\ Fetcher.parse_date_input now' (fst (Gui.set_this_year now)) true
       = Ok (fst (Gui.set_this_year now))
    /\ Fetcher.parse_date_input now' (snd (Gui.set_this_year now)) false
       = Ok (strftime yesterday).
Proof.
  intros Hc Hc' Hs. unfold Gui.set_this_year. cbn [fst snd].
  destruct (clock_ok_inv now Hc) as [Hv Hy].
  destruct (first_of_january (year now) ltac:(lia)) as [Hv1 <-].
  destruct (last_of_december (year now) ltac:(lia)) as (Hv2 & <- & Ho).
  destruct (yesterday_ok now' Hc') as (y & Ey & Hvy & _ & Hoy & _).
  exists y. split; [assumption|].
  rewrite (full_date_start_mode now' _ Hc' Hv1 ltac:(cbn; lia)).
  destruct (full_date_end_mode now' _ Hc' Hv2 ltac:(cbn; lia)) as (y' & Ey' & ->).
  split; [reflexivity|].
  assert (y' = y) as -> by congruence.
  assert (date_after (mkdt (year now) 12 31 0 0 0 0) y = true) as ->;
    [| reflexivity].
  apply date_after_ordinal; [assumption | assumption |].
  pose proof (ordinal_in_year now Hv).
  rewrite <- (same_day_ordinal _ _ Hs) in Hoy. lia.
Qed.

Lemma this_year_preset_is_clamped_witness :
  clock_ok Sample.now = true
  /\ clock_ok (mkdt 2026 11 3 23 59 59 0) = true
  /\ same_day Sample.now (mkdt 2026 11 3 23 59 59 0) = true
  /\ exists yesterday,
      sub_days (mkdt 2026 11 3 23 59 59 0) 1 = Ok yesterday
      /\ Fetcher.parse_date_input (mkdt 2026 11 3 23 59 59 0) "2026-01-01" true
         = Ok "2026-01-01"
      /\ Fetcher.parse_date_input (mkdt 2026 11 3 23 59 59 0) "2026-12-31" false
         = Ok (strftime yesterday).
Proof.
  split; [reflexivity|]. split; [reflexivity|]. split; [reflexivity|].
  apply (this_year_preset_is_clamped Sample.now (mkdt 2026 11 3 23 59 59 0));
    reflexivity.
Defined.

(** On the sample day the end of the "this year" preset becomes the 2nd of
    November. *)
Example this_year_preset_on_the_sample_day :
  Fetcher.parse_date_input Sample.now (snd (Gui.set_this_year Sample.now)) false
  = Ok "2026-11-02".
Proof. reflexivity. Qed.

(** X9: the "last 30 days" preset, fetched on the day it was set: the start
    (30 days back) is kept, the end (today) is replaced by yesterday's
    date. *)
Theorem last_30_days_preset_ends_yesterday (now now' : datetime) :
  clock_ok now = true -> clock_ok now' = true -> same_day now now' = true ->
  exists start_date end_date yesterday,
    Gui.set_last_30_days now = Ok (start_date, end_date)
    /\ sub_days now' 1 = Ok yesterday
    /\ Fetcher.parse_date_input now' start_date true = Ok start_date
    /\ Fetcher.parse_date_input now' end_date false = Ok (strftime yesterday).
Proof.
  intros Hc Hc' Hs. unfold Gui.set_last_30_days.
  destruct (clock_ok_inv now Hc) as [Hv Hy].
  destruct (days_before_ok now 30 Hc ltac:(lia)) as (t & Et & Hvt & Hyt & _).
  destruct (yesterday_ok now' Hc') as (y & Ey & Hvy & _ & Hoy & _).
  rewrite Et. cbn [bind].
  exists (strftime t), (strftime now), y.
  split; [reflexivity|]. split; [assumption|].
  rewrite (full_date_start_mode now' t Hc' Hvt Hyt).
  destruct (full_date_end_mode now' now Hc' Hv ltac:(lia)) as (y' & Ey' & ->).
  split; [reflexivity|].
  assert (y' = y) as -> by congruence.
  assert (date_after now y = true) as ->; [| reflexivity].
  apply date_after_ordinal; [assumption | assumption |].
  rewrite <- (same_day_ordinal _ _ Hs) in Hoy. lia.
Qed.

Lemma last_30_days_preset_ends_yesterday_witness :
  clock_ok Sample.now = true
  /\ clock_ok (mkdt 2026 11 3 23 59 59 0) = true
  /\ same_day Sample.now (mkdt 2026 11 3 23 59 59 0) = true
  /\ exists start_date end_date yesterday,
      Gui.set_last_30_days Sample.now = Ok (start_date, end_date)
      /\ sub_days (mkdt 2026 11 3 23 59 59 0) 1 = Ok yesterday
      /\ Fetcher.parse_date_input (mkdt 2026 11 3 23 59 59 0) start_date true
         = Ok start_date
      /\ Fetcher.parse_date_input (mkdt 2026 11 3 23 59 59 0) end_date false
         = Ok (strftime yesterday).
Proof.
  split; [reflexivity|]. split; [reflexivity|]. split; [reflexivity|].
  apply (last_30_days_preset_ends_yesterday Sample.now
           (mkdt 2026 11 3 23 59 59 0)); reflexivity.
Defined.

(** The texts of the "last 30 days" preset on the sample day. *)
Example last_30_days_on_the_sample_day :
  Gui.set_last_30_days Sample.now = Ok ("2026-10-04", "2026-11-03").
Proof. reflexivity. Qed.

(** ** The last character of a date that [strptime] reads *)

Lemma first_match_inv {A : Type} (alts : list alt)
  (k : Z -> string -> option A) (s : string) (x : A) :
  first_match alts k s = Some x ->
  exists a v r, In a alts /\ a s = Some (v, r) /\ k v r = Some x.
Proof.
  induction alts as [| a alts IH]; cbn; [discriminate|].
  destruct (a s) as [[v r] |] eqn:Ea.
  - destruct (k v r) as [x' |] eqn:Ek.
    + intros [= <-]. exists a, v, r. auto.
    + intros E. destruct (IH E) as (a' & v' & r' & Hin & Ha & Hk).
      exists a', v', r'. auto.
  - intros E. destruct (IH E) as (a' & v' & r' & Hin & Ha & Hk).
    exists a', v', r'. auto.
Qed.

Lemma in_range_digit c lo hi :
  in_range c lo hi = true -> 48 <= lo -> hi <= 57 -> is_digit c = true.
Proof.
  unfold in_range, is_digit. rewrite !andb_true_iff, !Z.leb_le. lia.
Qed.

(** Every alternative for the month and for the day reads a prefix that
    ends with a digit. *)
Lemma alternative_ends_with_digit (a : alt) (s : string) v r :
  In a (re_m ++ re_d)%list -> a s = Some (v, r) ->
  exists pre c, s = pre ++ String c r /\ is_digit c = true.
Proof.
  assert (H2 : forall p1 p2 : ascii -> bool,
             (forall c, p2 c = true -> is_digit c = true) ->
             alt2 p1 p2 s = Some (v, r) ->
             exists pre c, s = pre ++ String c r /\ is_digit c = true).
  { intros p1 p2 Hp. unfold alt2. destruct s as [| x [| y s']]; try discriminate.
    destruct (p1 x && p2 y) eqn:E; [|discriminate]. intros [= _ <-].
    apply andb_true_iff in E. exists (String x ""), y. split; [reflexivity|].
    now apply Hp. }
  assert (H1 : forall p : ascii -> bool,
             (forall c, p c = true -> is_digit c = true) ->
             alt1 p s = Some (v, r) ->
             exists pre c, s = pre ++ String c r /\ is_digit c = true).
  { intros p Hp. unfold alt1. destruct s as [| x s']; try discriminate.
    destruct (p x) eqn:E; [|discriminate]. intros [= _ <-].
    exists "", x. split; [reflexivity | now apply Hp]. }
  assert (Hs : forall p : ascii -> bool,
             (forall c, p c = true -> is_digit c = true) ->
             alt_sp p s = Some (v, r) ->
             exists pre c, s = pre ++ String c r /\ is_digit c = true).
  { intros p Hp. unfold alt_sp. destruct s as [| x [| y s']]; try discriminate.
    destruct (Ascii.eqb x " " && p y) eqn:E; [|discriminate]. intros [= _ <-].
    apply andb_true_iff in E. exists (String x ""), y. split; [reflexivity|].
    now apply Hp. }
  assert (Hb : forall lo hi, 48 <= lo -> hi <= 57 ->
                             forall c, btw lo hi c = true -> is_digit c = true).
  { intros lo hi Hlo Hhi c Hc. now apply (in_range_digit c lo hi). }
  cbn [re_m re_d app In].
  intros [<- | [<- | [<- | [<- | [<- | [<- | [<- | [<- | []]]]]]]]];
    first [ apply H2 | apply H1 | apply Hs ];
    first [ apply Hb; lia | auto ].
Qed.

Lemma lit_inv c s r : lit c s = Some r -> s = String c r.
Proof.
  unfold lit. destruct s as [| a s']; [discriminate|].
  destruct (Ascii.eqb_spec a c) as [-> |]; [|discriminate]. now intros [= <-].
Qed.

(** A text that [strptime] reads ends with a digit. *)
Lemma strptime_ends_with_digit s p :
  strptime s = Ok p ->
  exists s' c, s = s' ++ String c "" /\ is_digit c = true.
Proof.
  unfold strptime.
  destruct (re_match s) as [[[[y m] d] [| ? ?]] |] eqn:E; try discriminate.
  intros _. unfold re_match in E.
  destruct (re_Y s) as [[y0 r0] |] eqn:EY; [|discriminate].
  unfold re_Y in EY.
  destruct s as [| c0 [| c1 [| c2 [| c3 r]]]]; try discriminate.
  destruct (_ && _); [|discriminate]. injection EY as _ <-.
  destruct (lit "-" r) as [r1 |] eqn:E1; [|discriminate].
  apply lit_inv in E1. subst r.
  apply first_match_inv in E.
  destruct E as (am & vm & r2 & Hinm & Eam & E).
  destruct (lit "-" r2) as [r3 |] eqn:E2; [|discriminate].
  apply lit_inv in E2. subst r2.
  apply first_match_inv in E.
  destruct E as (ad & vd & r4 & Hind & Ead & [= _ _ _ ->]).
  apply alternative_ends_with_digit in Eam; [| apply in_or_app; now left].
  apply alternative_ends_with_digit in Ead; [| apply in_or_app; now right].
  destruct Eam as (pm & cm & -> & _), Ead as (pd & cd & -> & Hd).
  exists (String c0 (String c1 (String c2 (String c3 (String "-"
            (pm ++ String cm (String "-" pd))))))), cd.
  split; [| assumption]. cbn [append]. do 5 f_equal.
  rewrite app_assoc_s. reflexivity.
Qed.

(** Whatever end mode returns is a text that [strptime] reads. *)
Lemma end_result_is_read now s r :
  clock_ok now = true ->
  Fetcher.parse_date_input now s false = Ok r ->
  exists p, strptime r = Ok p.
Proof.
  intros Hc Hr.
  destruct (yesterday_ok now Hc) as (y & Hy & Hv & Hyr & _).
  destruct (end_mode_shape now s r y Hy Hr) as [-> | (p & Hp & _)].
  - exists (midnight y). now apply strptime_strftime.
  - now exists p.
Qed.

(** X10: the file a fetcher writes by default is never the file the form
    looks for after running it.  The default name ends with the end date,
    whose last character is a digit, before [.json]; the name the form builds
    ends with [_weather_data.json].  This holds whatever the location found,
    the location typed and the start date are. *)
Theorem form_never_finds_the_default_file (now : datetime)
  (location_name typed_location start_date typed_end end_date : string) :
  clock_ok now = true ->
  Fetcher.parse_date_input now typed_end false = Ok end_date ->
  FetcherIO.filename location_name start_date end_date None
  <> Gui.weather_filename typed_location
  /\ OpenMeteoFetcherIO.filename location_name start_date end_date
     <> Gui.weather_filename typed_location.
Proof.
  intros Hc Hr.
  destruct (end_result_is_read now typed_end end_date Hc Hr) as [p Hp].
  destruct (strptime_ends_with_digit _ _ Hp) as (e' & c & -> & Hd).
  assert (Hne : replace " " "_" location_name ++ "_" ++ start_date ++ "_to_"
                ++ (e' ++ String c "") ++ ".json"
                <> Gui.weather_filename typed_location).
  { unfold Gui.weather_filename. intros E.
    assert (E' : (replace " " "_" location_name ++ "_" ++ start_date ++ "_to_"
                  ++ e') ++ String c ""
                 = (replace " " "_" (lower typed_location) ++ "_weather_dat")
                   ++ String "a" "").
    { apply (append_inj_suffix _ _ ".json").
      rewrite !app_assoc_s. rewrite !app_assoc_s in E. exact E. }
    apply append_inj_last in E'. destruct E' as [_ ->]. discriminate. }
  split; exact Hne.
Qed.

Lemma form_never_finds_the_default_file_witness :
  clock_ok Sample.now = true
  /\ Fetcher.parse_date_input Sample.now "2020" false = Ok "2020-12-31"
  /\ FetcherIO.filename "Reggio Emilia" "2020-01-01" "2020-12-31" None
     <> Gui.weather_filename "Reggio Emilia"
  /\ OpenMeteoFetcherIO.filename "Reggio Emilia" "2020-01-01" "2020-12-31"
     <> Gui.weather_filename "Reggio Emilia".
Proof.
  split; [reflexivity|]. split; [reflexivity|].
  apply (form_never_finds_the_default_file Sample.now "Reggio Emilia"
           "Reggio Emilia" "2020-01-01" "2020" "2020-12-31"); reflexivity.
Defined.

(** The two names for the sample location. *)
Example default_file_and_file_looked_for :
  FetcherIO.filename "Reggio Emilia" "2020-01-01" "2020-12-31" None
  = "Reggio_Emilia_2020-01-01_to_2020-12-31.json"
  /\ Gui.weather_filename "Reggio Emilia" = "reggio_emilia_weather_data.json".
Proof. split; reflexivity. Qed.

(** ** [get_dates_interactive] *)

Lemma rstrip_idempotent sp s : rstrip sp (rstrip sp s) = rstrip sp s.
Proof.
  induction s as [| c s IH]; cbn; [reflexivity|].
  destruct (rstrip sp s) as [| d t] eqn:E.
  - destruct (sp c) eqn:Ec; cbn; [reflexivity | now rewrite Ec].
  - cbn. cbn in IH. destruct (rstrip sp t) as [| ? ?] eqn:Et.
    + destruct (sp d); [discriminate | now rewrite IH].
    + now rewrite IH.
Qed.

Lemma lstrip_head sp s :
  lstrip sp s = "" \/ exists c t, lstrip sp s = String c t /\ sp c = false.
Proof.
  induction s as [| c s IH]; cbn; [now left|].
  destruct (sp c) eqn:E; [exact IH | right; eauto].
Qed.

Lemma strip_idempotent s : strip (strip s) = strip s.
Proof.
  unfold strip. destruct (lstrip_head is_space s) as [-> | (c & t & -> & Hc)].
  - reflexivity.
  - assert (exists u, rstrip is_space (String c t) = String c u) as [u Eu].
    { cbn. destruct (rstrip is_space t); [rewrite Hc|]; eauto. }
    rewrite Eu. cbn [lstrip]. rewrite Hc. rewrite <- Eu.
    apply rstrip_idempotent.
Qed.

(** ** End mode twice *)


Lemma alternative_is_short (a : alt) (s : string) v r :
  In a (re_m ++ re_d)%list -> a s = Some (v, r) ->
  (String.length s <= String.length r + 2)%nat.
Proof.
  assert (H2 : forall p1 p2, alt2 p1 p2 s = Some (v, r) ->
                             (String.length s <= String.length r + 2)%nat).
  { intros p1 p2. unfold alt2. destruct s as [| x [| y s']]; try discriminate.
    destruct (p1 x && p2 y); [|discriminate]. intros [= _ <-]. cbn. lia. }
  assert (H1 : forall p, alt1 p s = Some (v, r) ->
                         (String.length s <= String.length r + 2)%nat).
  { intros p. unfold alt1. destruct s as [| x s']; try discriminate.
    destruct (p x); [|discriminate]. intros [= _ <-]. cbn. lia. }
  assert (Hs : forall p, alt_sp p s = Some (v, r) ->
                         (String.length s <= String.length r + 2)%nat).
  { intros p. unfold alt_sp. destruct s as [| x [| y s']]; try discriminate.
    destruct (Ascii.eqb x " " && p y); [|discriminate]. intros [= _ <-].
    cbn. lia. }
  cbn [re_m re_d app In].
  intros [<- | [<- | [<- | [<- | [<- | [<- | [<- | [<- | []]]]]]]]];
    first [ apply H2 | apply H1 | apply Hs ].
Qed.

(** A text that [strptime] reads starts with four digits and a dash and has
    at most ten characters. *)
Lemma strptime_head s p :
  strptime s = Ok p ->
  (String.length s <= 10)%nat
  /\ exists c0 c1 c2 c3 r,
       s = String c0 (String c1 (String c2 (String c3 (String "-" r))))
       /\ is_digit c0 = true /\ is_digit c1 = true
       /\ is_digit c2 = true /\ is_digit c3 = true.
Proof.
  unfold strptime.
  destruct (re_match s) as [[[[y m] d] [| ? ?]] |] eqn:E; try discriminate.
  intros _. unfold re_match in E.
  destruct (re_Y s) as [[y0 r0] |] eqn:EY; [|discriminate].
  unfold re_Y in EY.
  destruct s as [| c0 [| c1 [| c2 [| c3 r]]]]; try discriminate.
  destruct (is_digit c0 && is_digit c1 && is_digit c2 && is_digit c3) eqn:Ed;
    [|discriminate].
  injection EY as _ <-.
  destruct (lit "-" r) as [r1 |] eqn:E1; [|discriminate].
  apply lit_inv in E1. subst r.
  apply first_match_inv in E.
  destruct E as (am & vm & r2 & Hinm & Eam & E).
  destruct (lit "-" r2) as [r3 |] eqn:E2; [|discriminate].
  apply lit_inv in E2. subst r2.
  apply first_match_inv in E.
  destruct E as (ad & vd & r4 & Hind & Ead & [= _ _ _ ->]).
  apply alternative_is_short in Eam; [| apply in_or_app; now left].
  apply alternative_is_short in Ead; [| apply in_or_app; now right].
  rewrite !andb_true_iff in Ed. destruct Ed as [[[? ?] ?] ?].
  split.
  - cbn in *. lia.
  - exists c0, c1, c2, c3, r1. auto.
Qed.

Lemma not_digit_dash : is_digit "-" = false.
Proof. reflexivity. Qed.

(** A year, a month and a day printed with dashes, the month and the day on
    two characters at least: when [strptime] reads the text, it has the
    shape [YYYY-MM-DD]. *)
Lemma printed_shape X M D p :
  strptime (X ++ "-" ++ M ++ "-" ++ D) = Ok p ->
  (2 <= String.length M)%nat -> (2 <= String.length D)%nat ->
  let r := X ++ "-" ++ M ++ "-" ++ D in
  strip r = r /\ len r = 10
  /\ char_is r 4 "-" = true /\ char_is r 7 "-" = true.
Proof.
  intros Hp HM HD r.
  destruct (strptime_head _ _ Hp) as (Hlen & c0 & c1 & c2 & c3 & rest & Er
                                     & H0 & H1 & H2 & H3).
  destruct (strptime_ends_with_digit _ _ Hp) as (s' & c & Ec & Hc).
  assert (Hl : String.length (X ++ "-" ++ M ++ "-" ++ D)
               = (String.length X + String.length M + String.length D + 2)%nat).
  { rewrite !length_app_s. cbn. lia. }
  rewrite Hl in Hlen. clear Hl. subst r.
  assert (HX : (String.length X <= 4)%nat) by lia.
  assert (Hx : exists x0 x1 x2 x3,
             X = String x0 (String x1 (String x2 (String x3 "")))).
  { destruct X as [| x0 [| x1 [| x2 [| x3 [| x4 X']]]]];
      cbn in HX; try lia;
      try (exfalso; cbn in Er; injection Er; intros; subst;
           discriminate).
    now exists x0, x1, x2, x3. }
  destruct Hx as (x0 & x1 & x2 & x3 & ->).
  assert (Hm : exists m1 m2, M = String m1 (String m2 "")).
  { destruct M as [| m1 [| m2 [| m3 M']]]; cbn in HM, Hlen; try lia.
    now exists m1, m2. }
  destruct Hm as (m1 & m2 & ->).
  assert (Hd : exists d1 d2, D = String d1 (String d2 "")).
  { destruct D as [| d1 [| d2 [| d3 D']]]; cbn in HD, Hlen; try lia.
    now exists d1, d2. }
  destruct Hd as (d1 & d2 & ->).
  cbn [append] in *.
  injection Er as -> _ _ _ _.
  assert (c = d2).
  { change (String c0 (String x1 (String x2 (String x3 (String "-"
              (String m1 (String m2 (String "-" (String d1
                 (String d2 ""))))))))))
      with (String c0 (String x1 (String x2 (String x3 (String "-"
              (String m1 (String m2 (String "-" (String d1 ""))))))))
            ++ String d2 "") in Ec.
    apply append_inj_last in Ec. now destruct Ec. }
  subst c.
  destruct (digit_char c0 H0) as [S0 _], (digit_char d2 Hc) as [Sd _].
  repeat split; try reflexivity.
  unfold strip. cbn [lstrip]. rewrite S0. cbn [rstrip]. rewrite Sd.
  reflexivity.
Qed.

Lemma zeros_length k : String.length (zeros k) = k.
Proof. induction k as [| k IH]; cbn; [reflexivity | now rewrite IH]. Qed.

Lemma zfill_length w n : (w <= String.length (zfill w n))%nat.
Proof.
  unfold zfill. destruct (n <? 0); cbn [String.length];
    rewrite length_app_s, zeros_length; lia.
Qed.

(** In end mode the text returned is yesterday's date, or a text of the
    shape [YYYY-MM-DD] that [strptime] reads as a moment not after
    yesterday. *)
Lemma end_mode_result now s r yesterday :
  sub_days now 1 = Ok yesterday ->
  Fetcher.parse_date_input now s false = Ok r ->
  r = strftime yesterday
  \/ exists p, strptime r = Ok p /\ dt_gt p yesterday = false
               /\ strip r = r /\ len r = 10
               /\ char_is r 4 "-" = true /\ char_is r 7 "-" = true.
Proof.
  intros Hy. unfold Fetcher.parse_date_input. rewrite Hy. cbn [bind negb andb].
  set (ds := strip s).
  destruct (len ds =? 4) eqn:L4.
  { unfold try_except_ValueError, bind.
    destruct (int ds) as [yr |]; [|destruct e; discriminate].
    destruct (strptime (str yr ++ "-12-31")) as [p |] eqn:Ep;
      [|destruct e; discriminate].
    destruct (dt_gt p yesterday) eqn:Eg; intros [= <-]; [now left | right].
    exists p. split; [assumption|]. split; [assumption|].
    apply (printed_shape (str yr) "12" "31" p Ep); cbn; lia. }
  destruct ((len ds =? 7) && char_is ds 4 "-") eqn:L7.
  { unfold try_except_ValueError, bind.
    destruct (unpack2 (split "-" ds)) as [[ys ms] |]; [|destruct e; discriminate].
    destruct (int ys) as [yr |]; [|destruct e; discriminate].
    destruct (int ms) as [m |]; [|destruct e; discriminate].
    destruct ((m <? 1) || (m >? 12)); [discriminate|].
    destruct (if m =? 12 then _ else _) as [nm |]; [|destruct e; discriminate].
    destruct (sub_days nm 1) as [bf |]; [|destruct e; discriminate].
    destruct (strptime _) as [p |] eqn:Ep; [|destruct e; discriminate].
    destruct (dt_gt p yesterday) eqn:Eg; intros [= <-]; [now left | right].
    exists p. split; [assumption|]. split; [assumption|].
    apply (printed_shape (str yr) (zfill 2 m) (zfill 2 (day bf)) p Ep);
      apply zfill_length. }
  destruct ((len ds =? 10) && char_is ds 4 "-" && char_is ds 7 "-") eqn:L10;
    [|discriminate].
  unfold try_except_ValueError, bind.
  destruct (strptime ds) as [p |] eqn:Ep; [|destruct e; discriminate].
  destruct (dt_gt p yesterday) eqn:Eg; intros [= <-]; [now left | right].
  exists p. rewrite !andb_true_iff, Z.eqb_eq in L10.
  destruct L10 as [[Hl H4] H7].
  repeat split; try assumption. apply strip_idempotent.
Qed.

(** X11: end mode is idempotent: a date it has returned is returned unchanged
    when it is given back at the same clock reading. *)
Theorem end_mode_is_idempotent (now : datetime) (date_str r : string) :
  clock_ok now = true ->
  Fetcher.parse_date_input now date_str false = Ok r ->
  Fetcher.parse_date_input now r false = Ok r.
Proof.
  intros Hc Hr.
  destruct (yesterday_ok now Hc) as (y & Hy & Hv & Hyr & _).
  destruct (end_mode_result now date_str r y Hy Hr)
    as [-> | (p & Hp & Hg & Hs & Hl & H4 & H7)].
  - destruct (full_date_end_mode now y Hc Hv Hyr) as (y' & Hy' & ->).
    assert (y' = y) as -> by congruence.
    now rewrite date_after_irrefl.
  - unfold Fetcher.parse_date_input. rewrite Hy, Hs, Hl, H4, H7, Hp.
    cbn [bind]. change (10 =? 4) with false. change (10 =? 7) with false.
    change (10 =? 10) with true. cbn [andb negb bind try_except_ValueError].
    now rewrite Hg.
Qed.

Lemma end_mode_is_idempotent_witness :
  clock_ok Sample.now = true
  /\ Fetcher.parse_date_input Sample.now "2027" false = Ok "2026-11-02"
  /\ Fetcher.parse_date_input Sample.now "2026-11-02" false = Ok "2026-11-02".
Proof.
  split; [reflexivity|]. split; [reflexivity|].
  apply (end_mode_is_idempotent Sample.now "2027" "2026-11-02"); reflexivity.
Defined.

Lemma start_mode_no_overflow now s :
  clock_ok now = true ->
  Fetcher.parse_date_input now s true <> Raise OverflowError.
Proof.
  intros Hc E. destruct (yesterday_ok now Hc) as (y & Hy & _).
  apply parse_date_input_overflow in E.
  destruct E as [E | [E _]]; congruence.
Qed.

Lemma end_mode_overflow now s :
  clock_ok now = true ->
  Fetcher.parse_date_input now s false = Raise OverflowError
  <-> december_of_year_0 (strip s).
Proof.
  intros Hc. destruct (yesterday_ok now Hc) as (y & Hy & _).
  unfold december_of_year_0. split.
  - intros E.
    pose proof (parse_date_input_overflow now s false E) as Hshape.
    destruct Hshape as [Hs | [_ Hshape]]; [congruence|].
    unfold Fetcher.parse_date_input in E. rewrite Hy in E. cbn [bind] in E.
    destruct (len (strip s) =? 4) eqn:L4.
    { exfalso. apply try_except_inv in E.
      destruct E as [E | [_ E]]; [discriminate|].
      overflow_steps E. now destruct (dt_gt _ _). }
    destruct ((len (strip s) =? 7) && char_is (strip s) 4 "-") eqn:L7.
    { apply andb_true_iff in L7. destruct L7 as [L7 C4].
      apply Z.eqb_eq in L7. auto. }
    destruct ((len (strip s) =? 10) && char_is (strip s) 4 "-"
              && char_is (strip s) 7 "-"); [| discriminate].
    exfalso. apply try_except_inv in E.
    destruct E as [E | [_ E]]; [discriminate|].
    overflow_steps E. now destruct (negb false && dt_gt _ _).
  - intros (L7 & C4 & ys & ms & Hsp & Hys & Hms).
    unfold Fetcher.parse_date_input. rewrite Hy, L7, C4, Hsp. cbn [bind].
    change (7 =? 4) with false. change (7 =? 7) with true. cbn [andb].
    cbv iota. cbn [unpack2 bind]. rewrite Hys, Hms. reflexivity.
Qed.

(** X12: what [get_dates_interactive] returns, at a clock reading that has
    a day before it.  It returns two dates exactly when [parse_date_input]
    accepts the first line in start mode and the second in end mode, and
    then they are its two results; it returns [(None, None)] exactly when
    the start is rejected with a [ValueError], or the start is accepted and
    the end rejected with a [ValueError]; it never returns one date alone.
    The only exception that leaves it is an [OverflowError], exactly when
    the start is accepted and the end reads as month 12 of year 0. *)
Theorem get_dates_interactive_both_or_neither (now : datetime)
  (typed_start typed_end : string) :
  clock_ok now = true ->
  (forall start_date end_date,
      FetcherIO.get_dates_interactive now typed_start typed_end
      = Ok (Some start_date, Some end_date)
      <-> Fetcher.parse_date_input now typed_start true = Ok start_date
          /\ Fetcher.parse_date_input now typed_end false = Ok end_date)
  /\ (FetcherIO.get_dates_interactive now typed_start typed_end
      = Ok (None, None)
      <-> (exists msg, Fetcher.parse_date_input now typed_start true
                       = Raise (ValueError msg))
          \/ (exists start_date msg,
                Fetcher.parse_date_input now typed_start true = Ok start_date
                /\ Fetcher.parse_date_input now typed_end false
                   = Raise (ValueError msg)))
  /\ (forall d,
        FetcherIO.get_dates_interactive now typed_start typed_end
        <> Ok (Some d, None)
        /\ FetcherIO.get_dates_interactive now typed_start typed_end
           <> Ok (None, Some d))
  /\ (forall e,
        FetcherIO.get_dates_interactive now typed_start typed_end = Raise e
        <-> e = OverflowError
            /\ (exists start_date,
                  Fetcher.parse_date_input now typed_start true
                  = Ok start_date)
            /\ december_of_year_0 (strip typed_end)).
Proof.
  intros Hc.
  assert (Hs : forall s b, Fetcher.parse_date_input now (strip s) b
                           = Fetcher.parse_date_input now s b).
  { intros s b. unfold Fetcher.parse_date_input. now rewrite strip_idempotent. }
  pose proof (start_mode_no_overflow now typed_start Hc) as Hstart.
  pose proof (end_mode_overflow now typed_end Hc) as Hend.
  unfold FetcherIO.get_dates_interactive. rewrite !Hs.
  destruct (Fetcher.parse_date_input now typed_start true)
    as [sd | [m |]]; cbn [bind]; [| | congruence].
  - destruct (Fetcher.parse_date_input now typed_end false)
      as [ed | [m |]]; cbn [bind].
    + split; [| split; [| split]].
      * intros s e. split; [intros [= <- <-]; auto | intros [[= <-] [= <-]]; reflexivity].
      * split; [discriminate|].
        intros [(msg & E) | (s & msg & _ & E)]; discriminate.
      * intros d. split; discriminate.
      * intros e. split; [discriminate|].
        intros (_ & _ & Hd). apply Hend in Hd. discriminate.
    + split; [| split; [| split]].
      * intros s e. split; [discriminate | intros [_ E]; discriminate].
      * split; [| reflexivity]. intros _. right. eauto.
      * intros d. split; discriminate.
      * intros e. split; [discriminate|].
        intros (_ & _ & Hd). apply Hend in Hd. discriminate.
    + split; [| split; [| split]].
      * intros s e. split; [discriminate | intros [_ E]; discriminate].
      * split; [discriminate|].
        intros [(msg & E) | (s & msg & _ & E)]; discriminate.
      * intros d. split; discriminate.
      * intros e. split.
        -- intros [= <-]. split; [reflexivity|]. split; [eauto|].
           now apply Hend.
        -- intros (-> & _ & _). reflexivity.
  - split; [| split; [| split]].
    + intros s e. split; [discriminate | intros [E _]; discriminate].
    + split; [| reflexivity]. intros _. left. eauto.
    + intros d. split; discriminate.
    + intros e. split; [discriminate|].
      intros (_ & (s & E) & _). discriminate.
Qed.

Lemma get_dates_interactive_both_or_neither_witness :
  clock_ok Sample.now = true
  /\ FetcherIO.get_dates_interactive Sample.now "2023" " 0000-12 "
     = Raise OverflowError
  /\ FetcherIO.get_dates_interactive Sample.now "2023" "2023-13"
     = Ok (None, None)
  /\ FetcherIO.get_dates_interactive Sample.now "2023" "2023-02"
     = Ok (Some "2023-01-01", Some "2023-02-28").
Proof.
  split; [reflexivity|].
  destruct (get_dates_interactive_both_or_neither Sample.now "2023"
              " 0000-12 " eq_refl) as (_ & _ & _ & Hraise).
  split.
  { apply Hraise. split; [reflexivity|]. split; [eexists; reflexivity|].
    split; [reflexivity|]. split; [reflexivity|].
    exists "0000", "12". repeat split. }
  destruct (get_dates_interactive_both_or_neither Sample.now "2023"
              "2023-13" eq_refl) as (_ & Hnone & _).
  split.
  { apply Hnone. right. eexists; eexists. split; reflexivity. }
  destruct (get_dates_interactive_both_or_neither Sample.now "2023"
              "2023-02" eq_refl) as (Hboth & _).
  apply Hboth. split; reflexivity.
Defined.

(** ** Start and end together *)

(** X13: a year after the current one, given as start and as end.  The
    start is kept and the end is replaced by yesterday's date, so the range
    handed on starts after it ends; nothing in the fetcher compares the two
    dates. *)
Theorem future_year_starts_after_it_ends (now : datetime) (y : Z) :
  clock_ok now = true -> year now < y <= 9999 ->
  exists yesterday,
    sub_days now 1 = Ok yesterday
    /\ FetcherIO.get_dates_interactive now (str y) (str y)
       = Ok (Some (str y ++ "-01-01"), Some (strftime yesterday))
    /\ strptime (str y ++ "-01-01") = Ok (mkdt y 1 1 0 0 0 0)
    /\ strptime (strftime yesterday) = Ok (midnight yesterday)
    /\ date_after (mkdt y 1 1 0 0 0 0) (midnight yesterday) = true.
Proof.
  intros Hc Hy.
  destruct (clock_ok_inv now Hc) as [Hv Hyn].
  assert (Hy4 : 1000 <= y <= 9999) by lia.
  destruct (year_input_end_mode now y Hc Hy4) as (t & Ht & He).
  pose proof (year_input_start_mode now y Hc Hy4) as Hs.
  destruct (yesterday_ok now Hc) as (t' & Ht' & Hvt & Hyt & Hot & _).
  assert (t' = t) as -> by congruence.
  destruct (first_of_january y Hy4) as [Hv1 E1].
  destruct (last_of_december y Hy4) as (Hv2 & E2 & Ho2).
  pose proof (ordinal_in_year now Hv) as Hn.
  pose proof (ordinal_in_year _ Hv1) as H1. cbn [year] in H1.
  pose proof (days_before_year_mono (year now + 1) y ltac:(lia)) as Hm.
  pose proof (days_before_year_mono y (y + 1) ltac:(lia)) as Hm'.
  assert (Ha2 : date_after (mkdt y 12 31 0 0 0 0) t = true)
    by (apply date_after_ordinal; [assumption | assumption | lia]).
  rewrite Ha2 in He.
  exists t. split; [assumption|]. split; [| split; [| split]].
  - unfold FetcherIO.get_dates_interactive.
    destruct (year4 y Hy4) as (a & b & c & e & Es & _ & _ & _ & _ & _ & _ & Hst & _).
    rewrite Hst, Hs, He. reflexivity.
  - rewrite <- E1. apply (strptime_strftime _ Hv1). cbn; lia.
  - now apply strptime_strftime.
  - apply date_after_ordinal; [assumption | exact Hvt |].
    change (toordinal (midnight t)) with (toordinal t). lia.
Qed.

Lemma future_year_starts_after_it_ends_witness :
  clock_ok Sample.now = true
  /\ exists yesterday,
      sub_days Sample.now 1 = Ok yesterday
      /\ FetcherIO.get_dates_interactive Sample.now "2027" "2027"
         = Ok (Some "2027-01-01", Some (strftime yesterday))
      /\ strptime "2027-01-01" = Ok (mkdt 2027 1 1 0 0 0 0)
      /\ strptime (strftime yesterday) = Ok (midnight yesterday)
      /\ date_after (mkdt 2027 1 1 0 0 0 0) (midnight yesterday) = true.
Proof.
  split; [reflexivity|].
  apply (future_year_starts_after_it_ends Sample.now 2027);
    [reflexivity | cbn; lia].
Defined.

End ParseMore.

(* ================================================================== *)
(** * Whole runs of the two visualizers *)
(* ================================================================== *)

Module RunFacts.
Import Frame Manual FrameFacts EngineFacts.
Local Open Scope list_scope.

Section Facts.
Context {T : Type} `{Num T}.

(** X14: the rows that reach the aggregation of [visualizer.py] are the
    rows of the frame that pass one test, in frame order: the year selected
    with its end cut at the year before the current one (or, with no year
    selector, a year before the current one), the month selected, and a mean
    temperature present.  The exclusion of the current and later months of
    the current year plays no part in it. *)
Theorem visualizer_df_clean_filter (current_date : Py.datetime)
  (df : DataFrame T) year year_range month month_range clean :
  Visualizer.df_clean current_date df year year_range month month_range
  = inr clean ->
  clean
  = filter (fun r =>
              match year, year_range with
              | Some y, _ =>
                  Frame.year r =? Z.min y (Py.year current_date - 1)
              | None, Some (s, e) =>
                  (s <=? Frame.year r)
                  && (Frame.year r <=? Z.min e (Py.year current_date - 1))
              | None, None => Frame.year r <? Py.year current_date
              end
              && match month, month_range with
                 | Some m, _ => Frame.month r =? m
                 | None, Some (s, e) =>
                     if s <=? e
                     then (s <=? Frame.month r) && (Frame.month r <=? e)
                     else (s <=? Frame.month r) || (Frame.month r <=? e)
                 | None, None => true
                 end
              && notna (temp_mean r)) df.
Proof.
  unfold Visualizer.df_clean, Visualizer.filter_by_year,
    Visualizer.filter_by_month, dropna_temp_mean,
    Visualizer.not_current_period.
  set (cy := Py.year current_date). set (cm := Py.month current_date).
  intros E.
  destruct year as [y |]; [| destruct year_range as [[sy ey] |];
    [destruct (Z.geb_spec sy cy); [discriminate|] |]];
  injection E as <-;
  (destruct month as [m |]; [| destruct month_range as [[sm em] |];
    [destruct (sm <=? em) |]]);
  rewrite !filter_filter_and; apply filter_ext; intros r;
  destruct (notna (temp_mean r)); rewrite ?andb_true_r, ?andb_false_r;
    try reflexivity;
  repeat match goal with
         | |- context [if ?b then _ else _] => destruct b eqn:?
         end; lia.
Qed.

Lemma filter_all {A : Type} (f : A -> bool) (l : list A) :
  (forall x, In x l -> f x = true) -> filter f l = l.
Proof.
  induction l as [| x l IH]; cbn; intros Hf; [reflexivity|].
  rewrite (Hf x) by auto. f_equal. apply IH. intros; apply Hf; auto.
Qed.

(** After the year filter of [visualizer.py] no row of the current year is
    left, so the exclusion of the current period that opens the month filter
    removes nothing. *)
Lemma current_period_exclusion_removes_nothing (cy cm : Z)
  (df : DataFrame T) year year_range f :
  Visualizer.filter_by_year cy df year year_range = inr f ->
  filter (Visualizer.not_current_period cy cm) f = f.
Proof.
  intros E. apply filter_all. intros r Hr.
  unfold Visualizer.not_current_period.
  unfold Visualizer.filter_by_year in E.
  destruct year as [y |]; [| destruct year_range as [[sy ey] |];
    [destruct (Z.geb_spec sy cy); [discriminate|] |]];
  injection E as <-; apply filter_In in Hr; destruct Hr as [_ Hr];
  repeat match goal with
         | H : context [if ?b then _ else _] |- _ => destruct b eqn:?
         end; lia.
Qed.

Lemma visualizer_month_filter_as_openmeteo (cy cm : Z)
  (df : DataFrame T) year year_range f month month_range :
  Visualizer.filter_by_year cy df year year_range = inr f ->
  Visualizer.filter_by_month cy cm f month month_range
  = VisualizationOpenmeteo.filter_by_month f month month_range.
Proof.
  intros E. unfold Visualizer.filter_by_month,
    VisualizationOpenmeteo.filter_by_month.
  rewrite (current_period_exclusion_removes_nothing cy cm df year year_range f E).
  destruct month, month_range as [[? ?] |]; reflexivity.
Qed.

(** X15: the clock enters [visualize_weather_data] of [visualizer.py] only
    through the current year. *)
Theorem visualizer_depends_on_current_year_only
  (date1 date2 : Py.datetime) (df : DataFrame T)
  year year_range month month_range :
  Py.year date1 = Py.year date2 ->
  Visualizer.visualize_weather_data date1 df year year_range month month_range
  = Visualizer.visualize_weather_data date2 df
      year year_range month month_range.
Proof.
  intros Ey. unfold Visualizer.visualize_weather_data, Visualizer.df_clean.
  rewrite <- Ey.
  destruct (Visualizer.filter_by_year (Py.year date1) df year year_range)
    as [o | f] eqn:E; [reflexivity|].
  rewrite !(visualizer_month_filter_as_openmeteo _ _ _ _ _ _ _ _ E).
  reflexivity.
Qed.

(** X16: on a frame of past years, with selectors of past years, the two
    visualizers give the same outcome. *)
Theorem visualizers_agree_on_past_years (current_date : Py.datetime)
  (df : DataFrame T) year year_range month month_range :
  Forall (fun r => Frame.year r < Py.year current_date) df ->
  (forall y, year = Some y -> y < Py.year current_date) ->
  (forall s e, year_range = Some (s, e) ->
               s < Py.year current_date /\ e < Py.year current_date) ->
  Visualizer.visualize_weather_data current_date df
    year year_range month month_range
  = VisualizationOpenmeteo.visualize_weather_data df
      year year_range month month_range.
Proof.
  intros Hdf Hy Hr. rewrite Forall_forall in Hdf.
  unfold Visualizer.visualize_weather_data, Visualizer.df_clean,
    VisualizationOpenmeteo.visualize_weather_data,
    VisualizationOpenmeteo.df_clean.
  assert (E : Visualizer.filter_by_year (Py.year current_date) df
                year year_range
              = inr (VisualizationOpenmeteo.filter_by_year df year year_range)).
  { unfold Visualizer.filter_by_year, VisualizationOpenmeteo.filter_by_year.
    destruct year as [y |].
    - specialize (Hy y eq_refl).
      destruct (Z.geb_spec y (Py.year current_date)); [lia | reflexivity].
    - destruct year_range as [[s e] |].
      + destruct (Hr s e eq_refl) as [Hs He].
        destruct (Z.geb_spec e (Py.year current_date)); [lia|].
        destruct (Z.geb_spec s (Py.year current_date)); [lia | reflexivity].
      + f_equal. apply filter_all. intros r Hin.
        apply Z.ltb_lt, Hdf, Hin. }
  rewrite E.
  rewrite (visualizer_month_filter_as_openmeteo _ _ _ _ _ _ _ _ E).
  reflexivity.
Qed.

(** X17: a single year that is the current year or a later one is replaced
    by the year before the current one: the outcome and the default name of
    the chart file are those of that year. *)
Theorem visualizer_year_clamped (current_date : Py.datetime)
  (df : DataFrame T) (y : Z) year_range month month_range
  (location_coords : string) :
  Py.year current_date <= y ->
  Visualizer.visualize_weather_data current_date df
    (Some y) year_range month month_range
  = Visualizer.visualize_weather_data current_date df
      (Some (Py.year current_date - 1)) year_range month month_range
  /\ VisualizerOutput.output_file (Py.year current_date) location_coords
       (Some y) year_range month month_range None
     = VisualizerOutput.output_file (Py.year current_date) location_coords
         (Some (Py.year current_date - 1)) year_range month month_range None.
Proof.
  intros Hy. unfold Visualizer.visualize_weather_data, Visualizer.df_clean,
    Visualizer.filter_by_year, VisualizerOutput.output_file,
    VisualizerOutput.year_after_filter.
  destruct (Z.geb_spec y (Py.year current_date)); [|lia].
  destruct (Z.geb_spec (Py.year current_date - 1) (Py.year current_date)); [lia|].
  rewrite Z.min_r by lia. split; reflexivity.
Qed.

(** X18: a year range that starts before the current year and ends in it
    or later gives the outcome of the range cut at the year before the
    current one. *)
Theorem visualizer_year_range_clamped (current_date : Py.datetime)
  (df : DataFrame T) (s e : Z) month month_range :
  s < Py.year current_date -> Py.year current_date <= e ->
  Visualizer.visualize_weather_data current_date df
    None (Some (s, e)) month month_range
  = Visualizer.visualize_weather_data current_date df
      None (Some (s, Py.year current_date - 1)) month month_range.
Proof.
  intros Hs He. unfold Visualizer.visualize_weather_data, Visualizer.df_clean,
    Visualizer.filter_by_year.
  destruct (Z.geb_spec e (Py.year current_date)); [|lia].
  destruct (Z.geb_spec (Py.year current_date - 1) (Py.year current_date)); [lia|].
  destruct (Z.geb_spec s (Py.year current_date)); [lia|].
  rewrite Z.min_r by lia. reflexivity.
Qed.

(** A column of the rows of a year averages to a missing value exactly when
    every row of the year lacks it. *)
Lemma group_mean_of_year (col : Row T -> option T) (y : Z)
  (df : DataFrame T) :
  group_mean (map col (rows_of_year y df)) = None
  <-> forall r, In r df -> Frame.year r = y -> col r = None.
Proof.
  rewrite group_mean_none, Forall_forall. split.
  - intros Hall r Hin Hy. apply Hall, in_map, filter_In.
    split; [assumption | now apply Z.eqb_eq].
  - intros Hall v Hv. apply in_map_iff in Hv. destruct Hv as (r & <- & Hr).
    apply filter_In in Hr. destruct Hr as [Hin Hy].
    apply Hall; [assumption | now apply Z.eqb_eq].
Qed.

(** No two rows of the yearly statistics share a year. *)
Lemma groupby_years_nodup (df : DataFrame T) :
  NoDup (map s_year (groupby_year_mean df)).
Proof.
  pose proof (groupby_sorted df) as Hs.
  apply Sorted_StronglySorted in Hs; [| intros a b c; apply Z.lt_trans].
  induction Hs as [| y ys _ IH Hall]; constructor; [| exact IH].
  intros Hin. rewrite Forall_forall in Hall. specialize (Hall y Hin). lia.
Qed.

(** With no mean temperature missing in the frame, none is missing in the
    yearly statistics. *)
Lemma groupby_has_mean (df : DataFrame T) s :
  Forall (fun r => temp_mean r <> None) df ->
  In s (groupby_year_mean df) -> s_temp_mean s <> None.
Proof.
  intros Hmean Hs. rewrite Forall_forall in Hmean.
  apply groupby_In in Hs. destruct Hs as [Hne Es].
  rewrite Es. cbn [s_temp_mean year_stat]. intros E.
  pose proof (proj1 (group_mean_of_year temp_mean _ df) E) as E'.
  destruct (rows_of_year (s_year s) df) as [| r rows] eqn:Er; [congruence|].
  assert (Hr : In r (rows_of_year (s_year s) df)) by (rewrite Er; now left).
  apply filter_In in Hr. destruct Hr as [Hin Hy].
  apply (Hmean r Hin), E'; [assumption | now apply Z.eqb_eq].
Qed.

(** X19: the yearly statistics of a frame without missing mean
    temperatures.  There is a row for a year exactly when the frame has a
    row of that year, no two rows share a year, no mean temperature is
    missing, and the mean of the minima of a year is missing exactly when
    every row of the year lacks its minimum (the same for the maxima). *)
Theorem groupby_year_mean_rows (df : DataFrame T) :
  Forall (fun r => temp_mean r <> None) df ->
  NoDup (map s_year (groupby_year_mean df))
  /\ (forall y, In y (map s_year (groupby_year_mean df))
                <-> In y (map Frame.year df))
  /\ (forall s, In s (groupby_year_mean df) ->
        s_temp_mean s <> None
        /\ (s_temp_min s = None
            <-> forall r, In r df -> Frame.year r = s_year s ->
                          temp_min r = None)
        /\ (s_temp_max s = None
            <-> forall r, In r df -> Frame.year r = s_year s ->
                          temp_max r = None)).
Proof.
  intros Hmean.
  split; [apply groupby_years_nodup | split].
  - intros y. rewrite !in_map_iff. split.
    + intros (s & <- & Hs). apply groupby_In in Hs. destruct Hs as [Hne _].
      destruct (rows_of_year (s_year s) df) as [| r rows] eqn:Er; [congruence|].
      assert (Hr : In r (rows_of_year (s_year s) df)) by (rewrite Er; now left).
      apply filter_In in Hr. destruct Hr as [Hin Hy].
      exists r. split; [now apply Z.eqb_eq | assumption].
    + intros (r & <- & Hin). exists (year_stat (Frame.year r) df).
      split; [reflexivity|]. apply groupby_In. split; [|reflexivity].
      cbn [s_year year_stat]. intros E.
      assert (Hr : In r (rows_of_year (Frame.year r) df))
        by (apply filter_In; split; [assumption | apply Z.eqb_refl]).
      rewrite E in Hr. contradiction.
  - intros s Hs. split; [now apply (groupby_has_mean df) |].
    apply groupby_In in Hs. destruct Hs as [Hne Es].
    rewrite Es. cbn [s_year s_temp_min s_temp_max year_stat].
    split; apply group_mean_of_year.
Qed.

Lemma dropna_has_mean (df : DataFrame T) :
  Forall (fun r => temp_mean r <> None) (dropna_temp_mean df).
Proof.
  apply Forall_forall. intros r Hr. apply filter_In in Hr.
  destruct Hr as [_ Hr]. destruct (temp_mean r); [discriminate | discriminate].
Qed.

(** X20: whenever either visualizer makes a chart, the yearly statistics are
    not empty, have one row per year and a mean temperature in every row. *)
Theorem chart_has_a_mean_for_every_year (current_date : Py.datetime)
  (df : DataFrame T) year year_range month month_range stats :
  Visualizer.visualize_weather_data current_date df
    year year_range month month_range = Chart stats
  \/ VisualizationOpenmeteo.visualize_weather_data df
       year year_range month month_range = Chart stats ->
  stats <> []
  /\ NoDup (map s_year stats)
  /\ Forall (fun s => s_temp_mean s <> None) stats.
Proof.
  assert (Hgen : forall clean : DataFrame T,
             clean <> [] ->
             Forall (fun r => temp_mean r <> None) clean ->
             groupby_year_mean clean <> []
             /\ NoDup (map s_year (groupby_year_mean clean))
             /\ Forall (fun s => s_temp_mean s <> None)
                  (groupby_year_mean clean)).
  { intros clean Hne Hm.
    split; [now apply groupby_nonempty|].
    split; [apply groupby_years_nodup|].
    apply Forall_forall. intros s Hs. now apply (groupby_has_mean clean). }
  intros [E | E].
  - unfold Visualizer.visualize_weather_data in E.
    destruct (Visualizer.df_clean current_date df year year_range month
                month_range) as [o | clean] eqn:Ec.
    + subst o. unfold Visualizer.df_clean, Visualizer.filter_by_year in Ec.
      destruct year; [discriminate|].
      destruct year_range as [[sy ey] |]; [|discriminate].
      destruct (sy >=? Py.year current_date); discriminate.
    + destruct clean as [| r clean]; [discriminate|]. cbn [empty] in E.
      injection E as <-. apply Hgen; [discriminate|].
      unfold Visualizer.df_clean in Ec.
      destruct (Visualizer.filter_by_year _ _ _ _); [discriminate|].
      injection Ec as <-. apply dropna_has_mean.
  - unfold VisualizationOpenmeteo.visualize_weather_data in E.
    destruct (VisualizationOpenmeteo.df_clean df year year_range month
                month_range) as [| r clean] eqn:Ec; [discriminate|].
    cbn [empty] in E. injection E as <-. apply Hgen; [discriminate|].
    rewrite <- Ec. apply dropna_has_mean.
Qed.

(** X21: the whole run of either script on [--year 0 --year-range S E] with
    [S <= E].  The range is accepted and then ignored: for a frame of real
    dates (years from 1 on) nothing is charted and the run ends with the
    message that no usable data was found. *)
Theorem year_zero_with_range_charts_nothing (current_date : Py.datetime)
  (df : DataFrame T) (s e : Z) :
  s <= e ->
  0 < Py.year current_date ->
  Forall (fun r => 1 <= Frame.year r) df ->
  Script.visualizer current_date df
    (Visualizer.mkArgs (Some 0) (Some (s, e)) None None)
  = Script.Returned NoUsableData
  /\ Script.visualization_openmeteo df
       (VisualizationOpenmeteo.mkArgs (Some 0) (Some (s, e)) None None)
     = Script.Returned NoUsableData.
Proof.
  intros Hse Hcy Hdf. rewrite Forall_forall in Hdf.
  assert (Hnone : filter (fun r : Row T => Frame.year r =? 0) df = []).
  { apply filter_none. intros r Hr. specialize (Hdf r Hr). cbn in Hdf.
    apply Z.eqb_neq. lia. }
  unfold Script.visualizer, Script.visualization_openmeteo,
    Visualizer.main, VisualizationOpenmeteo.main. cbn.
  destruct (Z.gtb_spec s e); [lia|]. split.
  - unfold Visualizer.visualize_weather_data, Visualizer.df_clean,
      Visualizer.filter_by_year.
    destruct (Z.geb_spec 0 (Py.year current_date)); [lia|].
    rewrite Hnone. reflexivity.
  - unfold VisualizationOpenmeteo.visualize_weather_data,
      VisualizationOpenmeteo.df_clean, VisualizationOpenmeteo.filter_by_year.
    rewrite Hnone. reflexivity.
Qed.

End Facts.

Lemma visualizer_df_clean_filter_witness :
  Visualizer.df_clean Sample.now Sample.df None (Some (2022, 2030)) (Some 12) None
  = inr [Sample.row 2022 12 1 (Some 2%Q) (Some 6%Q) (Some 4%Q)]
  /\ [Sample.row 2022 12 1 (Some 2%Q) (Some 6%Q) (Some 4%Q)]
     = filter (fun r => (2022 <=? Frame.year r) && (Frame.year r <=? 2025)
                        && (Frame.month r =? 12) && notna (temp_mean r))
         Sample.df.
Proof.
  split; [reflexivity|].
  apply (visualizer_df_clean_filter Sample.now Sample.df
           None (Some (2022, 2030)) (Some 12) None).
  reflexivity.
Defined.

(** The sample clock and the first of January of its year. *)
Lemma visualizer_depends_on_current_year_only_witness :
  Py.year Sample.now = Py.year (Py.mkdt 2026 1 1 0 0 0 0)
  /\ Visualizer.visualize_weather_data Sample.now Sample.df
       None None (Some 12) None
     = Visualizer.visualize_weather_data (Py.mkdt 2026 1 1 0 0 0 0) Sample.df
         None None (Some 12) None.
Proof.
  split; [reflexivity|].
  apply (visualizer_depends_on_current_year_only Sample.now
           (Py.mkdt 2026 1 1 0 0 0 0) Sample.df None None (Some 12) None).
  reflexivity.
Defined.

Lemma visualizers_agree_on_past_years_witness :
  Forall (fun r => Frame.year r < Py.year Sample.now) Sample.df
  /\ Visualizer.visualize_weather_data Sample.now Sample.df
       None (Some (2021, 2022)) None (Some (11, 2))
     = VisualizationOpenmeteo.visualize_weather_data Sample.df
         None (Some (2021, 2022)) None (Some (11, 2)).
Proof.
  assert (H : Forall (fun r => Frame.year r < Py.year Sample.now) Sample.df)
    by (repeat (apply Forall_cons; [reflexivity|]); apply Forall_nil).
  split; [exact H|].
  apply (visualizers_agree_on_past_years Sample.now Sample.df
           None (Some (2021, 2022)) None (Some (11, 2)) H).
  - intros y Hy. discriminate Hy.
  - intros s e Hr. injection Hr as <- <-. split; reflexivity.
Defined.

Lemma visualizer_year_clamped_witness :
  Py.year Sample.now <= 2030
  /\ Visualizer.visualize_weather_data Sample.now Sample.df
       (Some 2030) None None None
     = Visualizer.visualize_weather_data Sample.now Sample.df
         (Some 2025) None None None
  /\ VisualizerOutput.output_file 2026 "44.7_10.63" (Some 2030) None None None
       None
     = VisualizerOutput.output_file 2026 "44.7_10.63" (Some 2025) None None
         None None.
Proof.
  split; [cbn; lia|].
  apply (visualizer_year_clamped Sample.now Sample.df 2030 None None None
           "44.7_10.63").
  cbn; lia.
Defined.

(** The file name of a chart asked for the year 2030 in 2026. *)
Example chart_file_of_a_future_year :
  VisualizerOutput.output_file 2026 "44.7_10.63" (Some 2030) None (Some 7) None
    None
  = "img/weather_trend_44.7_10.63_year2025_month07.png".
Proof. reflexivity. Qed.

Lemma visualizer_year_range_clamped_witness :
  2021 < Py.year Sample.now /\ Py.year Sample.now <= 2030
  /\ Visualizer.visualize_weather_data Sample.now Sample.df
       None (Some (2021, 2030)) None None
     = Visualizer.visualize_weather_data Sample.now Sample.df
         None (Some (2021, 2025)) None None.
Proof.
  split; [cbn; lia|]. split; [cbn; lia|].
  apply (visualizer_year_range_clamped Sample.now Sample.df 2021 2030 None None);
    cbn; lia.
Defined.

(** The sample frame once the row without a mean temperature is dropped:
    the row left for 2022 in November lacks its minimum. *)
Lemma groupby_year_mean_rows_witness :
  Forall (fun r => temp_mean r <> None) (dropna_temp_mean Sample.df)
  /\ NoDup (map s_year (groupby_year_mean (dropna_temp_mean Sample.df)))
  /\ (forall y,
        In y (map s_year (groupby_year_mean (dropna_temp_mean Sample.df)))
        <-> In y (map Frame.year (dropna_temp_mean Sample.df)))
  /\ (forall s, In s (groupby_year_mean (dropna_temp_mean Sample.df)) ->
        s_temp_mean s <> None
        /\ (s_temp_min s = None
            <-> forall r, In r (dropna_temp_mean Sample.df) ->
                          Frame.year r = s_year s -> temp_min r = None)
        /\ (s_temp_max s = None
            <-> forall r, In r (dropna_temp_mean Sample.df) ->
                          Frame.year r = s_year s -> temp_max r = None)).
Proof.
  assert (H : Forall (fun r => temp_mean r <> None)
                (dropna_temp_mean Sample.df))
    by (cbn; repeat (apply Forall_cons; [discriminate|]); apply Forall_nil).
  exact (conj H (groupby_year_mean_rows (dropna_temp_mean Sample.df) H)).
Defined.

Lemma chart_has_a_mean_for_every_year_witness :
  Visualizer.visualize_weather_data Sample.now Sample.df
    None (Some (2021, 2022)) None None
  = Chart [ mkStat 2021 (Some (23 # 2)%Q) (Some (16 # 2)%Q) (Some (30 # 2)%Q);
            mkStat 2022 (Some (11 # 2)%Q) (Some (2 # 1)%Q) (Some (15 # 2)%Q) ]
  /\ [ mkStat 2021 (Some (23 # 2)%Q) (Some (16 # 2)%Q) (Some (30 # 2)%Q);
       mkStat 2022 (Some (11 # 2)%Q) (Some (2 # 1)%Q) (Some (15 # 2)%Q) ] <> []
  /\ NoDup (map s_year
              [ mkStat 2021 (Some (23 # 2)%Q) (Some (16 # 2)%Q)
                  (Some (30 # 2)%Q);
                mkStat 2022 (Some (11 # 2)%Q) (Some (2 # 1)%Q)
                  (Some (15 # 2)%Q) ])
  /\ Forall (fun s => s_temp_mean s <> None)
       [ mkStat 2021 (Some (23 # 2)%Q) (Some (16 # 2)%Q) (Some (30 # 2)%Q);
         mkStat 2022 (Some (11 # 2)%Q) (Some (2 # 1)%Q) (Some (15 # 2)%Q) ].
Proof.
  split; [reflexivity|].
  apply (chart_has_a_mean_for_every_year Sample.now Sample.df
           None (Some (2021, 2022)) None None).
  left. reflexivity.
Defined.

Lemma year_zero_with_range_charts_nothing_witness :
  2000 <= 2010 /\ 0 < Py.year Sample.now
  /\ Forall (fun r => 1 <= Frame.year r) Sample.df
  /\ Script.visualizer Sample.now Sample.df
       (Visualizer.mkArgs (Some 0) (Some (2000, 2010)) None None)
     = Script.Returned NoUsableData
  /\ Script.visualization_openmeteo Sample.df
       (VisualizationOpenmeteo.mkArgs (Some 0) (Some (2000, 2010)) None None)
     = Script.Returned NoUsableData.
Proof.
  assert (H : Forall (fun r => 1 <= Frame.year r) Sample.df)
    by (repeat (apply Forall_cons; [cbn; lia|]); apply Forall_nil).
  split; [lia|]. split; [reflexivity|]. split; [exact H|].
  apply (year_zero_with_range_charts_nothing Sample.now Sample.df 2000 2010);
    [lia | reflexivity | exact H].
Defined.

End RunFacts.

(* ================================================================== *)
(** * Runs that leave no row *)
(* ================================================================== *)

Module NoDataFacts.
Import Frame Manual FrameFacts EngineFacts RunFacts Selection.
Local Open Scope list_scope.

Section Facts.
Context {T : Type} `{Num T}.

Lemma filter_nil_iff {A : Type} (f : A -> bool) (l : list A) :
  filter f l = [] <-> forall x, In x l -> f x = false.
Proof.
  split; [| apply filter_none].
  induction l as [| x l IH]; cbn; intros E y Hy; [contradiction|].
  destruct (f x) eqn:Ex; [discriminate|].
  destruct Hy as [<- | Hy]; [assumption | now apply IH].
Qed.

(** The rows that [visualization_openmeteo.py] aggregates are the rows
    asked for that have a mean temperature. *)
Lemma openmeteo_rows_left (df : DataFrame T) year year_range month month_range :
  VisualizationOpenmeteo.df_clean df year year_range month month_range
  = filter (left_openmeteo year year_range month month_range) df.
Proof.
  unfold VisualizationOpenmeteo.df_clean,
    VisualizationOpenmeteo.filter_by_year,
    VisualizationOpenmeteo.filter_by_month, dropna_temp_mean,
    left_openmeteo, in_years, in_months.
  destruct year as [y |]; [| destruct year_range as [[sy ey] |]];
  (destruct month as [m |]; [| destruct month_range as [[sm em] |];
    [destruct (sm <=? em) |]]);
  rewrite ?filter_filter_and; apply filter_ext; intros r;
  destruct (notna (temp_mean r)); rewrite ?andb_true_r, ?andb_false_r;
    try reflexivity;
  repeat match goal with
         | |- context [?a >=? ?b] => rewrite (Z.geb_leb a b)
         end; reflexivity.
Qed.

(** The same for [visualizer.py], when it gets as far as filtering. *)
Lemma visualizer_rows_left (current_date : Py.datetime) (df : DataFrame T)
  year year_range month month_range :
  filters_run (Py.year current_date) year year_range = true ->
  Visualizer.df_clean current_date df year year_range month month_range
  = inr (filter (left_visualizer (Py.year current_date)
                   year year_range month month_range) df).
Proof.
  unfold Visualizer.df_clean, Visualizer.filter_by_year,
    Visualizer.filter_by_month, dropna_temp_mean,
    Visualizer.not_current_period, filters_run,
    left_visualizer, in_past_years, in_months.
  set (cy := Py.year current_date). set (cm := Py.month current_date).
  intros Hrun.
  destruct year as [y |]; [| destruct year_range as [[sy ey] |];
    [destruct (Z.geb_spec sy cy); [apply Z.ltb_lt in Hrun; lia|] |]];
  f_equal;
  (destruct month as [m |]; [| destruct month_range as [[sm em] |];
    [destruct (sm <=? em) |]]);
  rewrite !filter_filter_and; apply filter_ext; intros r;
  destruct (notna (temp_mean r)); rewrite ?andb_true_r, ?andb_false_r;
    try reflexivity;
  repeat match goal with
         | |- context [if ?b then _ else _] => destruct b eqn:?
         end; lia.
Qed.

(** C8: a payload and a combination of selectors that leave no row.  In
    [visualization_openmeteo.py] no row of the frame is asked for with a
    mean temperature present exactly when the run ends with the message
    that no usable data was found.  The same holds in [visualizer.py]
    whenever it gets as far as filtering; given a year range that starts in
    the current year or later it returns before, with its message that no
    data is available, and no row is left either.  In all these runs the
    return comes before any yearly statistics and before the plotting calls,
    so that whether those would raise plays no part; and a run that does
    reach them has rows left and yearly statistics that are not empty. *)
Theorem C8_no_rows_no_chart (plot : list (YearlyStat T) -> bool)
  (current_date : Py.datetime) (df : DataFrame T)
  (year : option Z) (year_range : option (Z * Z))
  (month : option Z) (month_range : option (Z * Z)) :
  ((forall r, In r df ->
              left_openmeteo year year_range month month_range r = false)
   <-> Plot.visualization_openmeteo plot df year year_range month month_range
       = Plot.ReturnedNoUsableData)
  /\ (filters_run (Py.year current_date) year year_range = true ->
      ((forall r, In r df ->
                  left_visualizer (Py.year current_date)
                    year year_range month month_range r = false)
       <-> Plot.visualizer plot current_date df
             year year_range month month_range
           = Plot.ReturnedNoUsableData))
  /\ (filters_run (Py.year current_date) year year_range = false ->
      (forall r, In r df ->
                 left_visualizer (Py.year current_date)
                   year year_range month month_range r = false)
      /\ exists start_year,
           Plot.visualizer plot current_date df
             year year_range month month_range
           = Plot.ReturnedNoDataAvailable start_year)
  /\ (forall stats,
        Plot.visualization_openmeteo plot df year year_range month month_range
        = Plot.ChartSaved stats
        \/ Plot.visualization_openmeteo plot df
             year year_range month month_range
           = Plot.Raised stats
        \/ Plot.visualizer plot current_date df
             year year_range month month_range
           = Plot.ChartSaved stats
        \/ Plot.visualizer plot current_date df
             year year_range month month_range
           = Plot.Raised stats ->
        stats <> []).
Proof.
  assert (Hend : forall clean : DataFrame T,
             Plot.finish plot (if empty clean then NoUsableData
                               else Chart (groupby_year_mean clean))
             = Plot.ReturnedNoUsableData <-> clean = []).
  { intros [| r clean]; cbn [empty Plot.finish]; [tauto|].
    destruct (plot _); split; discriminate. }
  assert (Hstats : forall (clean : DataFrame T) stats,
             Plot.finish plot (if empty clean then NoUsableData
                               else Chart (groupby_year_mean clean))
             = Plot.ChartSaved stats
             \/ Plot.finish plot (if empty clean then NoUsableData
                                  else Chart (groupby_year_mean clean))
                = Plot.Raised stats ->
             stats <> []).
  { intros [| r clean] stats; cbn [empty Plot.finish];
      [intros [E | E]; discriminate|].
    assert (Hne : groupby_year_mean (r :: clean) <> [])
      by (apply groupby_nonempty; discriminate).
    destruct (plot _); intros [E | E]; try discriminate;
      injection E as <-; exact Hne. }
  split; [| split; [| split]].
  - unfold Plot.visualization_openmeteo,
      VisualizationOpenmeteo.visualize_weather_data.
    rewrite Hend, openmeteo_rows_left. symmetry. apply filter_nil_iff.
  - intros Hrun. unfold Plot.visualizer, Visualizer.visualize_weather_data.
    rewrite (visualizer_rows_left _ _ _ _ _ _ Hrun).
    rewrite Hend. symmetry. apply filter_nil_iff.
  - unfold filters_run. intros Hrun.
    destruct year as [y |]; [discriminate|].
    destruct year_range as [[sy ey] |]; [|discriminate].
    apply Z.ltb_ge in Hrun. split.
    + intros r _. unfold left_visualizer, in_past_years.
      destruct (Z.leb_spec sy (Frame.year r)); [| reflexivity].
      destruct (Z.leb_spec (Frame.year r) (Z.min ey (Py.year current_date - 1)));
        [lia | reflexivity].
    + exists sy. unfold Plot.visualizer, Visualizer.visualize_weather_data,
        Visualizer.df_clean, Visualizer.filter_by_year.
      destruct (Z.geb_spec sy (Py.year current_date)); [reflexivity | lia].
  - intros stats Hs.
    unfold Plot.visualization_openmeteo, Plot.visualizer,
      VisualizationOpenmeteo.visualize_weather_data,
      Visualizer.visualize_weather_data in Hs.
    destruct Hs as [E | [E | Hs]];
      [ apply (Hstats (VisualizationOpenmeteo.df_clean df year year_range
                         month month_range) stats); now left
      | apply (Hstats (VisualizationOpenmeteo.df_clean df year year_range
                         month month_range) stats); now right |].
    destruct (Visualizer.df_clean current_date df year year_range month
                month_range) as [o | clean] eqn:Ec.
    + unfold Visualizer.df_clean, Visualizer.filter_by_year in Ec.
      destruct year; [discriminate|].
      destruct year_range as [[sy ey] |]; [|discriminate].
      destruct (sy >=? Py.year current_date); [| discriminate].
      injection Ec as <-. destruct Hs as [E | E]; discriminate.
    + apply (Hstats clean stats). exact Hs.
Qed.

End Facts.

(** The sample frame has no row of 1999: both runs end with the message,
    also when the plotting calls would raise for any statistics. *)
Lemma C8_witness :
  (forall r, In r Sample.df ->
             left_openmeteo (Some 1999) None None None r = false)
  /\ Plot.visualization_openmeteo (fun _ => false) Sample.df
       (Some 1999) None None None
     = Plot.ReturnedNoUsableData
  /\ filters_run (Py.year Sample.now) (Some 1999) None = true
  /\ (forall r, In r Sample.df ->
                left_visualizer (Py.year Sample.now)
                  (Some 1999) None None None r = false)
  /\ Plot.visualizer (fun _ => false) Sample.now Sample.df
       (Some 1999) None None None
     = Plot.ReturnedNoUsableData.
Proof.
  assert (Ho : forall r, In r Sample.df ->
                 left_openmeteo (Some 1999) None None None r = false).
  { intros r Hr.
    repeat (destruct Hr as [<- | Hr]; [reflexivity|]). contradiction. }
  assert (Hv : forall r, In r Sample.df ->
                 left_visualizer (Py.year Sample.now)
                   (Some 1999) None None None r = false).
  { intros r Hr.
    repeat (destruct Hr as [<- | Hr]; [reflexivity|]). contradiction. }
  destruct (C8_no_rows_no_chart (fun _ => false) Sample.now Sample.df
              (Some 1999) None None None) as (Hopen & Hvis & _).
  split; [exact Ho|]. split; [exact (proj1 Hopen Ho)|].
  split; [reflexivity|]. split; [exact Hv|].
  exact (proj1 (Hvis eq_refl) Hv).
Defined.

(** A year range that starts in the current year: [visualizer.py] returns
    before filtering, with its own message. *)
Example year_range_from_current_year_ends_early :
  Plot.visualizer (fun _ => true) Sample.now Sample.df
    None (Some (2026, 2027)) None None
  = Plot.ReturnedNoDataAvailable 2026.
Proof. reflexivity. Qed.

End NoDataFacts.
